(** * Discrepancy detection: a shallow embedding of [Discrepancy.py]

    The development follows the Python source function by function.

    - Python [str] values are sequences of Unicode code points ([pystr]).
    - Python [float] values are IEEE 754 binary64 numbers: Rocq's primitive
      [float], whose operations are the processor's.  Conversions from
      integers and decimal numerals round to nearest, ties to even, through
      [SpecFloat].
    - Code that can raise returns a [result]: [ZeroDivisionError] for a
      float [/] by zero, [IndexError] for a list index out of range,
      [ValueError] for [float] on a string that is no number.
    - Python dictionaries are iterated in insertion order, so they are
      association lists. *)

From Stdlib Require Import Ascii String DecimalString.
From Stdlib Require Import ZArith NArith Bool Lia Floats List Sorted Permutation.
Import ListNotations.

Set Implicit Arguments.

(** ** Exceptions *)

Inductive exn : Type :=
| ZeroDivisionError
| IndexError
| ValueError.

Inductive result (A : Type) : Type :=
| Ok (a : A)
| Raise (e : exn).

Arguments Ok {A} a.
Arguments Raise {A} e.

Definition bind {A B : Type} (r : result A) (k : A -> result B) : result B :=
  match r with
  | Ok a => k a
  | Raise e => Raise e
  end.

Notation "x <- r ;; k" := (bind r (fun x => k))
  (at level 61, r at next level, right associativity).
Notation "' pat <- r ;; k" := (bind r (fun x => match x with pat => k end))
  (at level 61, pat pattern, r at next level, right associativity).

(** A [for] loop whose body can raise, threading the loop state. *)
Fixpoint for_each {A S : Type} (body : S -> A -> result S) (xs : list A) (s : S)
  : result S :=
  match xs with
  | [] => Ok s
  | x :: xs' => s' <- body s x ;; for_each body xs' s'
  end.

(** ** Strings *)

Module PyStr.

(** A Python [str]: its code points, in order. *)
Definition pystr : Type := list N.

(** An ASCII literal of the source. *)
Definition lit (s : string) : pystr := map N_of_ascii (list_ascii_of_string s).

(** [not s] *)
Definition is_empty (s : pystr) : bool :=
  match s with
  | [] => true
  | _ :: _ => false
  end.

Definition eqb (a b : pystr) : bool :=
  if list_eq_dec N.eq_dec a b then true else false.

(** [str.isspace] for one character (CPython's [_PyUnicode_IsWhitespace]). *)
Definition isspace (c : N) : bool :=
  ((9 <=? c) && (c <=? 13) || (28 <=? c) && (c <=? 32)
   || (c =? 133) || (c =? 160) || (c =? 5760)
   || (8192 <=? c) && (c <=? 8202)
   || (c =? 8232) || (c =? 8233) || (c =? 8239) || (c =? 8287)
   || (c =? 12288))%N.

Fixpoint lstrip (s : pystr) : pystr :=
  match s with
  | c :: s' => if isspace c then lstrip s' else s
  | [] => []
  end.

Definition rstrip (s : pystr) : pystr := rev (lstrip (rev s)).

(** [s.strip()] *)
Definition strip (s : pystr) : pystr := rstrip (lstrip s).

Fixpoint startswith (p s : pystr) : bool :=
  match p, s with
  | [], _ => true
  | a :: p', b :: s' => (a =? b)%N && startswith p' s'
  | _ :: _, [] => false
  end.

(** [sub in s] *)
Fixpoint contains (sub s : pystr) : bool :=
  startswith sub s ||
  match s with
  | [] => false
  | _ :: s' => contains sub s'
  end.

(** [s.replace(old, new)] for a non-empty [old]: leftmost occurrences,
    not overlapping. *)
Fixpoint replace_from (fuel : nat) (old new s : pystr) : pystr :=
  match fuel with
  | O => s
  | S fuel' =>
      match s with
      | [] => []
      | c :: s' =>
          if startswith old s
          then new ++ replace_from fuel' old new (skipn (length old) s)
          else c :: replace_from fuel' old new s'
      end
  end.

Definition replace (old new s : pystr) : pystr :=
  replace_from (length s) old new s.

(** [sep.join(parts)] *)
Fixpoint join (sep : pystr) (parts : list pystr) : pystr :=
  match parts with
  | [] => []
  | [p] => p
  | p :: ps => p ++ sep ++ join sep ps
  end.

(** [str(n)] for a non-negative integer. *)
Definition str_of_N (n : N) : pystr := lit (NilZero.string_of_uint (N.to_uint n)).

End PyStr.

Import PyStr.

(** ** Floats *)

Module PyFloat.

Local Open Scope float_scope.

(** The binary64 number nearest to [p / q], ties to even ([0 < q]).  This
    is Python's [int / int], and [float(s)] on a decimal numeral. *)
Definition of_ratio (p : N) (q : positive) : float :=
  match p with
  | N0 => 0
  | Npos p' =>
      SF2Prim (SFdiv prec emax (S754_finite false p' 0) (S754_finite false q 0))
  end.

(** [float(n)] for a non-negative integer. *)
Definition float_of_N (n : N) : float := of_ratio n 1.

(** The float literals of the source, as Python reads them. *)
Definition lit_0_1 : float := of_ratio 1 10.
Definition lit_0_2 : float := of_ratio 2 10.
Definition lit_0_7 : float := of_ratio 7 10.
Definition lit_0_05 : float := of_ratio 5 100.
Definition lit_0_5 : float := of_ratio 5 10.

(** [a / b] raises on a zero divisor, of either sign. *)
Definition truediv (a b : float) : result float :=
  if b =? 0 then Raise ZeroDivisionError else Ok (a / b).

(** [a > b] *)
Definition gtb (a b : float) : bool := b <? a.

(** [max(a, b)]: the first argument unless the second is greater. *)
Definition max (a b : float) : float := if gtb b a then b else a.

(** The digits of [n], left-padded with zeros to [width] characters. *)
Definition zero_pad (width : nat) (n : N) : pystr :=
  let ds := str_of_N n in
  repeat 48%N (width - length ds) ++ ds.

(** [q] scaled decimal digits: integer part, and [d] fractional digits
    after a point when [0 < d]. *)
Definition fixed_digits (d : nat) (q : N) : pystr :=
  let scale := (10 ^ N.of_nat d)%N in
  str_of_N (q / scale)%N ++
  match d with
  | O => []
  | S _ => 46%N :: zero_pad d (q mod scale)%N
  end.

(** [m * 2^e * 10^d] rounded to an integer, ties to even. *)
Definition round_scaled (d : nat) (m : positive) (e : Z) : N :=
  let num := (Npos m * 10 ^ N.of_nat d)%N in
  match e with
  | Zneg k =>
      let den := (2 ^ Npos k)%N in
      let q := (num / den)%N in
      let r := (num mod den)%N in
      match (2 * r ?= den)%N with
      | Lt => q
      | Gt => (q + 1)%N
      | Eq => if N.even q then q else (q + 1)%N
      end
  | _ => (num * 2 ^ Z.to_N e)%N
  end.

Definition sign_str (s : bool) : pystr := if s then [45%N] else [].

(** [format(x, '.<d>f')]: fixed notation with [d] fractional digits,
    correctly rounded from the exact binary value. *)
Definition format_f (d : nat) (x : float) : pystr :=
  match Prim2SF x with
  | S754_nan => lit "nan"
  | S754_infinity s => sign_str s ++ lit "inf"
  | S754_zero s => sign_str s ++ fixed_digits d 0
  | S754_finite s m e => sign_str s ++ fixed_digits d (round_scaled d m e)
  end.

(** A number: every float but NaN. *)
Definition not_nan (x : float) : Prop := is_nan x = false.

End PyFloat.

Import PyFloat.

(** [xs[0]] and [xs[-1]] *)
Definition item_first {A : Type} (xs : list A) : result A :=
  match xs with
  | x :: _ => Ok x
  | [] => Raise IndexError
  end.

Fixpoint item_last {A : Type} (xs : list A) : result A :=
  match xs with
  | [] => Raise IndexError
  | [x] => Ok x
  | _ :: xs' => item_last xs'
  end.

(** [list.sort()]: a stable insertion sort on the list's [<].  Python's
    sort is stable and calls only [<], so the two agree whenever [<] orders
    the elements (no NaN among them). *)
Section Sorting.
Variable A : Type.
Variable lt : A -> A -> bool.

Fixpoint insert_sorted (x : A) (xs : list A) : list A :=
  match xs with
  | [] => [x]
  | y :: ys => if lt y x then y :: insert_sorted x ys else x :: y :: ys
  end.

Definition sorted (xs : list A) : list A := fold_right insert_sorted [] xs.
End Sorting.


(** ** Unicode data

    The character classes the program consults, from the Unicode 14
    database of CPython 3.11: decimal digits (category Nd, the class of
    [\d] and of the digits [float] accepts), the lowercase mapping of
    [str.lower] with the characters that decide whether a capital sigma
    is final (the properties Cased and Case_Ignorable), and the word
    characters of [\w] and [\b] ([c.isalnum() or c == '_']). *)

Module Unicode.

(** First code points of the blocks of ten decimal digits [0..9]. *)
Definition decimal_blocks : list N :=
  [
   48; 1632; 1776; 1984; 2406; 2534; 2662; 2790; 2918; 3046; 3174; 3302;
   3430; 3558; 3664; 3792; 3872; 4160; 4240; 6112; 6160; 6470; 6608; 6784;
   6800; 6992; 7088; 7232; 7248; 42528; 43216; 43264; 43472; 43504; 43600;
   44016; 65296; 66720; 68912; 69734; 69872; 69942; 70096; 70384; 70736;
   70864; 71248; 71360; 71472; 71904; 72016; 72784; 73040; 73120; 92768;
   92864; 93008; 120782; 120792; 120802; 120812; 120822; 123200; 123632;
   125264; 130032
  ]%N.

Definition lowercase_runs : list (Z * Z * Z * Z) :=
  [
   (65, 90, 1, 32); (192, 214, 1, 32); (216, 222, 1, 32); (256, 302, 2,
   1); (306, 310, 2, 1); (313, 327, 2, 1); (330, 374, 2, 1); (376, 376, 1,
   -121); (377, 381, 2, 1); (385, 385, 1, 210); (386, 388, 2, 1); (390,
   390, 1, 206); (391, 391, 1, 1); (393, 394, 1, 205); (395, 395, 1, 1);
   (398, 398, 1, 79); (399, 399, 1, 202); (400, 400, 1, 203); (401, 401,
   1, 1); (403, 403, 1, 205); (404, 404, 1, 207); (406, 406, 1, 211);
   (407, 407, 1, 209); (408, 408, 1, 1); (412, 412, 1, 211); (413, 413, 1,
   213); (415, 415, 1, 214); (416, 420, 2, 1); (422, 422, 1, 218); (423,
   423, 1, 1); (425, 425, 1, 218); (428, 428, 1, 1); (430, 430, 1, 218);
   (431, 431, 1, 1); (433, 434, 1, 217); (435, 437, 2, 1); (439, 439, 1,
   219); (440, 440, 1, 1); (444, 444, 1, 1); (452, 452, 1, 2); (453, 453,
   1, 1); (455, 455, 1, 2); (456, 456, 1, 1); (458, 458, 1, 2); (459, 475,
   2, 1); (478, 494, 2, 1); (497, 497, 1, 2); (498, 500, 2, 1); (502, 502,
   1, -97); (503, 503, 1, -56); (504, 542, 2, 1); (544, 544, 1, -130);
   (546, 562, 2, 1); (570, 570, 1, 10795); (571, 571, 1, 1); (573, 573, 1,
   -163); (574, 574, 1, 10792); (577, 577, 1, 1); (579, 579, 1, -195);
   (580, 580, 1, 69); (581, 581, 1, 71); (582, 590, 2, 1); (880, 882, 2,
   1); (886, 886, 1, 1); (895, 895, 1, 116); (902, 902, 1, 38); (904, 906,
   1, 37); (908, 908, 1, 64); (910, 911, 1, 63); (913, 929, 1, 32); (931,
   939, 1, 32); (975, 975, 1, 8); (984, 1006, 2, 1); (1012, 1012, 1, -60);
   (1015, 1015, 1, 1); (1017, 1017, 1, -7); (1018, 1018, 1, 1); (1021,
   1023, 1, -130); (1024, 1039, 1, 80); (1040, 1071, 1, 32); (1120, 1152,
   2, 1); (1162, 1214, 2, 1); (1216, 1216, 1, 15); (1217, 1229, 2, 1);
   (1232, 1326, 2, 1); (1329, 1366, 1, 48); (4256, 4293, 1, 7264); (4295,
   4295, 1, 7264); (4301, 4301, 1, 7264); (5024, 5103, 1, 38864); (5104,
   5109, 1, 8); (7312, 7354, 1, -3008); (7357, 7359, 1, -3008); (7680,
   7828, 2, 1); (7838, 7838, 1, -7615); (7840, 7934, 2, 1); (7944, 7951,
   1, -8); (7960, 7965, 1, -8); (7976, 7983, 1, -8); (7992, 7999, 1, -8);
   (8008, 8013, 1, -8); (8025, 8031, 2, -8); (8040, 8047, 1, -8); (8072,
   8079, 1, -8); (8088, 8095, 1, -8); (8104, 8111, 1, -8); (8120, 8121, 1,
   -8); (8122, 8123, 1, -74); (8124, 8124, 1, -9); (8136, 8139, 1, -86);
   (8140, 8140, 1, -9); (8152, 8153, 1, -8); (8154, 8155, 1, -100); (8168,
   8169, 1, -8); (8170, 8171, 1, -112); (8172, 8172, 1, -7); (8184, 8185,
   1, -128); (8186, 8187, 1, -126); (8188, 8188, 1, -9); (8486, 8486, 1,
   -7517); (8490, 8490, 1, -8383); (8491, 8491, 1, -8262); (8498, 8498, 1,
   28); (8544, 8559, 1, 16); (8579, 8579, 1, 1); (9398, 9423, 1, 26);
   (11264, 11311, 1, 48); (11360, 11360, 1, 1); (11362, 11362, 1, -10743);
   (11363, 11363, 1, -3814); (11364, 11364, 1, -10727); (11367, 11371, 2,
   1); (11373, 11373, 1, -10780); (11374, 11374, 1, -10749); (11375,
   11375, 1, -10783); (11376, 11376, 1, -10782); (11378, 11378, 1, 1);
   (11381, 11381, 1, 1); (11390, 11391, 1, -10815); (11392, 11490, 2, 1);
   (11499, 11501, 2, 1); (11506, 11506, 1, 1); (42560, 42604, 2, 1);
   (42624, 42650, 2, 1); (42786, 42798, 2, 1); (42802, 42862, 2, 1);
   (42873, 42875, 2, 1); (42877, 42877, 1, -35332); (42878, 42886, 2, 1);
   (42891, 42891, 1, 1); (42893, 42893, 1, -42280); (42896, 42898, 2, 1);
   (42902, 42920, 2, 1); (42922, 42922, 1, -42308); (42923, 42923, 1,
   -42319); (42924, 42924, 1, -42315); (42925, 42925, 1, -42305); (42926,
   42926, 1, -42308); (42928, 42928, 1, -42258); (42929, 42929, 1,
   -42282); (42930, 42930, 1, -42261); (42931, 42931, 1, 928); (42932,
   42946, 2, 1); (42948, 42948, 1, -48); (42949, 42949, 1, -42307);
   (42950, 42950, 1, -35384); (42951, 42953, 2, 1); (42960, 42960, 1, 1);
   (42966, 42968, 2, 1); (42997, 42997, 1, 1); (65313, 65338, 1, 32);
   (66560, 66599, 1, 40); (66736, 66771, 1, 40); (66928, 66938, 1, 39);
   (66940, 66954, 1, 39); (66956, 66962, 1, 39); (66964, 66965, 1, 39);
   (68736, 68786, 1, 64); (71840, 71871, 1, 32); (93760, 93791, 1, 32);
   (125184, 125217, 1, 34)
  ]%Z.

(** The value of a decimal digit. *)
Definition digit_value (c : N) : option N :=
  match find (fun b => (b <=? c) && (c <=? b + 9))%N decimal_blocks with
  | Some b => Some (c - b)%N
  | None => None
  end.

Definition is_decimal (c : N) : bool :=
  match digit_value c with
  | Some _ => true
  | None => false
  end.

(** [c.lower()] for a character other than the capital sigma: one
    character, except for U+0130.  Each run [(first, last, step, delta)]
    maps every [step]-th character from [first] to [last] to the
    character [delta] further. *)
Definition lower_char (c : N) : list N :=
  if (c =? 304)%N then [105; 775]%N
  else
    let z := Z.of_N c in
    match find (fun r => match r with
                         | (first, last, step, _) =>
                             (first <=? z) && (z <=? last)
                             && ((z - first) mod step =? 0)
                         end)%Z lowercase_runs with
    | Some (_, _, _, delta) => [Z.to_N (z + delta)]
    | None => [c]
    end.

(** The ranges of the characters with the property Case_Ignorable, and
    of those with the property Cased, ends included. *)
Definition case_ignorable_ranges : list (N * N) :=
  [
   (39, 39); (46, 46); (58, 58); (94, 94); (96, 96); (168, 168); (173, 173);
   (175, 175); (180, 180); (183, 184); (688, 879); (884, 885); (890, 890);
   (900, 901); (903, 903); (1155, 1161); (1369, 1369); (1375, 1375); (1425,
   1469); (1471, 1471); (1473, 1474); (1476, 1477); (1479, 1479); (1524,
   1524); (1536, 1541); (1552, 1562); (1564, 1564); (1600, 1600); (1611,
   1631); (1648, 1648); (1750, 1757); (1759, 1768); (1770, 1773); (1807,
   1807); (1809, 1809); (1840, 1866); (1958, 1968); (2027, 2037); (2042,
   2042); (2045, 2045); (2070, 2093); (2137, 2139); (2184, 2184); (2192,
   2193); (2200, 2207); (2249, 2306); (2362, 2362); (2364, 2364); (2369,
   2376); (2381, 2381); (2385, 2391); (2402, 2403); (2417, 2417); (2433,
   2433); (2492, 2492); (2497, 2500); (2509, 2509); (2530, 2531); (2558,
   2558); (2561, 2562); (2620, 2620); (2625, 2626); (2631, 2632); (2635,
   2637); (2641, 2641); (2672, 2673); (2677, 2677); (2689, 2690); (2748,
   2748); (2753, 2757); (2759, 2760); (2765, 2765); (2786, 2787); (2810,
   2815); (2817, 2817); (2876, 2876); (2879, 2879); (2881, 2884); (2893,
   2893); (2901, 2902); (2914, 2915); (2946, 2946); (3008, 3008); (3021,
   3021); (3072, 3072); (3076, 3076); (3132, 3132); (3134, 3136); (3142,
   3144); (3146, 3149); (3157, 3158); (3170, 3171); (3201, 3201); (3260,
   3260); (3263, 3263); (3270, 3270); (3276, 3277); (3298, 3299); (3328,
   3329); (3387, 3388); (3393, 3396); (3405, 3405); (3426, 3427); (3457,
   3457); (3530, 3530); (3538, 3540); (3542, 3542); (3633, 3633); (3636,
   3642); (3654, 3662); (3761, 3761); (3764, 3772); (3782, 3782); (3784,
   3789); (3864, 3865); (3893, 3893); (3895, 3895); (3897, 3897); (3953,
   3966); (3968, 3972); (3974, 3975); (3981, 3991); (3993, 4028); (4038,
   4038); (4141, 4144); (4146, 4151); (4153, 4154); (4157, 4158); (4184,
   4185); (4190, 4192); (4209, 4212); (4226, 4226); (4229, 4230); (4237,
   4237); (4253, 4253); (4348, 4348); (4957, 4959); (5906, 5908); (5938,
   5939); (5970, 5971); (6002, 6003); (6068, 6069); (6071, 6077); (6086,
   6086); (6089, 6099); (6103, 6103); (6109, 6109); (6155, 6159); (6211,
   6211); (6277, 6278); (6313, 6313); (6432, 6434); (6439, 6440); (6450,
   6450); (6457, 6459); (6679, 6680); (6683, 6683); (6742, 6742); (6744,
   6750); (6752, 6752); (6754, 6754); (6757, 6764); (6771, 6780); (6783,
   6783); (6823, 6823); (6832, 6862); (6912, 6915); (6964, 6964); (6966,
   6970); (6972, 6972); (6978, 6978); (7019, 7027); (7040, 7041); (7074,
   7077); (7080, 7081); (7083, 7085); (7142, 7142); (7144, 7145); (7149,
   7149); (7151, 7153); (7212, 7219); (7222, 7223); (7288, 7293); (7376,
   7378); (7380, 7392); (7394, 7400); (7405, 7405); (7412, 7412); (7416,
   7417); (7468, 7530); (7544, 7544); (7579, 7679); (8125, 8125); (8127,
   8129); (8141, 8143); (8157, 8159); (8173, 8175); (8189, 8190); (8203,
   8207); (8216, 8217); (8228, 8228); (8231, 8231); (8234, 8238); (8288,
   8292); (8294, 8303); (8305, 8305); (8319, 8319); (8336, 8348); (8400,
   8432); (11388, 11389); (11503, 11505); (11631, 11631); (11647, 11647);
   (11744, 11775); (11823, 11823); (12293, 12293); (12330, 12333); (12337,
   12341); (12347, 12347); (12441, 12446); (12540, 12542); (40981, 40981);
   (42232, 42237); (42508, 42508); (42607, 42610); (42612, 42621); (42623,
   42623); (42652, 42655); (42736, 42737); (42752, 42785); (42864, 42864);
   (42888, 42890); (42994, 42996); (43000, 43001); (43010, 43010); (43014,
   43014); (43019, 43019); (43045, 43046); (43052, 43052); (43204, 43205);
   (43232, 43249); (43263, 43263); (43302, 43309); (43335, 43345); (43392,
   43394); (43443, 43443); (43446, 43449); (43452, 43453); (43471, 43471);
   (43493, 43494); (43561, 43566); (43569, 43570); (43573, 43574); (43587,
   43587); (43596, 43596); (43632, 43632); (43644, 43644); (43696, 43696);
   (43698, 43700); (43703, 43704); (43710, 43711); (43713, 43713); (43741,
   43741); (43756, 43757); (43763, 43764); (43766, 43766); (43867, 43871);
   (43881, 43883); (44005, 44005); (44008, 44008); (44013, 44013); (64286,
   64286); (64434, 64450); (65024, 65039); (65043, 65043); (65056, 65071);
   (65106, 65106); (65109, 65109); (65279, 65279); (65287, 65287); (65294,
   65294); (65306, 65306); (65342, 65342); (65344, 65344); (65392, 65392);
   (65438, 65439); (65507, 65507); (65529, 65531); (66045, 66045); (66272,
   66272); (66422, 66426); (67456, 67461); (67463, 67504); (67506, 67514);
   (68097, 68099); (68101, 68102); (68108, 68111); (68152, 68154); (68159,
   68159); (68325, 68326); (68900, 68903); (69291, 69292); (69446, 69456);
   (69506, 69509); (69633, 69633); (69688, 69702); (69744, 69744); (69747,
   69748); (69759, 69761); (69811, 69814); (69817, 69818); (69821, 69821);
   (69826, 69826); (69837, 69837); (69888, 69890); (69927, 69931); (69933,
   69940); (70003, 70003); (70016, 70017); (70070, 70078); (70089, 70092);
   (70095, 70095); (70191, 70193); (70196, 70196); (70198, 70199); (70206,
   70206); (70367, 70367); (70371, 70378); (70400, 70401); (70459, 70460);
   (70464, 70464); (70502, 70508); (70512, 70516); (70712, 70719); (70722,
   70724); (70726, 70726); (70750, 70750); (70835, 70840); (70842, 70842);
   (70847, 70848); (70850, 70851); (71090, 71093); (71100, 71101); (71103,
   71104); (71132, 71133); (71219, 71226); (71229, 71229); (71231, 71232);
   (71339, 71339); (71341, 71341); (71344, 71349); (71351, 71351); (71453,
   71455); (71458, 71461); (71463, 71467); (71727, 71735); (71737, 71738);
   (71995, 71996); (71998, 71998); (72003, 72003); (72148, 72151); (72154,
   72155); (72160, 72160); (72193, 72202); (72243, 72248); (72251, 72254);
   (72263, 72263); (72273, 72278); (72281, 72283); (72330, 72342); (72344,
   72345); (72752, 72758); (72760, 72765); (72767, 72767); (72850, 72871);
   (72874, 72880); (72882, 72883); (72885, 72886); (73009, 73014); (73018,
   73018); (73020, 73021); (73023, 73029); (73031, 73031); (73104, 73105);
   (73109, 73109); (73111, 73111); (73459, 73460); (78896, 78904); (92912,
   92916); (92976, 92982); (92992, 92995); (94031, 94031); (94095, 94111);
   (94176, 94177); (94179, 94180); (110576, 110579); (110581, 110587);
   (110589, 110590); (113821, 113822); (113824, 113827); (118528, 118573);
   (118576, 118598); (119143, 119145); (119155, 119170); (119173, 119179);
   (119210, 119213); (119362, 119364); (121344, 121398); (121403, 121452);
   (121461, 121461); (121476, 121476); (121499, 121503); (121505, 121519);
   (122880, 122886); (122888, 122904); (122907, 122913); (122915, 122916);
   (122918, 122922); (123184, 123197); (123566, 123566); (123628, 123631);
   (125136, 125142); (125252, 125259); (127995, 127999); (917505, 917505);
   (917536, 917631); (917760, 917999)
  ]%N.

Definition cased_ranges : list (N * N) :=
  [
   (65, 90); (97, 122); (170, 170); (181, 181); (186, 186); (192, 214);
   (216, 246); (248, 442); (444, 447); (452, 659); (661, 696); (704, 705);
   (736, 740); (837, 837); (880, 883); (886, 887); (890, 893); (895, 895);
   (902, 902); (904, 906); (908, 908); (910, 929); (931, 1013); (1015,
   1153); (1162, 1327); (1329, 1366); (1376, 1416); (4256, 4293); (4295,
   4295); (4301, 4301); (4304, 4346); (4349, 4351); (5024, 5109); (5112,
   5117); (7296, 7304); (7312, 7354); (7357, 7359); (7424, 7615); (7680,
   7957); (7960, 7965); (7968, 8005); (8008, 8013); (8016, 8023); (8025,
   8025); (8027, 8027); (8029, 8029); (8031, 8061); (8064, 8116); (8118,
   8124); (8126, 8126); (8130, 8132); (8134, 8140); (8144, 8147); (8150,
   8155); (8160, 8172); (8178, 8180); (8182, 8188); (8305, 8305); (8319,
   8319); (8336, 8348); (8450, 8450); (8455, 8455); (8458, 8467); (8469,
   8469); (8473, 8477); (8484, 8484); (8486, 8486); (8488, 8488); (8490,
   8493); (8495, 8500); (8505, 8505); (8508, 8511); (8517, 8521); (8526,
   8526); (8544, 8575); (8579, 8580); (9398, 9449); (11264, 11492); (11499,
   11502); (11506, 11507); (11520, 11557); (11559, 11559); (11565, 11565);
   (42560, 42605); (42624, 42653); (42786, 42887); (42891, 42894); (42896,
   42954); (42960, 42961); (42963, 42963); (42965, 42969); (42997, 42998);
   (43000, 43002); (43824, 43866); (43868, 43880); (43888, 43967); (64256,
   64262); (64275, 64279); (65313, 65338); (65345, 65370); (66560, 66639);
   (66736, 66771); (66776, 66811); (66928, 66938); (66940, 66954); (66956,
   66962); (66964, 66965); (66967, 66977); (66979, 66993); (66995, 67001);
   (67003, 67004); (67456, 67456); (67459, 67461); (67463, 67504); (67506,
   67514); (68736, 68786); (68800, 68850); (71840, 71903); (93760, 93823);
   (119808, 119892); (119894, 119964); (119966, 119967); (119970, 119970);
   (119973, 119974); (119977, 119980); (119982, 119993); (119995, 119995);
   (119997, 120003); (120005, 120069); (120071, 120074); (120077, 120084);
   (120086, 120092); (120094, 120121); (120123, 120126); (120128, 120132);
   (120134, 120134); (120138, 120144); (120146, 120485); (120488, 120512);
   (120514, 120538); (120540, 120570); (120572, 120596); (120598, 120628);
   (120630, 120654); (120656, 120686); (120688, 120712); (120714, 120744);
   (120746, 120770); (120772, 120779); (122624, 122633); (122635, 122654);
   (125184, 125251); (127280, 127305); (127312, 127337); (127344, 127369)
  ]%N.

Definition is_case_ignorable (c : N) : bool :=
  existsb (fun r => (fst r <=? c) && (c <=? snd r))%N case_ignorable_ranges.

Definition is_cased (c : N) : bool :=
  existsb (fun r => (fst r <=? c) && (c <=? snd r))%N cased_ranges.

(** The first character of [s] that is not case-ignorable is cased. *)
Fixpoint cased_first (s : list N) : bool :=
  match s with
  | [] => false
  | c :: s' => if is_case_ignorable c then cased_first s' else is_cased c
  end.

(** [s.lower()] from a position on, [before] being the characters
    passed, the last one first.  A capital sigma (U+03A3) gives the
    final small sigma (U+03C2) when a cased character comes before it
    and none comes after it, case-ignorable characters apart, and the
    small sigma (U+03C3) otherwise. *)
Fixpoint lower_from (before s : list N) : list N :=
  match s with
  | [] => []
  | c :: s' =>
      (if (c =? 931)%N
       then [if cased_first before && negb (cased_first s') then 962 else 963]%N
       else lower_char c)
      ++ lower_from (c :: before) s'
  end.

(** [s.lower()] *)
Definition lower (s : list N) : list N := lower_from [] s.

(** The ranges of word characters, ends included. *)
Definition word_ranges : list (N * N) :=
  [
   (48, 57); (65, 90); (95, 95); (97, 122); (170, 170); (178, 179); (181,
   181); (185, 186); (188, 190); (192, 214); (216, 246); (248, 705); (710,
   721); (736, 740); (748, 748); (750, 750); (880, 884); (886, 887); (890,
   893); (895, 895); (902, 902); (904, 906); (908, 908); (910, 929); (931,
   1013); (1015, 1153); (1162, 1327); (1329, 1366); (1369, 1369); (1376,
   1416); (1488, 1514); (1519, 1522); (1568, 1610); (1632, 1641); (1646,
   1647); (1649, 1747); (1749, 1749); (1765, 1766); (1774, 1788); (1791,
   1791); (1808, 1808); (1810, 1839); (1869, 1957); (1969, 1969); (1984,
   2026); (2036, 2037); (2042, 2042); (2048, 2069); (2074, 2074); (2084,
   2084); (2088, 2088); (2112, 2136); (2144, 2154); (2160, 2183); (2185,
   2190); (2208, 2249); (2308, 2361); (2365, 2365); (2384, 2384); (2392,
   2401); (2406, 2415); (2417, 2432); (2437, 2444); (2447, 2448); (2451,
   2472); (2474, 2480); (2482, 2482); (2486, 2489); (2493, 2493); (2510,
   2510); (2524, 2525); (2527, 2529); (2534, 2545); (2548, 2553); (2556,
   2556); (2565, 2570); (2575, 2576); (2579, 2600); (2602, 2608); (2610,
   2611); (2613, 2614); (2616, 2617); (2649, 2652); (2654, 2654); (2662,
   2671); (2674, 2676); (2693, 2701); (2703, 2705); (2707, 2728); (2730,
   2736); (2738, 2739); (2741, 2745); (2749, 2749); (2768, 2768); (2784,
   2785); (2790, 2799); (2809, 2809); (2821, 2828); (2831, 2832); (2835,
   2856); (2858, 2864); (2866, 2867); (2869, 2873); (2877, 2877); (2908,
   2909); (2911, 2913); (2918, 2927); (2929, 2935); (2947, 2947); (2949,
   2954); (2958, 2960); (2962, 2965); (2969, 2970); (2972, 2972); (2974,
   2975); (2979, 2980); (2984, 2986); (2990, 3001); (3024, 3024); (3046,
   3058); (3077, 3084); (3086, 3088); (3090, 3112); (3114, 3129); (3133,
   3133); (3160, 3162); (3165, 3165); (3168, 3169); (3174, 3183); (3192,
   3198); (3200, 3200); (3205, 3212); (3214, 3216); (3218, 3240); (3242,
   3251); (3253, 3257); (3261, 3261); (3293, 3294); (3296, 3297); (3302,
   3311); (3313, 3314); (3332, 3340); (3342, 3344); (3346, 3386); (3389,
   3389); (3406, 3406); (3412, 3414); (3416, 3425); (3430, 3448); (3450,
   3455); (3461, 3478); (3482, 3505); (3507, 3515); (3517, 3517); (3520,
   3526); (3558, 3567); (3585, 3632); (3634, 3635); (3648, 3654); (3664,
   3673); (3713, 3714); (3716, 3716); (3718, 3722); (3724, 3747); (3749,
   3749); (3751, 3760); (3762, 3763); (3773, 3773); (3776, 3780); (3782,
   3782); (3792, 3801); (3804, 3807); (3840, 3840); (3872, 3891); (3904,
   3911); (3913, 3948); (3976, 3980); (4096, 4138); (4159, 4169); (4176,
   4181); (4186, 4189); (4193, 4193); (4197, 4198); (4206, 4208); (4213,
   4225); (4238, 4238); (4240, 4249); (4256, 4293); (4295, 4295); (4301,
   4301); (4304, 4346); (4348, 4680); (4682, 4685); (4688, 4694); (4696,
   4696); (4698, 4701); (4704, 4744); (4746, 4749); (4752, 4784); (4786,
   4789); (4792, 4798); (4800, 4800); (4802, 4805); (4808, 4822); (4824,
   4880); (4882, 4885); (4888, 4954); (4969, 4988); (4992, 5007); (5024,
   5109); (5112, 5117); (5121, 5740); (5743, 5759); (5761, 5786); (5792,
   5866); (5870, 5880); (5888, 5905); (5919, 5937); (5952, 5969); (5984,
   5996); (5998, 6000); (6016, 6067); (6103, 6103); (6108, 6108); (6112,
   6121); (6128, 6137); (6160, 6169); (6176, 6264); (6272, 6276); (6279,
   6312); (6314, 6314); (6320, 6389); (6400, 6430); (6470, 6509); (6512,
   6516); (6528, 6571); (6576, 6601); (6608, 6618); (6656, 6678); (6688,
   6740); (6784, 6793); (6800, 6809); (6823, 6823); (6917, 6963); (6981,
   6988); (6992, 7001); (7043, 7072); (7086, 7141); (7168, 7203); (7232,
   7241); (7245, 7293); (7296, 7304); (7312, 7354); (7357, 7359); (7401,
   7404); (7406, 7411); (7413, 7414); (7418, 7418); (7424, 7615); (7680,
   7957); (7960, 7965); (7968, 8005); (8008, 8013); (8016, 8023); (8025,
   8025); (8027, 8027); (8029, 8029); (8031, 8061); (8064, 8116); (8118,
   8124); (8126, 8126); (8130, 8132); (8134, 8140); (8144, 8147); (8150,
   8155); (8160, 8172); (8178, 8180); (8182, 8188); (8304, 8305); (8308,
   8313); (8319, 8329); (8336, 8348); (8450, 8450); (8455, 8455); (8458,
   8467); (8469, 8469); (8473, 8477); (8484, 8484); (8486, 8486); (8488,
   8488); (8490, 8493); (8495, 8505); (8508, 8511); (8517, 8521); (8526,
   8526); (8528, 8585); (9312, 9371); (9450, 9471); (10102, 10131);
   (11264, 11492); (11499, 11502); (11506, 11507); (11517, 11517); (11520,
   11557); (11559, 11559); (11565, 11565); (11568, 11623); (11631, 11631);
   (11648, 11670); (11680, 11686); (11688, 11694); (11696, 11702); (11704,
   11710); (11712, 11718); (11720, 11726); (11728, 11734); (11736, 11742);
   (11823, 11823); (12293, 12295); (12321, 12329); (12337, 12341); (12344,
   12348); (12353, 12438); (12445, 12447); (12449, 12538); (12540, 12543);
   (12549, 12591); (12593, 12686); (12690, 12693); (12704, 12735); (12784,
   12799); (12832, 12841); (12872, 12879); (12881, 12895); (12928, 12937);
   (12977, 12991); (13312, 19903); (19968, 42124); (42192, 42237); (42240,
   42508); (42512, 42539); (42560, 42606); (42623, 42653); (42656, 42735);
   (42775, 42783); (42786, 42888); (42891, 42954); (42960, 42961); (42963,
   42963); (42965, 42969); (42994, 43009); (43011, 43013); (43015, 43018);
   (43020, 43042); (43056, 43061); (43072, 43123); (43138, 43187); (43216,
   43225); (43250, 43255); (43259, 43259); (43261, 43262); (43264, 43301);
   (43312, 43334); (43360, 43388); (43396, 43442); (43471, 43481); (43488,
   43492); (43494, 43518); (43520, 43560); (43584, 43586); (43588, 43595);
   (43600, 43609); (43616, 43638); (43642, 43642); (43646, 43695); (43697,
   43697); (43701, 43702); (43705, 43709); (43712, 43712); (43714, 43714);
   (43739, 43741); (43744, 43754); (43762, 43764); (43777, 43782); (43785,
   43790); (43793, 43798); (43808, 43814); (43816, 43822); (43824, 43866);
   (43868, 43881); (43888, 44002); (44016, 44025); (44032, 55203); (55216,
   55238); (55243, 55291); (63744, 64109); (64112, 64217); (64256, 64262);
   (64275, 64279); (64285, 64285); (64287, 64296); (64298, 64310); (64312,
   64316); (64318, 64318); (64320, 64321); (64323, 64324); (64326, 64433);
   (64467, 64829); (64848, 64911); (64914, 64967); (65008, 65019); (65136,
   65140); (65142, 65276); (65296, 65305); (65313, 65338); (65345, 65370);
   (65382, 65470); (65474, 65479); (65482, 65487); (65490, 65495); (65498,
   65500); (65536, 65547); (65549, 65574); (65576, 65594); (65596, 65597);
   (65599, 65613); (65616, 65629); (65664, 65786); (65799, 65843); (65856,
   65912); (65930, 65931); (66176, 66204); (66208, 66256); (66273, 66299);
   (66304, 66339); (66349, 66378); (66384, 66421); (66432, 66461); (66464,
   66499); (66504, 66511); (66513, 66517); (66560, 66717); (66720, 66729);
   (66736, 66771); (66776, 66811); (66816, 66855); (66864, 66915); (66928,
   66938); (66940, 66954); (66956, 66962); (66964, 66965); (66967, 66977);
   (66979, 66993); (66995, 67001); (67003, 67004); (67072, 67382); (67392,
   67413); (67424, 67431); (67456, 67461); (67463, 67504); (67506, 67514);
   (67584, 67589); (67592, 67592); (67594, 67637); (67639, 67640); (67644,
   67644); (67647, 67669); (67672, 67702); (67705, 67742); (67751, 67759);
   (67808, 67826); (67828, 67829); (67835, 67867); (67872, 67897); (67968,
   68023); (68028, 68047); (68050, 68096); (68112, 68115); (68117, 68119);
   (68121, 68149); (68160, 68168); (68192, 68222); (68224, 68255); (68288,
   68295); (68297, 68324); (68331, 68335); (68352, 68405); (68416, 68437);
   (68440, 68466); (68472, 68497); (68521, 68527); (68608, 68680); (68736,
   68786); (68800, 68850); (68858, 68899); (68912, 68921); (69216, 69246);
   (69248, 69289); (69296, 69297); (69376, 69415); (69424, 69445); (69457,
   69460); (69488, 69505); (69552, 69579); (69600, 69622); (69635, 69687);
   (69714, 69743); (69745, 69746); (69749, 69749); (69763, 69807); (69840,
   69864); (69872, 69881); (69891, 69926); (69942, 69951); (69956, 69956);
   (69959, 69959); (69968, 70002); (70006, 70006); (70019, 70066); (70081,
   70084); (70096, 70106); (70108, 70108); (70113, 70132); (70144, 70161);
   (70163, 70187); (70272, 70278); (70280, 70280); (70282, 70285); (70287,
   70301); (70303, 70312); (70320, 70366); (70384, 70393); (70405, 70412);
   (70415, 70416); (70419, 70440); (70442, 70448); (70450, 70451); (70453,
   70457); (70461, 70461); (70480, 70480); (70493, 70497); (70656, 70708);
   (70727, 70730); (70736, 70745); (70751, 70753); (70784, 70831); (70852,
   70853); (70855, 70855); (70864, 70873); (71040, 71086); (71128, 71131);
   (71168, 71215); (71236, 71236); (71248, 71257); (71296, 71338); (71352,
   71352); (71360, 71369); (71424, 71450); (71472, 71483); (71488, 71494);
   (71680, 71723); (71840, 71922); (71935, 71942); (71945, 71945); (71948,
   71955); (71957, 71958); (71960, 71983); (71999, 71999); (72001, 72001);
   (72016, 72025); (72096, 72103); (72106, 72144); (72161, 72161); (72163,
   72163); (72192, 72192); (72203, 72242); (72250, 72250); (72272, 72272);
   (72284, 72329); (72349, 72349); (72368, 72440); (72704, 72712); (72714,
   72750); (72768, 72768); (72784, 72812); (72818, 72847); (72960, 72966);
   (72968, 72969); (72971, 73008); (73030, 73030); (73040, 73049); (73056,
   73061); (73063, 73064); (73066, 73097); (73112, 73112); (73120, 73129);
   (73440, 73458); (73648, 73648); (73664, 73684); (73728, 74649); (74752,
   74862); (74880, 75075); (77712, 77808); (77824, 78894); (82944, 83526);
   (92160, 92728); (92736, 92766); (92768, 92777); (92784, 92862); (92864,
   92873); (92880, 92909); (92928, 92975); (92992, 92995); (93008, 93017);
   (93019, 93025); (93027, 93047); (93053, 93071); (93760, 93846); (93952,
   94026); (94032, 94032); (94099, 94111); (94176, 94177); (94179, 94179);
   (94208, 100343); (100352, 101589); (101632, 101640); (110576, 110579);
   (110581, 110587); (110589, 110590); (110592, 110882); (110928, 110930);
   (110948, 110951); (110960, 111355); (113664, 113770); (113776, 113788);
   (113792, 113800); (113808, 113817); (119520, 119539); (119648, 119672);
   (119808, 119892); (119894, 119964); (119966, 119967); (119970, 119970);
   (119973, 119974); (119977, 119980); (119982, 119993); (119995, 119995);
   (119997, 120003); (120005, 120069); (120071, 120074); (120077, 120084);
   (120086, 120092); (120094, 120121); (120123, 120126); (120128, 120132);
   (120134, 120134); (120138, 120144); (120146, 120485); (120488, 120512);
   (120514, 120538); (120540, 120570); (120572, 120596); (120598, 120628);
   (120630, 120654); (120656, 120686); (120688, 120712); (120714, 120744);
   (120746, 120770); (120772, 120779); (120782, 120831); (122624, 122654);
   (123136, 123180); (123191, 123197); (123200, 123209); (123214, 123214);
   (123536, 123565); (123584, 123627); (123632, 123641); (124896, 124902);
   (124904, 124907); (124909, 124910); (124912, 124926); (124928, 125124);
   (125127, 125135); (125184, 125251); (125259, 125259); (125264, 125273);
   (126065, 126123); (126125, 126127); (126129, 126132); (126209, 126253);
   (126255, 126269); (126464, 126467); (126469, 126495); (126497, 126498);
   (126500, 126500); (126503, 126503); (126505, 126514); (126516, 126519);
   (126521, 126521); (126523, 126523); (126530, 126530); (126535, 126535);
   (126537, 126537); (126539, 126539); (126541, 126543); (126545, 126546);
   (126548, 126548); (126551, 126551); (126553, 126553); (126555, 126555);
   (126557, 126557); (126559, 126559); (126561, 126562); (126564, 126564);
   (126567, 126570); (126572, 126578); (126580, 126583); (126585, 126588);
   (126590, 126590); (126592, 126601); (126603, 126619); (126625, 126627);
   (126629, 126633); (126635, 126651); (127232, 127244); (130032, 130041);
   (131072, 173791); (173824, 177976); (177984, 178205); (178208, 183969);
   (183984, 191456); (194560, 195101); (196608, 201546)
  ]%N.

(** [\w] *)
Definition is_word (c : N) : bool :=
  existsb (fun r => (fst r <=? c) && (c <=? snd r))%N word_ranges.

End Unicode.

(** ** Regular expressions

    A backtracking matcher with the search order of Python's [re]: the
    leftmost match, alternatives from left to right, greedy repetition.
    A position in the text is the character before it, if any, and the
    text from it on.  The continuation [k] receives the position after
    the match and the text of the capture group, if the group has
    matched. *)

Module Regex.

Inductive regex : Type :=
| Eps
| Chr (p : N -> bool)
| Seq (a b : regex)
| Alt (a b : regex)
| Star (a : regex)
| Repeat (lo hi : nat) (a : regex)
| Group (a : regex)
| WordBoundary.

(** [a?] and [a+] *)
Definition Opt (a : regex) : regex := Alt a Eps.
Definition Plus (a : regex) : regex := Seq a (Star a).

(** [\b] holds between a word character and a character that is none,
    the ends of the text counting as none. *)
Definition at_boundary (prev : option N) (s : pystr) : bool :=
  let before := match prev with
                | Some c => Unicode.is_word c
                | None => false
                end in
  let after := match s with
               | c :: _ => Unicode.is_word c
               | [] => false
               end in
  xorb before after.

Section Matching.
Variable R : Type.

Definition cont : Type := option N -> pystr -> option pystr -> option R.

Definition or_else (x y : option R) : option R :=
  match x with
  | Some _ => x
  | None => y
  end.

(** Greedy [a*], [body] matching one [a]: another round if it consumes
    something and the rest then matches, else stop here. *)
Definition star_loop (body : option N -> pystr -> option pystr -> cont -> option R)
           (k : cont)
  : nat -> option N -> pystr -> option pystr -> option R :=
  fix star (fuel : nat) (prev : option N) (s : pystr) (cap : option pystr)
    : option R :=
    match fuel with
    | O => k prev s cap
    | S fuel' =>
        or_else
          (body prev s cap
                (fun prev' s' cap' =>
                   if Nat.ltb (length s') (length s)
                   then star fuel' prev' s' cap' else None))
          (k prev s cap)
    end.

(** Greedy [a{lo,hi}]: [lo] and [hi] count the rounds still due and
    still allowed; stopping needs no round due. *)
Definition repeat_loop (body : option N -> pystr -> option pystr -> cont -> option R)
           (k : cont)
  : nat -> nat -> option N -> pystr -> option pystr -> option R :=
  fix rep (hi lo : nat) (prev : option N) (s : pystr) (cap : option pystr)
    : option R :=
    let stop := match lo with
                | O => k prev s cap
                | S _ => None
                end in
    match hi with
    | O => stop
    | S hi' =>
        or_else
          (body prev s cap
                (fun prev' s' cap' => rep hi' (Nat.pred lo) prev' s' cap'))
          stop
    end.

Fixpoint run (r : regex) (prev : option N) (s : pystr) (cap : option pystr)
         (k : cont) : option R :=
  match r with
  | Eps => k prev s cap
  | Chr p =>
      match s with
      | c :: s' => if p c then k (Some c) s' cap else None
      | [] => None
      end
  | Seq a b => run a prev s cap (fun prev' s' cap' => run b prev' s' cap' k)
  | Alt a b => or_else (run a prev s cap k) (run b prev s cap k)
  | Star a => star_loop (run a) k (length s) prev s cap
  | Repeat lo hi a => repeat_loop (run a) k hi lo prev s cap
  | Group a =>
      run a prev s cap
          (fun prev' s' _ => k prev' s' (Some (firstn (length s - length s') s)))
  | WordBoundary => if at_boundary prev s then k prev s cap else None
  end.
End Matching.

(** A match of [r] at a position: the position after it and the group's
    text. *)
Definition match_here (r : regex) (prev : option N) (s : pystr)
  : option (option N * pystr * option pystr) :=
  run r prev s None (fun prev' s' cap => Some (prev', s', cap)).

(** [re.findall(r, s)] for a pattern with one group whose matches are
    never empty: the group's text of each match, scanning from the left
    and resuming after each match. *)
Fixpoint findall_from (fuel : nat) (r : regex) (prev : option N) (s : pystr)
  : list pystr :=
  match fuel with
  | O => []
  | S fuel' =>
      let skip := match s with
                  | [] => []
                  | c :: s' => findall_from fuel' r (Some c) s'
                  end in
      match match_here r prev s with
      | Some (prev', s', cap) =>
          match cap with
          | Some g => g
          | None => []
          end
          :: (if Nat.ltb (length s') (length s)
              then findall_from fuel' r prev' s'
              else skip)
      | None => skip
      end
  end.

Definition findall (r : regex) (s : pystr) : list pystr :=
  findall_from (S (length s)) r None s.

(** A pattern character under [re.IGNORECASE]: an ASCII letter matches
    both of its cases, [s] also U+017F, [k] also U+212A, [i] also U+0130
    and U+0131; any other character of the patterns matches itself only. *)
Definition ignorecase (c t : N) : bool :=
  (let lower_c := if (65 <=? c) && (c <=? 90) then c + 32 else c in
   if (97 <=? lower_c) && (lower_c <=? 122)
   then (t =? lower_c) || (t =? lower_c - 32)
        || ((lower_c =? 115) && (t =? 383))
        || ((lower_c =? 107) && (t =? 8490))
        || ((lower_c =? 105) && ((t =? 304) || (t =? 305)))
   else (t =? c))%N.

(** A literal of the pattern, compiled with [re.IGNORECASE]. *)
Fixpoint Lit (s : pystr) : regex :=
  match s with
  | [] => Eps
  | c :: s' => Seq (Chr (ignorecase c)) (Lit s')
  end.

(** A literal of a pattern compiled without flags. *)
Fixpoint Exact (s : pystr) : regex :=
  match s with
  | [] => Eps
  | c :: s' => Seq (Chr (N.eqb c)) (Exact s')
  end.

(** [\d] and [\s] *)
Definition Digit : regex := Chr Unicode.is_decimal.
Definition Space : regex := Chr PyStr.isspace.

End Regex.

(** ** Languages and categories *)

(** The strings [detect_language] returns. *)
Inductive language : Type :=
| Empty | NoText | Sinhala | English | Mixed | Other | Unknown.

Definition language_name (l : language) : pystr :=
  match l with
  | Empty => lit "empty"
  | NoText => lit "no_text"
  | Sinhala => lit "sinhala"
  | English => lit "english"
  | Mixed => lit "mixed"
  | Other => lit "other"
  | Unknown => lit "unknown"
  end.

(** The keys of [price_groups]. *)
Inductive category : Type :=
| Fiber | Adsl | Mobile4g | Tv | Package | UnknownCategory.

Definition category_name (c : category) : pystr :=
  match c with
  | Fiber => lit "fiber"
  | Adsl => lit "adsl"
  | Mobile4g => lit "4g_mobile"
  | Tv => lit "tv"
  | Package => lit "package"
  | UnknownCategory => lit "unknown"
  end.

Definition category_eqb (a b : category) : bool :=
  match a, b with
  | Fiber, Fiber | Adsl, Adsl | Mobile4g, Mobile4g | Tv, Tv
  | Package, Package | UnknownCategory, UnknownCategory => true
  | _, _ => false
  end.

(** ** Dictionaries

    A [dict] in insertion order.  [dict_set] is [d[key] = v]; [dict_append]
    is [d[key].append(x)] on a [defaultdict(list)]. *)
Section Dict.
Variables K V : Type.
Variable key_eqb : K -> K -> bool.

Fixpoint dict_set (key : K) (v : V) (d : list (K * V)) : list (K * V) :=
  match d with
  | [] => [(key, v)]
  | (k', v') :: d' =>
      if key_eqb key k' then (k', v) :: d' else (k', v') :: dict_set key v d'
  end.

Fixpoint dict_append (key : K) (x : V) (d : list (K * list V)) : list (K * list V) :=
  match d with
  | [] => [(key, [x])]
  | (k', xs) :: d' =>
      if key_eqb key k' then (k', xs ++ [x]) :: d' else (k', xs) :: dict_append key x d'
  end.
End Dict.

(** ** Pages *)

(** A value of [self.data]: the fields the analyses read, a missing field
    being the empty string or list.  [ocr_images] keeps each image's
    ['text']. *)
Record page_data : Type := {
  pg_title : pystr;
  pg_text : pystr;
  pg_ocr_images : list pystr
}.

(** ** Pricing records *)

(** An entry of [price_groups[category]]. *)
Record price_info : Type := {
  pi_url : pystr;
  pi_price : float;
  pi_original : pystr;
  pi_context : pystr;
  pi_language : language
}.

(** An entry of a discrepancy's ['occurrences']. *)
Record occurrence : Type := {
  occ_url : pystr;
  occ_price : pystr;
  occ_context : pystr;
  occ_language : language;
  occ_count : nat
}.

(** An entry of [inconsistencies['pricing_discrepancies']]. *)
Record pricing_discrepancy : Type := {
  pd_category : category;
  pd_price_range : pystr;
  pd_difference_percentage : pystr;
  pd_occurrences : list occurrence
}.


(** * [class ContentConsistencyAnalyzer] *)

Module ContentConsistencyAnalyzer.

Local Open Scope float_scope.

(** *** [detect_language] *)

(** ['඀' <= char <= '෿'] *)
Definition is_sinhala (c : N) : bool := ((3456 <=? c) && (c <=? 3583))%N.

(** [char.isalpha() and ord(char) < 128]: below 128 the alphabetic
    characters are the ASCII letters. *)
Definition is_english (c : N) : bool :=
  ((65 <=? c) && (c <=? 90) || (97 <=? c) && (c <=? 122))%N.

(** [sum(1 for char in text if p(char))] *)
Definition count_chars (p : N -> bool) (text : pystr) : N :=
  N.of_nat (length (filter p text)).

(** [a / b] on non-negative integers, [b] not zero. *)
Definition int_truediv (a b : N) : float :=
  match b with
  | Npos q => of_ratio a q
  | N0 => nan
  end.

Definition detect_language (text : pystr) : language :=
  if is_empty text || is_empty (strip text) then Empty
  else
    let sinhala_chars := count_chars is_sinhala text in
    let english_chars := count_chars is_english text in
    let total_alpha_chars := (sinhala_chars + english_chars)%N in
    if (total_alpha_chars =? 0)%N then NoText
    else
      let sinhala_ratio := int_truediv sinhala_chars total_alpha_chars in
      let english_ratio := int_truediv english_chars total_alpha_chars in
      if gtb sinhala_ratio lit_0_7 then Sinhala
      else if gtb english_ratio lit_0_7 then English
      else if gtb sinhala_ratio lit_0_1 && gtb english_ratio lit_0_1 then Mixed
      else Other.

(** *** [extract_prices] and [get_price_context] *)

Import Regex.

(** [(\d{1,3}(?:,\d{3})*(?:\.\d{2})?)] *)
Definition numeral : regex :=
  Group (Seq (Repeat 1 3 Digit)
             (Seq (Star (Seq (Lit (lit ",")) (Repeat 3 3 Digit)))
                  (Opt (Seq (Lit (lit ".")) (Repeat 2 2 Digit))))).

(** The Sinhala currency mark, U+0DBB U+0DD4. *)
Definition sinhala_rupee : pystr := [3515; 3540]%N.

(** The five patterns of lines 67-78. *)
Definition patterns : list regex :=
  [ Seq (Lit (lit "Rs")) (Seq (Opt (Lit (lit "."))) (Seq (Star Space) numeral));
    Seq (Lit (lit "LKR")) (Seq (Opt (Lit (lit "."))) (Seq (Star Space) numeral));
    Seq numeral (Seq (Star Space) (Lit (lit "/-")));
    Seq numeral
        (Seq (Star Space)
             (Alt (Lit (lit "/month"))
                  (Alt (Lit (lit "per month")) (Lit (lit "monthly")))));
    Seq (Lit sinhala_rupee)
        (Seq (Opt (Lit (lit "."))) (Seq (Star Space) numeral)) ].

(** The leading decimal digits of [s]: their value continuing [acc],
    their number, and the rest of [s]. *)
Fixpoint read_digits (s : pystr) (acc : N) (n : nat) : N * nat * pystr :=
  match s with
  | c :: s' =>
      match Unicode.digit_value c with
      | Some d => read_digits s' (10 * acc + d)%N (S n)
      | None => (acc, n, s)
      end
  | [] => (acc, n, [])
  end.

Fixpoint pow10 (n : nat) : positive :=
  match n with
  | O => 1%positive
  | S n' => (10 * pow10 n')%positive
  end.

(** [float(s)] on a plain decimal numeral, digits with an optional
    point: the nearest binary64 number.  Signs, exponents, blanks and
    the other spellings [float] reads do not occur in a pattern's group;
    they are outside this model and answer [ValueError]. *)
Definition float_of_str (s : pystr) : result float :=
  match read_digits s 0 0 with
  | (whole, n1, []) =>
      match n1 with
      | O => Raise ValueError
      | S _ => Ok (float_of_N whole)
      end
  | (whole, n1, 46%N :: fraction) =>
      match read_digits fraction whole 0 with
      | (scaled, n2, []) =>
          match (n1 + n2)%nat with
          | O => Raise ValueError
          | S _ => Ok (of_ratio scaled (pow10 n2))
          end
      | _ => Raise ValueError
      end
  | _ => Raise ValueError
  end.

(** [s.find(sub)]: the index of the first occurrence. *)
Fixpoint find_from (i : nat) (sub s : pystr) : option nat :=
  if startswith sub s then Some i
  else
    match s with
    | [] => None
    | _ :: s' => find_from (S i) sub s'
    end.

Definition find (sub s : pystr) : option nat := find_from 0 sub s.

(** [s[start:end]] *)
Definition slice (s : pystr) (start stop : nat) : pystr :=
  firstn (stop - start) (skipn start s).

Definition get_price_context (text price : pystr) : pystr :=
  let context_length := 50%nat in
  match find (Unicode.lower price) (Unicode.lower text) with
  | None => []
  | Some price_index =>
      let start := (price_index - context_length)%nat in
      let stop := Nat.min (length text) (price_index + length price + context_length) in
      let context := slice text start stop in
      let context := if Nat.ltb 0 start then lit "..." ++ context else context in
      let context := if Nat.ltb stop (length text) then context ++ lit "..." else context in
      strip context
  end.

(** An entry of the list [extract_prices] returns. *)
Record price : Type := {
  value : float;
  original : pystr;
  context : pystr
}.

Definition extract_prices (text : pystr) : result (list price) :=
  for_each
    (fun prices pattern =>
       for_each
         (fun prices m =>
            price_value <- float_of_str (replace (lit ",") [] m) ;;
            Ok (prices ++ [ {| value := price_value;
                               original := m;
                               context := get_price_context text m |} ]))
         (findall pattern text) prices)
    patterns [].

(** *** [extract_package_details] *)

(** An entry of [details['speeds']]. *)
Record speed : Type := {
  speed_value : float;
  speed_context : pystr
}.

(** An entry of [details['data_limits']]: [{'type': 'unlimited', ...}], or
    [{'value': v, ...}] with [v] a float or the matched text. *)
Inductive data_limit : Type :=
| LimitType (context0 : pystr)
| LimitValue (v : float + pystr) (context0 : pystr).

(** An entry of [details['features']]. *)
Record feature : Type := {
  feature_name : pystr;
  feature_context : pystr
}.

Record package_details : Type := {
  speeds : list speed;
  data_limits : list data_limit;
  features : list feature
}.

(** [(\d+(?:\.\d+)?)] *)
Definition decimal_number : regex :=
  Group (Seq Digit (Seq (Star Digit)
                        (Opt (Seq (Lit (lit ".")) (Seq Digit (Star Digit)))))).

(** Lines 119-124; under [re.IGNORECASE] the first two coincide. *)
Definition speed_patterns : list regex :=
  map (fun unit => Seq decimal_number (Seq (Star Space) (Lit (lit unit))))
      ["Mbps"; "mbps"; "MB/s"; "GB/s"]%string.

(** Lines 135-140; a pattern without a group yields the whole match. *)
Definition data_patterns : list regex :=
  [ Seq decimal_number (Seq (Star Space) (Lit (lit "GB")));
    Seq decimal_number (Seq (Star Space) (Lit (lit "TB")));
    Group (Seq (Lit (lit "unlimited")) (Seq Space (Seq (Star Space) (Lit (lit "data")))));
    Group (Lit (lit "unlimited")) ].

Definition feature_keywords : list pystr :=
  map lit ["fiber"; "fibre"; "adsl"; "4g"; "lte"; "wifi"; "wi-fi";
           "peotv"; "iptv"; "telephone"; "voice"; "email"; "cloud";
           "free installation"; "free router"; "unlimited"; "fixed"]%string.

(** [s.isdigit()], on the strings line 152 tests it on: digits and
    points of a number, or the letters and blanks of an [unlimited] match. *)
Definition isdigit (s : pystr) : bool :=
  match s with
  | [] => false
  | _ => forallb Unicode.is_decimal s
  end.

Definition extract_package_details (text : pystr) : result package_details :=
  speeds0 <- for_each
    (fun acc pattern =>
       for_each
         (fun acc m =>
            v <- float_of_str m ;;
            Ok (acc ++ [ {| speed_value := v;
                            speed_context := get_price_context text m |} ]))
         (findall pattern text) acc)
    speed_patterns [] ;;
  data_limits0 <- for_each
    (fun acc pattern =>
       for_each
         (fun acc m =>
            if contains (lit "unlimited") (Unicode.lower m)
            then Ok (acc ++ [ LimitType (get_price_context text m) ])
            else
              v <- (if isdigit (replace (lit ".") [] m)
                    then f <- float_of_str m ;; Ok (inl f)
                    else Ok (inr m)) ;;
              Ok (acc ++ [ LimitValue v (get_price_context text m) ]))
         (findall pattern text) acc)
    data_patterns [] ;;
  let text_lower := Unicode.lower text in
  let features0 :=
    flat_map
      (fun kw =>
         if contains kw text_lower
         then [ {| feature_name := kw; feature_context := get_price_context text kw |} ]
         else [])
      feature_keywords in
  Ok {| speeds := speeds0; data_limits := data_limits0; features := features0 |}.

(** *** [extract_contact_info] *)

(** An entry of [contact['phone_numbers']] or [contact['email_addresses']]:
    the match and its context. *)
Record contact_item : Type := {
  item_value : pystr;
  item_context : pystr
}.

Record contact_info : Type := {
  phone_numbers : list contact_item;
  email_addresses : list contact_item
}.

(** Lines 182-186, compiled without flags; the whole match is kept. *)
Definition phone_patterns : list regex :=
  [ Group (Seq WordBoundary
            (Seq (Alt (Exact (lit "+94")) (Alt (Exact (lit "0094")) (Exact (lit "0"))))
               (Seq (Star Space)
                  (Seq (Repeat 2 2 Digit)
                     (Seq (Star Space) (Seq (Repeat 7 7 Digit) WordBoundary))))));
    Group (Seq WordBoundary
            (Seq (Repeat 3 3 Digit)
               (Seq (Exact (lit "-")) (Seq (Repeat 7 7 Digit) WordBoundary))));
    Group (Seq WordBoundary (Seq (Repeat 10 10 Digit) WordBoundary)) ].

Definition ascii_letter (c : N) : bool :=
  ((65 <=? c) && (c <=? 90) || (97 <=? c) && (c <=? 122))%N.

Definition ascii_digit (c : N) : bool := ((48 <=? c) && (c <=? 57))%N.

(** [[A-Za-z0-9._%+-]], [[A-Za-z0-9.-]] and [[A-Z|a-z]] *)
Definition local_char (c : N) : bool :=
  (ascii_letter c || ascii_digit c
   || (c =? 46) || (c =? 95) || (c =? 37) || (c =? 43) || (c =? 45))%N.

Definition domain_char (c : N) : bool :=
  (ascii_letter c || ascii_digit c || (c =? 46) || (c =? 45))%N.

Definition tld_char (c : N) : bool := (ascii_letter c || (c =? 124))%N.

(** Line 197. *)
Definition email_pattern : regex :=
  Group (Seq WordBoundary
           (Seq (Plus (Chr local_char))
              (Seq (Exact (lit "@"))
                 (Seq (Plus (Chr domain_char))
                    (Seq (Exact (lit "."))
                       (Seq (Chr tld_char)
                          (Seq (Chr tld_char)
                             (Seq (Star (Chr tld_char)) WordBoundary)))))))).

Definition extract_contact_info (text : pystr) : contact_info :=
  let item m := {| item_value := m; item_context := get_price_context text m |} in
  {| phone_numbers :=
       flat_map (fun pattern => map item (findall pattern text)) phone_patterns;
     email_addresses := map item (findall email_pattern text) |}.

(** *** [analyze_pricing_consistency], lines 211-251 *)

(** Lines 215-225, the text of a page: title, body and every non-empty
    OCR text, separated by blanks. *)
Definition all_text_of (page : page_data) : pystr :=
  fold_left
    (fun all_text ocr_text =>
       if is_empty ocr_text then all_text
       else all_text ++ lit " " ++ ocr_text)
    (pg_ocr_images page)
    (pg_title page ++ lit " " ++ pg_text page).

(** [any(word in context_lower for word in words)] *)
Definition any_word_in (words : list string) (context_lower : pystr) : bool :=
  existsb (fun word => contains (lit word) context_lower) words.

(** Lines 231-243. *)
Definition categorize (context0 : pystr) : category :=
  let context_lower := Unicode.lower context0 in
  if any_word_in ["fiber"; "fibre"; "fttx"]%string context_lower then Fiber
  else if any_word_in ["adsl"; "megaline"]%string context_lower then Adsl
  else if any_word_in ["4g"; "lte"; "mobile"]%string context_lower then Mobile4g
  else if any_word_in ["peotv"; "tv"; "television"]%string context_lower then Tv
  else if any_word_in ["package"; "plan"; "bundle"]%string context_lower then Package
  else UnknownCategory.

(** Lines 214-251: [price_groups]. *)
Definition group_prices (data : list (pystr * page_data))
  : result (list (category * list price_info)) :=
  for_each
    (fun price_groups entry =>
       let url := fst entry in
       prices <- extract_prices (all_text_of (snd entry)) ;;
       Ok (fold_left
             (fun groups p =>
                dict_append category_eqb (categorize (context p))
                  {| pi_url := url;
                     pi_price := value p;
                     pi_original := original p;
                     pi_context := context p;
                     pi_language := detect_language (context p) |}
                  groups)
             prices price_groups))
    data [].

(** *** [analyze_pricing_consistency], lines 253-298 *)

(** A cluster: [unique_prices] holds lists of price records. *)
Definition group : Type := list price_info.

(** [existing_group[0]['price']] *)
Definition representative (g : group) : result float :=
  p <- item_first g ;; Ok (pi_price p).

(** The test of line 267: [abs(price_val - existing_price) / existing_price < 0.1] *)
Definition within_tolerance (price_val existing_price : float) : result bool :=
  q <- truediv (abs (price_val - existing_price)) existing_price ;;
  Ok (q <? lit_0_1).

(** The inner [for existing_group in unique_prices] loop with its [break]:
    the flag [is_duplicate] and the groups after the loop. *)
Fixpoint scan_groups (price_info0 : price_info) (unique_prices : list group)
  : result (bool * list group) :=
  match unique_prices with
  | [] => Ok (false, [])
  | existing_group :: rest =>
      existing_price <- representative existing_group ;;
      near <- within_tolerance (pi_price price_info0) existing_price ;;
      if near
      then Ok (true, (existing_group ++ [price_info0]) :: rest)
      else
        ' (is_duplicate, rest') <- scan_groups price_info0 rest ;;
        Ok (is_duplicate, existing_group :: rest')
  end.

(** One iteration of [for price_info in prices]. *)
Definition add_price (unique_prices : list group) (price_info0 : price_info)
  : result (list group) :=
  ' (is_duplicate, groups) <- scan_groups price_info0 unique_prices ;;
  Ok (if is_duplicate then groups else groups ++ [[price_info0]]).

(** Lines 258-273: the clusters of one category. *)
Definition cluster_prices (prices : list price_info) : result (list group) :=
  for_each add_price prices [].

(** Python's [<] on the tuples [(price, count)]. *)
Definition range_lt (a b : float * nat) : bool :=
  if fst a =? fst b then Nat.ltb (snd a) (snd b) else fst a <? fst b.

(** Lines 277-278: [(group[0]['price'], len(group))] per group, sorted. *)
Definition price_ranges_of (unique_prices : list group) : result (list (float * nat)) :=
  ranges <- for_each
              (fun acc g => rep <- representative g ;; Ok (acc ++ [(rep, length g)]))
              unique_prices [] ;;
  Ok (sorted range_lt ranges).

(** Lines 289-296. *)
Definition occurrence_of (g : group) : result occurrence :=
  p <- item_first g ;;
  Ok {| occ_url := pi_url p;
        occ_price := lit "Rs. " ++ format_f 0 (pi_price p);
        occ_context := pi_context p;
        occ_language := pi_language p;
        occ_count := length g |}.

(** Lines 276-298: the discrepancy of one clustered category, if any. *)
Definition report_clusters (cat : category) (unique_prices : list group)
  : result (option pricing_discrepancy) :=
  if Nat.ltb 1 (length unique_prices) then
    price_ranges <- price_ranges_of unique_prices ;;
    lo <- item_first price_ranges ;;
    hi <- item_last price_ranges ;;
    let min_price := fst lo in
    let max_price := fst hi in
    spread <- truediv (max_price - min_price) min_price ;;
    if gtb spread lit_0_2 then
      spread' <- truediv (max_price - min_price) min_price ;;
      occurrences <- for_each
                       (fun acc g => o <- occurrence_of g ;; Ok (acc ++ [o]))
                       unique_prices [] ;;
      Ok (Some {| pd_category := cat;
                  pd_price_range :=
                    lit "Rs. " ++ format_f 0 min_price
                      ++ lit " - Rs. " ++ format_f 0 max_price;
                  pd_difference_percentage :=
                    format_f 1 (spread' * float_of_N 100) ++ lit "%";
                  pd_occurrences := occurrences |})
    else Ok None
  else Ok None.

(** The body of [for category, prices in price_groups.items()]. *)
Definition analyze_category (cat : category) (prices : list price_info)
  : result (option pricing_discrepancy) :=
  if Nat.ltb 1 (length prices) then
    unique_prices <- cluster_prices prices ;;
    report_clusters cat unique_prices
  else Ok None.

(** Lines 253-298: the discrepancies appended to
    [inconsistencies['pricing_discrepancies']]. *)
Definition find_inconsistencies
    (price_groups : list (category * list price_info))
    (pricing_discrepancies : list pricing_discrepancy)
  : result (list pricing_discrepancy) :=
  for_each
    (fun acc entry =>
       found <- analyze_category (fst entry) (snd entry) ;;
       Ok (match found with
           | Some d => acc ++ [d]
           | None => acc
           end))
    price_groups pricing_discrepancies.

(** [analyze_pricing_consistency]: the new value of
    [inconsistencies['pricing_discrepancies']]. *)
Definition analyze_pricing_consistency
    (data : list (pystr * page_data))
    (pricing_discrepancies : list pricing_discrepancy)
  : result (list pricing_discrepancy) :=
  price_groups <- group_prices data ;;
  find_inconsistencies price_groups pricing_discrepancies.

(** *** Sets of strings

    [set(xs)] as the distinct elements of [xs]. *)

Definition in_set (x : pystr) (s : list pystr) : bool := existsb (PyStr.eqb x) s.

(** The distinct elements, in the order of their first occurrence. *)
Definition make_set (xs : list pystr) : list pystr :=
  fold_left (fun s x => if in_set x s then s else s ++ [x]) xs [].

Definition set_intersection (a b : list pystr) : list pystr :=
  filter (fun x => in_set x b) a.

Definition set_difference (a b : list pystr) : list pystr :=
  filter (fun x => negb (in_set x b)) a.

Definition set_union (a b : list pystr) : list pystr := a ++ set_difference b a.

Definition set_eqb (a b : list pystr) : bool :=
  forallb (fun x => in_set x b) a && forallb (fun x => in_set x a) b.

(** *** [might_be_translations] and [price_lists_match] *)

(** A value of [english_pages], [sinhala_pages] or [mixed_pages]
    (lines 397-402).  Its ['contact_info'] is stored and never read. *)
Record page_info : Type := {
  info_text : pystr;
  info_prices : list price;
  info_package_details : package_details
}.

(** [url.replace('/en/', '/').replace('/si/', '/')] *)
Definition strip_locale (url : pystr) : pystr :=
  replace (lit "/si/") (lit "/") (replace (lit "/en/") (lit "/") url).

(** [abs(a - b)] on lengths. *)
Definition abs_diff (a b : nat) : nat := (a - b) + (b - a).

(** The test of line 476. *)
Definition similar_price_counts (info1 info2 : page_info) : bool :=
  Nat.leb (abs_diff (length (info_prices info1)) (length (info_prices info2))) 1
  && Nat.ltb 0 (length (info_prices info1)).

Definition feature_set (info : page_info) : list pystr :=
  make_set (map feature_name (features (info_package_details info))).

(** Lines 480-487. *)
Definition similar_features (info1 info2 : page_info) : bool :=
  let features1 := feature_set info1 in
  let features2 := feature_set info2 in
  match features1, features2 with
  | _ :: _, _ :: _ =>
      let overlap := N.of_nat (length (set_intersection features1 features2)) in
      let total := N.of_nat (length (set_union features1 features2)) in
      (0 <? total)%N && gtb (int_truediv overlap total) lit_0_5
  | _, _ => false
  end.

Definition might_be_translations (url1 url2 : pystr) (info1 info2 : page_info)
  : bool :=
  if PyStr.eqb (strip_locale url1) (strip_locale url2) then true
  else if similar_price_counts info1 info2 then true
  else if similar_features info1 info2 then true
  else false.

(** The loop of lines 499-501 over [zip(prices1_sorted, prices2_sorted)]. *)
Fixpoint all_close (tolerance : float) (pairs : list (float * float)) : result bool :=
  match pairs with
  | [] => Ok true
  | (p1, p2) :: pairs' =>
      q <- truediv (abs (p1 - p2)) (max p1 p2) ;;
      if gtb q tolerance then Ok false else all_close tolerance pairs'
  end.

(** The pair of line 500 with the two lists exchanged. *)
Definition swap (p : float * float) : float * float := (snd p, fst p).

Definition price_lists_match_with (tolerance : float) (prices1 prices2 : list float)
  : result bool :=
  if negb (Nat.eqb (length prices1) (length prices2)) then Ok false
  else
    let prices1_sorted := sorted ltb prices1 in
    let prices2_sorted := sorted ltb prices2 in
    all_close tolerance (combine prices1_sorted prices2_sorted).

(** [price_lists_match(prices1, prices2)] with the default
    [tolerance=0.05]. *)
Definition price_lists_match : list float -> list float -> result bool :=
  price_lists_match_with lit_0_05.

(** *** [analyze_translation_consistency], lines 379-409 *)

Record language_pages : Type := {
  english_pages : list (pystr * page_info);
  sinhala_pages : list (pystr * page_info);
  mixed_pages : list (pystr * page_info)
}.

(** Lines 395-402 for one page. *)
Definition page_language (page : page_data) : language :=
  detect_language (all_text_of page).

Definition page_info_of (page : page_data) : result page_info :=
  let all_text := all_text_of page in
  prices <- extract_prices all_text ;;
  details <- extract_package_details all_text ;;
  Ok {| info_text := all_text;
        info_prices := prices;
        info_package_details := details |}.

(** Lines 404-409. *)
Definition file_page (url : pystr) (lang : language) (info : page_info)
           (pages : language_pages) : language_pages :=
  match lang with
  | English =>
      {| english_pages := dict_set PyStr.eqb url info (english_pages pages);
         sinhala_pages := sinhala_pages pages;
         mixed_pages := mixed_pages pages |}
  | Sinhala =>
      {| english_pages := english_pages pages;
         sinhala_pages := dict_set PyStr.eqb url info (sinhala_pages pages);
         mixed_pages := mixed_pages pages |}
  | Mixed =>
      {| english_pages := english_pages pages;
         sinhala_pages := sinhala_pages pages;
         mixed_pages := dict_set PyStr.eqb url info (mixed_pages pages) |}
  | _ => pages
  end.

Definition partition_pages (data : list (pystr * page_data)) : result language_pages :=
  for_each
    (fun pages entry =>
       let language0 := page_language (snd entry) in
       info <- page_info_of (snd entry) ;;
       Ok (file_page (fst entry) language0 info pages))
    data
    {| english_pages := []; sinhala_pages := []; mixed_pages := [] |}.

(** *** Records of the analyses *)

(** A value of [package_details] and an entry of a feature group. *)
Record package : Type := {
  pkg_url : pystr;
  pkg_speeds : list speed;
  pkg_data_limits : list data_limit;
  pkg_language : language
}.

(** An entry of [inconsistencies['package_details_discrepancies']]. *)
Inductive package_discrepancy : Type :=
| SpeedInconsistency (feature_group : pystr) (speed_variations : list float)
                     (packages : list package)
| DataLimitInconsistency (feature_group : pystr) (data_variations : list pystr)
                         (packages : list package).

(** An entry of [inconsistencies['translation_mismatches']]. *)
Inductive translation_mismatch : Type :=
| PriceMismatchBetweenLanguages (url1 url2 : pystr) (language1 language2 : language)
                                (prices1 prices2 : list float)
| FeatureMismatchBetweenLanguages (url1 url2 : pystr) (language1 language2 : language)
                                  (missing_in_lang1 missing_in_lang2 : list pystr)
| InternalLanguagePriceMismatch (url : pystr)
                                (english_prices sinhala_prices : list float).

(** An entry of [all_contacts['phones']] or [all_contacts['emails']]. *)
Record contact_detail : Type := {
  cd_url : pystr;
  cd_value : pystr;
  cd_context : pystr
}.

(** An entry of [inconsistencies['contact_info_discrepancies']]. *)
Inductive contact_discrepancy : Type :=
| MultiplePhoneNumbers (count : nat) (numbers : list pystr)
                       (details : list contact_detail)
| MultipleEmailAddresses (count : nat) (emails : list pystr)
                         (details : list contact_detail).

(** [self.inconsistencies]; its ['service_feature_discrepancies'] is
    never written nor read. *)
Record inconsistencies : Type := {
  pricing_discrepancies : list pricing_discrepancy;
  package_details_discrepancies : list package_discrepancy;
  translation_mismatches : list translation_mismatch;
  contact_info_discrepancies : list contact_discrepancy
}.

(** The analyzer: [self.json_file_path], [self.data] and
    [self.inconsistencies]. *)
Record analyzer : Type := {
  json_file_path : pystr;
  data : list (pystr * page_data);
  found : inconsistencies
}.

(** [__init__] and [load_data], the file already read. *)
Definition new_analyzer (path : pystr) (pages : list (pystr * page_data)) : analyzer :=
  {| json_file_path := path;
     data := pages;
     found := {| pricing_discrepancies := [];
                 package_details_discrepancies := [];
                 translation_mismatches := [];
                 contact_info_discrepancies := [] |} |}.

(** [a < b] on strings: by code points, a proper prefix first. *)
Fixpoint str_ltb (a b : pystr) : bool :=
  match a, b with
  | _, [] => false
  | [], _ :: _ => true
  | x :: a', y :: b' => (x <? y)%N || (x =? y)%N && str_ltb a' b'
  end.

(** The distinct floats, in the order of their first occurrence. *)
Definition make_float_set (xs : list float) : list float :=
  fold_left (fun s x => if existsb (fun y => x =? y) s then s else s ++ [x]) xs [].

(** *** The interpreter's part

    What the analyses and the report take from Python and that is not
    modelled: the text of a float ([repr_float], also [str] of a float),
    the quoted text of a string ([repr_str]), and the order in which a
    set is listed.  [list(set(xs))] is given the distinct elements of
    [xs] in insertion order, which fix how the set was built
    ([list_of_float_set], [list_of_str_set]); [list(a - b)] is given
    both sets in this form ([list_of_str_difference]).  A float hashes
    by its value, so a set of floats comes in the same order in every
    run; the order of a set of strings depends on the hash seed, which
    the interpreter draws when it starts: the two parameters for strings
    belong to one run.  The definitions of this section take all of
    them as parameters. *)

Section Interpreter.

Variable repr_float : float -> pystr.
Variable repr_str : pystr -> pystr.
Variable list_of_float_set : list float -> list float.
Variable list_of_str_set : list pystr -> list pystr.
Variable list_of_str_difference : list pystr -> list pystr -> list pystr.

(** *** [analyze_package_consistency] *)

(** Lines 306-324: the pages with any package detail. *)
Definition collect_package_details (pages : list (pystr * page_data))
  : result (list (pystr * (package_details * language))) :=
  for_each
    (fun collected entry =>
       let all_text := all_text_of (snd entry) in
       details <- extract_package_details all_text ;;
       Ok (match speeds details, data_limits details, features details with
           | [], [], [] => collected
           | _, _, _ =>
               dict_set PyStr.eqb (fst entry)
                        (details, detect_language all_text) collected
           end))
    pages [].

(** Lines 327-339: the pages grouped by their sorted feature names. *)
Definition group_by_features
           (collected : list (pystr * (package_details * language)))
  : list (pystr * list package) :=
  fold_left
    (fun feature_groups entry =>
       let details := fst (snd entry) in
       let feature_key :=
         join (lit "-") (sorted str_ltb (map feature_name (features details))) in
       if is_empty feature_key then feature_groups
       else
         dict_append PyStr.eqb feature_key
                     {| pkg_url := fst entry;
                        pkg_speeds := speeds details;
                        pkg_data_limits := data_limits details;
                        pkg_language := snd (snd entry) |}
                     feature_groups)
    collected [].

(** Lines 358-364: ['unlimited'], or [str] of the value. *)
Definition data_limit_type (limit : data_limit) : pystr :=
  match limit with
  | LimitType _ => lit "unlimited"
  | LimitValue (inl v) _ => repr_float v
  | LimitValue (inr m) _ => m
  end.

(** Lines 343-372 for one feature group. *)
Definition check_feature_group (feature_key : pystr) (packages : list package)
  : list package_discrepancy :=
  if Nat.ltb 1 (length packages) then
    let all_speeds := flat_map (fun pkg => map speed_value (pkg_speeds pkg)) packages in
    let speed_set := make_float_set all_speeds in
    let data_limit_types :=
      flat_map (fun pkg => map data_limit_type (pkg_data_limits pkg)) packages in
    let type_set := make_set data_limit_types in
    (if Nat.ltb 1 (length speed_set)
     then [SpeedInconsistency feature_key (list_of_float_set speed_set) packages]
     else [])
    ++
    (if Nat.ltb 1 (length type_set)
     then [DataLimitInconsistency feature_key (list_of_str_set type_set) packages]
     else [])
  else [].

Definition analyze_package_consistency (self : analyzer)
  : result (list package_discrepancy) :=
  collected <- collect_package_details (data self) ;;
  Ok (fold_left
        (fun acc group => acc ++ check_feature_group (fst group) (snd group))
        (group_by_features collected)
        (package_details_discrepancies (found self))).

(** *** [analyze_translation_consistency] *)

(** Lines 426-467 for one pair of pages. *)
Definition compare_pages (lang1 lang2 : language)
           (page1 page2 : pystr * page_info)
  : result (list translation_mismatch) :=
  let '(url1, info1) := page1 in
  let '(url2, info2) := page2 in
  if might_be_translations url1 url2 info1 info2 then
    let prices1 := map value (info_prices info1) in
    let prices2 := map value (info_prices info2) in
    price_part <-
      match prices1, prices2 with
      | _ :: _, _ :: _ =>
          same <- price_lists_match prices1 prices2 ;;
          Ok (if same then []
              else [PriceMismatchBetweenLanguages url1 url2 lang1 lang2
                                                  prices1 prices2])
      | _, _ => Ok []
      end ;;
    let features1 := map feature_name (features (info_package_details info1)) in
    let features2 := map feature_name (features (info_package_details info2)) in
    let feature_part :=
      match features1, features2 with
      | _ :: _, _ :: _ =>
          let features1_set := make_set features1 in
          let features2_set := make_set features2 in
          if set_eqb features1_set features2_set then []
          else
            let missing_in_lang2 := set_difference features1_set features2_set in
            let missing_in_lang1 := set_difference features2_set features1_set in
            match missing_in_lang1, missing_in_lang2 with
            | [], [] => []
            | _, _ =>
                [FeatureMismatchBetweenLanguages
                   url1 url2 lang1 lang2
                   (list_of_str_difference features2_set features1_set)
                   (list_of_str_difference features1_set features2_set)]
            end
      | _, _ => []
      end in
    Ok (price_part ++ feature_part)
  else Ok [].

(** [compare_cross_language_consistency]: the mismatches appended. *)
Definition compare_cross_language_consistency
           (pages1 pages2 : list (pystr * page_info)) (lang1 lang2 : language)
           (mismatches : list translation_mismatch)
  : result (list translation_mismatch) :=
  for_each
    (fun acc page1 =>
       for_each
         (fun acc page2 =>
            new <- compare_pages lang1 lang2 page1 page2 ;;
            Ok (acc ++ new))
         pages2 acc)
    pages1 mismatches.

(** [check_mixed_language_consistency]: the mismatches appended. *)
Definition check_mixed_language_consistency (url : pystr) (info : page_info)
           (mismatches : list translation_mismatch)
  : result (list translation_mismatch) :=
  let language_is l (p : price) :=
    match detect_language (context p), l with
    | English, English | Sinhala, Sinhala => true
    | _, _ => false
    end in
  let english_prices := filter (language_is English) (info_prices info) in
  let sinhala_prices := filter (language_is Sinhala) (info_prices info) in
  match english_prices, sinhala_prices with
  | _ :: _, _ :: _ =>
      let eng_values := map value english_prices in
      let sin_values := map value sinhala_prices in
      same <- price_lists_match eng_values sin_values ;;
      Ok (if same then mismatches
          else mismatches ++ [InternalLanguagePriceMismatch url eng_values sin_values])
  | _, _ => Ok mismatches
  end.

Definition analyze_translation_consistency (self : analyzer)
  : result (list translation_mismatch) :=
  pages <- partition_pages (data self) ;;
  mismatches <- compare_cross_language_consistency
                  (english_pages pages) (sinhala_pages pages) English Sinhala
                  (translation_mismatches (found self)) ;;
  for_each
    (fun acc page => check_mixed_language_consistency (fst page) (snd page) acc)
    (mixed_pages pages) mismatches.

(** *** [analyze_contact_consistency] *)

(** Lines 530-559: every phone number and every email address, with
    the page it is on. *)
Definition collect_contacts (pages : list (pystr * page_data))
  : list contact_detail * list contact_detail :=
  fold_left
    (fun all_contacts entry =>
       let info := extract_contact_info (all_text_of (snd entry)) in
       let detail c := {| cd_url := fst entry;
                          cd_value := item_value c;
                          cd_context := item_context c |} in
       (fst all_contacts ++ map detail (phone_numbers info),
        snd all_contacts ++ map detail (email_addresses info)))
    pages ([], []).

(** Lines 562-580. *)
Definition analyze_contact_consistency (self : analyzer)
  : list contact_discrepancy :=
  let '(phones, emails) := collect_contacts (data self) in
  let unique_phones := make_set (map cd_value phones) in
  let unique_emails := make_set (map cd_value emails) in
  contact_info_discrepancies (found self)
  ++ (if Nat.ltb 3 (length unique_phones)
      then [MultiplePhoneNumbers (length unique_phones)
                                 (list_of_str_set unique_phones) phones]
      else [])
  ++ (if Nat.ltb 3 (length unique_emails)
      then [MultipleEmailAddresses (length unique_emails)
                                   (list_of_str_set unique_emails) emails]
      else []).

(** *** [analyze_all_inconsistencies] *)

Definition analyze_all_inconsistencies (self : analyzer) : result analyzer :=
  let update f := {| json_file_path := json_file_path self;
                     data := data self;
                     found := f |} in
  pricing <- analyze_pricing_consistency (data self)
                                         (pricing_discrepancies (found self)) ;;
  let self1 := update {| pricing_discrepancies := pricing;
                         package_details_discrepancies :=
                           package_details_discrepancies (found self);
                         translation_mismatches := translation_mismatches (found self);
                         contact_info_discrepancies :=
                           contact_info_discrepancies (found self) |} in
  packages <- analyze_package_consistency self1 ;;
  translations <- analyze_translation_consistency self1 ;;
  let contacts := analyze_contact_consistency self1 in
  Ok (update {| pricing_discrepancies := pricing;
                package_details_discrepancies := packages;
                translation_mismatches := translations;
                contact_info_discrepancies := contacts |}).

(** *** [generate_summary_stats] and [generate_report] *)

Record summary_stats : Type := {
  total_pages_analyzed : nat;
  total_inconsistencies : nat;
  pricing_count : nat;
  translation_count : nat;
  package_count : nat;
  contact_count : nat
}.

Definition generate_summary_stats (self : analyzer) : summary_stats :=
  let pricing := length (pricing_discrepancies (found self)) in
  let translation := length (translation_mismatches (found self)) in
  let packages := length (package_details_discrepancies (found self)) in
  let contacts := length (contact_info_discrepancies (found self)) in
  {| total_pages_analyzed := length (data self);
     total_inconsistencies := pricing + translation + packages + contacts;
     pricing_count := pricing;
     translation_count := translation;
     package_count := packages;
     contact_count := contacts |}.

(** A reading of the clock, [datetime.now()]. *)
Record datetime : Type := {
  year : N; month : N; day : N; hour : N; minute : N; second : N
}.

(** [now.strftime('%Y-%m-%d %H:%M:%S')], for a year of four digits. *)
Definition strftime (now : datetime) : pystr :=
  zero_pad 4 (year now) ++ lit "-" ++ zero_pad 2 (month now) ++ lit "-"
    ++ zero_pad 2 (day now) ++ lit " " ++ zero_pad 2 (hour now) ++ lit ":"
    ++ zero_pad 2 (minute now) ++ lit ":" ++ zero_pad 2 (second now).

(** [str(n)] *)
Definition str_of_nat (n : nat) : pystr := str_of_N (N.of_nat n).

(** [s.upper()] and [s.title()] on the ASCII names of categories,
    types and languages. *)
Definition upper (s : pystr) : pystr :=
  map (fun c => if (97 <=? c) && (c <=? 122) then c - 32 else c)%N s.

Fixpoint title_from (after_letter : bool) (s : pystr) : pystr :=
  match s with
  | [] => []
  | c :: s' =>
      let is_lower := ((97 <=? c) && (c <=? 122))%N in
      let is_upper := ((65 <=? c) && (c <=? 90))%N in
      (if after_letter
       then (if is_upper then c + 32 else c)
       else (if is_lower then c - 32 else c))%N
      :: title_from (is_lower || is_upper) s'
  end.

Definition title (s : pystr) : pystr := title_from false s.

(** The text of a list whose items are written by [item]. *)
Definition repr_list {A : Type} (item : A -> pystr) (xs : list A) : pystr :=
  lit "[" ++ join (lit ", ") (map item xs) ++ lit "]".

(** [enumerate(xs, 1)] *)
Definition enumerate1 {A : Type} (xs : list A) : list (nat * A) :=
  combine (seq 1 (length xs)) xs.

Definition search_mark : pystr := [128269%N].
Definition check_mark : pystr := [9989%N].
Definition bullet : pystr := [8226%N].
Definition clipboard_mark : pystr := [128203%N].
Definition party_mark : pystr := [127881%N].
Definition warning_mark : pystr := [9888%N; 65039%N].

(** Lines 598-605. *)
Definition report_header (now : datetime) (self : analyzer) : list pystr :=
  let stats := generate_summary_stats self in
  [ repeat 61%N 80;
    lit "SLT WEBSITE CONTENT CONSISTENCY ANALYSIS";
    repeat 61%N 80;
    lit "Generated on: " ++ strftime now;
    lit "Source file: " ++ json_file_path self;
    lit "Pages analyzed: " ++ str_of_nat (total_pages_analyzed stats);
    lit "Total inconsistencies found: " ++ str_of_nat (total_inconsistencies stats);
    [] ].

(** Lines 608-624. *)
Definition pricing_section (issues : list pricing_discrepancy) : list pystr :=
  match issues with
  | [] => [ check_mark ++ lit " NO PRICING DISCREPANCIES FOUND"; [] ]
  | _ =>
      [ search_mark ++ lit " PRICING DISCREPANCIES FOUND"; repeat 61%N 50 ]
      ++ flat_map
           (fun numbered =>
              let issue := snd numbered in
              [ [10%N] ++ str_of_nat (fst numbered) ++ lit ". "
                  ++ upper (category_name (pd_category issue))
                  ++ lit " PRICING INCONSISTENCY";
                lit "   Price Range: " ++ pd_price_range issue;
                lit "   Difference: " ++ pd_difference_percentage issue;
                lit "   Found in:" ]
              ++ flat_map
                   (fun occ =>
                      [ lit "   " ++ bullet ++ lit " " ++ occ_url occ;
                        lit "     Price: " ++ occ_price occ ++ lit " ("
                          ++ language_name (occ_language occ) ++ lit " content)";
                        lit "     Context: " ++ firstn 100 (occ_context occ)
                          ++ lit "...";
                        [] ])
                   (pd_occurrences issue))
           (enumerate1 issues)
  end.

Definition mismatch_type (issue : translation_mismatch) : pystr :=
  match issue with
  | PriceMismatchBetweenLanguages _ _ _ _ _ _ => lit "price_mismatch_between_languages"
  | FeatureMismatchBetweenLanguages _ _ _ _ _ _ =>
      lit "feature_mismatch_between_languages"
  | InternalLanguagePriceMismatch _ _ _ => lit "internal_language_price_mismatch"
  end.

(** Lines 627-656. *)
Definition translation_section (issues : list translation_mismatch) : list pystr :=
  match issues with
  | [] => [ check_mark ++ lit " NO TRANSLATION MISMATCHES FOUND"; [] ]
  | _ =>
      [ search_mark ++ lit " ENGLISH-SINHALA TRANSLATION MISMATCHES";
        repeat 61%N 50 ]
      ++ flat_map
           (fun numbered =>
              let issue := snd numbered in
              [ [10%N] ++ str_of_nat (fst numbered) ++ lit ". "
                  ++ upper (mismatch_type issue) ]
              ++ match issue with
                 | PriceMismatchBetweenLanguages url1 url2 l1 l2 prices1 prices2 =>
                     [ lit "   " ++ title (language_name l1) ++ lit " page: " ++ url1;
                       lit "   " ++ title (language_name l1) ++ lit " prices: "
                         ++ repr_list repr_float prices1;
                       lit "   " ++ title (language_name l2) ++ lit " page: " ++ url2;
                       lit "   " ++ title (language_name l2) ++ lit " prices: "
                         ++ repr_list repr_float prices2 ]
                 | FeatureMismatchBetweenLanguages url1 url2 l1 l2 missing1 missing2 =>
                     [ lit "   " ++ title (language_name l1) ++ lit " page: " ++ url1;
                       lit "   " ++ title (language_name l2) ++ lit " page: " ++ url2 ]
                     ++ match missing1 with
                        | [] => []
                        | _ => [ lit "   Missing in " ++ title (language_name l1)
                                   ++ lit ": " ++ repr_list repr_str missing1 ]
                        end
                     ++ match missing2 with
                        | [] => []
                        | _ => [ lit "   Missing in " ++ title (language_name l2)
                                   ++ lit ": " ++ repr_list repr_str missing2 ]
                        end
                 | InternalLanguagePriceMismatch url english_prices sinhala_prices =>
                     [ lit "   Page: " ++ url;
                       lit "   English prices: " ++ repr_list repr_float english_prices;
                       lit "   Sinhala prices: " ++ repr_list repr_float sinhala_prices;
                       lit "   Issue: Different prices in English and Sinhala sections of the same page" ]
                 end
              ++ [ [] ])
           (enumerate1 issues)
  end.

(** [d.get('type') if 'type' in d else d.get('value')], as the list
    shows it. *)
Definition repr_data_limit (limit : data_limit) : pystr :=
  match limit with
  | LimitType _ => repr_str (lit "unlimited")
  | LimitValue (inl v) _ => repr_float v
  | LimitValue (inr m) _ => repr_str m
  end.

(** Lines 659-682. *)
Definition package_section (issues : list package_discrepancy) : list pystr :=
  match issues with
  | [] => [ check_mark ++ lit " NO PACKAGE DETAILS DISCREPANCIES FOUND"; [] ]
  | _ =>
      [ search_mark ++ lit " PACKAGE DETAILS DISCREPANCIES"; repeat 61%N 50 ]
      ++ flat_map
           (fun numbered =>
              let '(type_name, feature_group, variations, packages) :=
                match snd numbered with
                | SpeedInconsistency g vs ps =>
                    (lit "speed_inconsistency", g,
                     lit "   Speed variations: " ++ repr_list repr_float vs, ps)
                | DataLimitInconsistency g vs ps =>
                    (lit "data_limit_inconsistency", g,
                     lit "   Data limit variations: " ++ repr_list repr_str vs, ps)
                end in
              [ [10%N] ++ str_of_nat (fst numbered) ++ lit ". " ++ upper type_name;
                lit "   Feature Group: " ++ feature_group;
                variations;
                lit "   Found in packages:" ]
              ++ map
                   (fun pkg =>
                      lit "   " ++ bullet ++ lit " " ++ pkg_url pkg
                        ++ lit " - speeds: "
                        ++ repr_list repr_float (map speed_value (pkg_speeds pkg))
                        ++ lit ", data_limits: "
                        ++ repr_list repr_data_limit (pkg_data_limits pkg)
                        ++ lit ", language: " ++ language_name (pkg_language pkg))
                   packages
              ++ [ [] ])
           (enumerate1 issues)
  end.

(** Lines 685-701. *)
Definition contact_section (issues : list contact_discrepancy) : list pystr :=
  match issues with
  | [] => [ check_mark ++ lit " NO CONTACT INFORMATION DISCREPANCIES FOUND"; [] ]
  | _ =>
      [ search_mark ++ lit " CONTACT INFORMATION DISCREPANCIES"; repeat 61%N 50 ]
      ++ flat_map
           (fun numbered =>
              let '(type_name, count, listing, details) :=
                match snd numbered with
                | MultiplePhoneNumbers n numbers ds =>
                    (lit "multiple_phone_numbers", n,
                     lit "   Numbers: " ++ repr_list repr_str numbers, ds)
                | MultipleEmailAddresses n emails ds =>
                    (lit "multiple_email_addresses", n,
                     lit "   Emails: " ++ repr_list repr_str emails, ds)
                end in
              [ [10%N] ++ str_of_nat (fst numbered) ++ lit ". " ++ upper type_name;
                lit "   Count: " ++ str_of_nat count;
                listing;
                lit "   Details:" ]
              ++ map
                   (fun d =>
                      lit "   " ++ bullet ++ lit " " ++ cd_url d ++ lit " - "
                        ++ cd_value d ++ lit " (context: "
                        ++ firstn 80 (cd_context d) ++ lit ")")
                   details
              ++ [ [] ])
           (enumerate1 issues)
  end.

(** Lines 704-728. *)
Definition summary_section (stats : summary_stats) : list pystr :=
  [ clipboard_mark ++ lit " SUMMARY & RECOMMENDATIONS"; repeat 61%N 50 ]
  ++ match total_inconsistencies stats with
     | O =>
         [ party_mark ++ lit " EXCELLENT! No content inconsistencies found.";
           lit "Your website content is consistent across all pages and languages." ]
     | total_issues =>
         let action (n : nat) (before after : string) :=
           match n with
           | O => []
           | _ => [ lit before ++ str_of_nat n ++ lit after ]
           end in
         [ warning_mark ++ lit "  FOUND " ++ str_of_nat total_issues
             ++ lit " CONTENT INCONSISTENCIES";
           [];
           lit "PRIORITY ACTIONS NEEDED:" ]
         ++ action (pricing_count stats)
                   " - Fix pricing inconsistencies ("%string " issues)"%string
         ++ action (translation_count stats)
                   " - Review translation mismatches ("%string " issues)"%string
         ++ action (package_count stats)
                   " - Harmonize package details ("%string " issues)"%string
         ++ action (contact_count stats)
                   " - Consolidate contact information ("%string " issues)"%string
     end.

(** The items of [report], in order. *)
Definition report_lines (now : datetime) (self : analyzer) : list pystr :=
  report_header now self
  ++ pricing_section (pricing_discrepancies (found self))
  ++ translation_section (translation_mismatches (found self))
  ++ package_section (package_details_discrepancies (found self))
  ++ contact_section (contact_info_discrepancies (found self))
  ++ summary_section (generate_summary_stats self).

Definition generate_report (now : datetime) (self : analyzer) : pystr :=
  join [10%N] (report_lines now self).

End Interpreter.

(** *** [main]

    The analyzer is built on the loaded pages, every analysis runs, and
    the report is generated at the time [now]. *)
Definition run_analysis (repr_float : float -> pystr) (repr_str : pystr -> pystr)
           (list_of_float_set : list float -> list float)
           (list_of_str_set : list pystr -> list pystr)
           (list_of_str_difference : list pystr -> list pystr -> list pystr)
           (now : datetime) (path : pystr) (pages : list (pystr * page_data))
  : result pystr :=
  self <- analyze_all_inconsistencies repr_float list_of_float_set list_of_str_set
                                      list_of_str_difference
                                      (new_analyzer path pages) ;;
  Ok (generate_report repr_float repr_str now self).

End ContentConsistencyAnalyzer.

(** * [class DiscrepancyAnalyzer] *)

Module DiscrepancyAnalyzer.

Local Open Scope float_scope.

Import ContentConsistencyAnalyzer.

(** [len(text.replace(' ', ''))] *)
Definition count_non_blank (text : pystr) : N :=
  N.of_nat (length (replace (lit " ") [] text)).

(** [detect_language], lines 1013-1034. *)
Definition detect_language (text : pystr) : language :=
  if is_empty text then Unknown
  else
    let sinhala_chars := count_chars is_sinhala text in
    let english_chars := count_chars is_english text in
    let total_chars := count_non_blank text in
    if (total_chars =? 0)%N then Unknown
    else
      let sinhala_ratio := int_truediv sinhala_chars total_chars in
      let english_ratio := int_truediv english_chars total_chars in
      if gtb sinhala_ratio lit_0_1
      then (if gtb sinhala_ratio english_ratio then Sinhala else Mixed)
      else if gtb english_ratio lit_0_5 then English
      else Mixed.

End DiscrepancyAnalyzer.

(** ** The clustering policy, in the specification's words

    These definitions restate the policy of the specification; the
    theorems below compare them with [cluster_prices] and
    [analyze_category]. *)

Module ClusterSpec.

Local Open Scope float_scope.

Import ContentConsistencyAnalyzer.

(** [|v - rep| / rep] *)
Definition relative_distance (v rep : float) : float := abs (v - rep) / rep.

(** [|v - rep| / rep < 0.1], the default tolerance for prices. *)
Definition near (v rep : float) : bool := relative_distance v rep <? lit_0_1.

(** The representative of cluster [g] is out of tolerance for fact [f]. *)
Definition rep_far (f : price_info) (g : group) : Prop :=
  exists rep members,
    g = rep :: members /\ near (pi_price f) (pi_price rep) = false.

(** One incoming fact: it joins the first cluster, in insertion order,
    whose representative is within tolerance, and the representative
    stays the first member; with no such cluster it opens a new one. *)
Inductive greedy_insert (f : price_info) : list group -> list group -> Prop :=
| insert_joins before rep members after :
    Forall (rep_far f) before ->
    near (pi_price f) (pi_price rep) = true ->
    greedy_insert f (before ++ (rep :: members) :: after)
                    (before ++ (rep :: members ++ [f]) :: after)
| insert_opens clusters :
    Forall (rep_far f) clusters ->
    greedy_insert f clusters (clusters ++ [[f]]).

(** The facts of a category, taken in order. *)
Inductive greedy_clusters : list group -> list price_info -> list group -> Prop :=
| clusters_done clusters : greedy_clusters clusters [] clusters
| clusters_step clusters f clusters' facts clusters'' :
    greedy_insert f clusters clusters' ->
    greedy_clusters clusters' facts clusters'' ->
    greedy_clusters clusters (f :: facts) clusters''.

(** Every later member of a cluster is within tolerance of its first. *)
Definition anchored (g : group) : Prop :=
  exists rep members,
    g = rep :: members /\
    Forall (fun p => near (pi_price p) (pi_price rep) = true) members.

(** The representative values of the clusters. *)
Definition representatives (clusters : list group) : list float :=
  flat_map (fun g => match g with
                     | rep :: _ => [pi_price rep]
                     | [] => []
                     end) clusters.

Definition is_minimum (lo : float) (xs : list float) : Prop :=
  In lo xs /\ forall x, In x xs -> (lo <=? x) = true.

Definition is_maximum (hi : float) (xs : list float) : Prop :=
  In hi xs /\ forall x, In x xs -> (x <=? hi) = true.

(** [(max_representative - min_representative) / min_representative > 0.2] *)
Definition significant_spread (clusters : list group) : Prop :=
  exists lo hi,
    is_minimum lo (representatives clusters) /\
    is_maximum hi (representatives clusters) /\
    gtb ((hi - lo) / lo) lit_0_2 = true.

(** A price the extractor can produce that is safe to divide by: a
    number, and not zero. *)
Definition nonzero_price (p : price_info) : Prop :=
  is_nan (pi_price p) = false /\ (pi_price p =? 0) = false.

(** Clusters as the loop keeps them: none empty, no representative zero. *)
Definition sound_group (g : group) : Prop :=
  exists rep members, g = rep :: members /\ (pi_price rep =? 0) = false.

(** The pair line 277 builds for a cluster. *)
Definition range_of (g : group) : float * nat :=
  match g with
  | rep :: _ => (pi_price rep, length g)
  | [] => (0, 0%nat)
  end.

Definition range_le (a b : float * nat) : Prop := (fst a <=? fst b) = true.
Definition range_dom (a : float * nat) : Prop := not_nan (fst a).

End ClusterSpec.

(** ** Further vocabulary on clusters and their report *)

Module ClusterShape.

Import ContentConsistencyAnalyzer ClusterSpec.

(** No representative is within the tolerance of an earlier one. *)
Definition apart (reps : list float) : Prop :=
  ForallOrdPairs (fun earlier later => near later earlier = false) reps.

(** The occurrence reported for a cluster: what its first fact says,
    and the size of the cluster. *)
Definition occurrence_for (g : group) (o : occurrence) : Prop :=
  exists rep members,
    g = rep :: members /\
    occ_url o = pi_url rep /\
    occ_price o = lit "Rs. " ++ format_f 0 (pi_price rep) /\
    occ_context o = pi_context rep /\
    occ_language o = pi_language rep /\
    occ_count o = length g.

(** The categories there are. *)
Definition all_categories : list category :=
  [Fiber; Adsl; Mobile4g; Tv; Package; UnknownCategory].

End ClusterShape.

(** ** Prices of zero *)

Module ZeroSpec.

Import ContentConsistencyAnalyzer ClusterSpec.

Local Open Scope float_scope.

(** A price as the extractor gives it: a number, not below zero. *)
Definition nonnegative_price (p : price_info) : Prop := (0 <=? pi_price p) = true.
Definition positive_price (p : price_info) : Prop := (0 <? pi_price p) = true.
Definition zero_price (p : price_info) : Prop := (pi_price p =? 0) = true.

(** A cluster with a representative of zero stands behind [n] clusters
    whose representatives are not zero. *)
Definition zero_behind (n : nat) (gs : list group) : Prop :=
  exists before rep members after,
    gs = before ++ (rep :: members) :: after /\
    length before = n /\
    Forall sound_group before /\
    zero_price rep.

End ZeroSpec.

(** ** Where a fact sits *)

Module SettledSpec.

Import ContentConsistencyAnalyzer ClusterSpec.

Local Open Scope float_scope.

(** The members of [later] are out of the tolerance of the
    representative of [earlier]. *)
Definition passed (earlier later : group) : Prop :=
  exists rep members,
    earlier = rep :: members /\
    Forall (fun p => near (pi_price p) (pi_price rep) = false) later.

(** Every fact has passed the representatives of the clusters before
    its own. *)
Definition settled (clusters : list group) : Prop := ForallOrdPairs passed clusters.

(** A price with a finite value other than zero. *)
Definition plain_price (p : price_info) : Prop :=
  is_finite (pi_price p) = true /\ (pi_price p =? 0) = false.

End SettledSpec.

(** ** The language classifier, in the specification's words *)

Module LanguageSpec.

Local Open Scope float_scope.

Import ContentConsistencyAnalyzer.

(** Blank input: no character, or white space only. *)
Definition blank (text : pystr) : Prop := Forall (fun c => isspace c = true) text.

Definition sinhala_count (text : pystr) : N := count_chars is_sinhala text.
Definition english_count (text : pystr) : N := count_chars is_english text.



End LanguageSpec.

(** ** The words of a regular expression *)

Module RegexLang.

Import Regex.

(** [lang r w]: the pattern [r] can match the whole of [w]; the test
    [\b] consumes nothing, whatever surrounds it. *)
Inductive lang : regex -> pystr -> Prop :=
| lang_eps : lang Eps []
| lang_chr p c : p c = true -> lang (Chr p) [c]
| lang_seq a b u v : lang a u -> lang b v -> lang (Seq a b) (u ++ v)
| lang_alt_left a b w : lang a w -> lang (Alt a b) w
| lang_alt_right a b w : lang b w -> lang (Alt a b) w
| lang_star_stop a : lang (Star a) []
| lang_star_round a u v : lang a u -> lang (Star a) v -> lang (Star a) (u ++ v)
| lang_repeat_stop hi a : lang (Repeat 0 hi a) []
| lang_repeat_round lo hi a u v :
    lang a u -> lang (Repeat (Nat.pred lo) hi a) v ->
    lang (Repeat lo (S hi) a) (u ++ v)
| lang_group a w : lang a w -> lang (Group a) w
| lang_boundary : lang WordBoundary [].

(** Every match of [r] passes through its group. *)
Fixpoint sets_group (r : regex) : bool :=
  match r with
  | Group _ => true
  | Seq a b => sets_group a || sets_group b
  | Alt a b => sets_group a && sets_group b
  | _ => false
  end.

(** Every group of [r] matches words of [G] only. *)
Fixpoint groups_in (G : pystr -> Prop) (r : regex) : Prop :=
  match r with
  | Group a => (forall w, lang a w -> G w) /\ groups_in G a
  | Seq a b | Alt a b => groups_in G a /\ groups_in G b
  | Star a | Repeat _ _ a => groups_in G a
  | Eps | Chr _ | WordBoundary => True
  end.

Section Runs.
Variable R : Type.
Variable G : pystr -> Prop.

(** A capture, if any, is a word of [G]. *)
Definition cap_in (cap : option pystr) : Prop :=
  forall g, cap = Some g -> G g.

(** What a successful run tells: the word consumed, the state handed
    to the continuation, and the continuation's answer. *)
Definition consumed (r : regex) (s : pystr) (cap : option pystr)
           (k : cont R) (x : R) : Prop :=
  exists w prev' s' cap',
    s = w ++ s' /\ lang r w /\ cap_in cap' /\
    (sets_group r = true \/ cap <> None -> cap' <> None) /\
    k prev' s' cap' = Some x.

End Runs.

End RegexLang.

(** ** Price numerals, in the specification's words

    An integer with thousands separators and optional two decimals: one to
    three leading digits, groups of a comma and three digits, and
    optionally a point and two digits. *)

Module NumeralSpec.

Record numeral : Type := {
  lead : list N;
  groups : list (list N);
  fraction : option (list N)
}.

Definition digits (ds : list N) : Prop :=
  Forall (fun c => Unicode.is_decimal c = true) ds.

Definition well_formed (n : numeral) : Prop :=
  (1 <= length (lead n) <= 3)%nat /\ digits (lead n) /\
  Forall (fun g => length g = 3%nat /\ digits g) (groups n) /\
  match fraction n with
  | Some f => length f = 2%nat /\ digits f
  | None => True
  end.

(** The numeral as written: [,] is 44 and [.] is 46. *)
Definition text (n : numeral) : pystr :=
  lead n ++ concat (map (cons 44%N) (groups n))
    ++ match fraction n with
       | Some f => 46%N :: f
       | None => []
       end.

(** The number a string of digits writes. *)
Definition number (ds : list N) : N :=
  fold_left (fun acc c => (10 * acc
                           + match Unicode.digit_value c with
                             | Some d => d
                             | None => 0
                             end)%N) ds 0%N.

(** The numeral's value as a float: its digits without the separators,
    scaled by the two decimals, rounded to nearest. *)
Definition value (n : numeral) : float :=
  match fraction n with
  | Some f => PyFloat.of_ratio (number (lead n ++ concat (groups n) ++ f)) 100
  | None => PyFloat.of_ratio (number (lead n ++ concat (groups n))) 1
  end.

End NumeralSpec.

(** ** What the extractors record, and how pages and reports are laid out *)

Module ExtractSpec.

Import Regex ContentConsistencyAnalyzer.

(** [(?:,\d{3})*] *)
Definition comma_groups : regex := Star (Seq (Lit (lit ",")) (Repeat 3 3 Digit)).

(** The inside of the group of [numeral]. *)
Definition numeral_body : regex :=
  Seq (Repeat 1 3 Digit)
      (Seq comma_groups (Opt (Seq (Lit (lit ".")) (Repeat 2 2 Digit)))).

(** What [extract_prices] records for a numeral found in [text]. *)
Definition records (text : pystr) (p : price) : Prop :=
  exists n, NumeralSpec.well_formed n /\
            original p = NumeralSpec.text n /\
            value p = NumeralSpec.value n /\
            context p = get_price_context text (original p).

(** [\d+(?:\.\d+)?], the inside of the group of a speed pattern. *)
Definition decimal_body : regex :=
  Seq Digit (Seq (Star Digit) (Opt (Seq (Lit (lit ".")) (Seq Digit (Star Digit))))).

(** Line 152 converts a match only if [float] reads it. *)
Definition convertible (m : pystr) : Prop :=
  (exists v, float_of_str m = Ok v) \/ isdigit (replace (lit ".") [] m) = false.

(** The pages of language [l] among [pages]. *)
Definition classified (l : language) (pages : list (pystr * page_data)) (url : pystr)
  : Prop :=
  exists page, In (url, page) pages /\ page_language page = l.

(** Each bucket holds the pages of its language, and no other. *)
Definition filed (pages : list (pystr * page_data)) (lp : language_pages) : Prop :=
  (forall url, In url (map fst (english_pages lp)) <-> classified English pages url) /\
  (forall url, In url (map fst (sinhala_pages lp)) <-> classified Sinhala pages url) /\
  (forall url, In url (map fst (mixed_pages lp)) <-> classified Mixed pages url).

End ExtractSpec.

Module ReportSpec.

Import ContentConsistencyAnalyzer.

Section Clock.
Variable repr_float : float -> pystr.
Variable repr_str : pystr -> pystr.

(** The items of the report after the fourth. *)
Definition after_timestamp (self : analyzer) : list pystr :=
  skipn 4 (report_lines repr_float repr_str
             {| year := 0; month := 0; day := 0; hour := 0; minute := 0; second := 0 |}
             self).

(** The first three items. *)
Definition before_timestamp : list pystr :=
  [ repeat 61%N 80; lit "SLT WEBSITE CONTENT CONSISTENCY ANALYSIS"; repeat 61%N 80 ].

(** The text of the report up to the clock's reading, and after it. *)
Definition text_before : pystr :=
  repeat 61%N 80 ++ [10%N] ++ lit "SLT WEBSITE CONTENT CONSISTENCY ANALYSIS"
    ++ [10%N] ++ repeat 61%N 80 ++ [10%N] ++ lit "Generated on: ".

Definition text_after (self : analyzer) : pystr :=
  [10%N] ++ join [10%N] (after_timestamp self).

End Clock.

End ReportSpec.

(** ** Findings added to an analyzer *)

Module FindingsSpec.

Import ContentConsistencyAnalyzer.

(** [self] with the findings [more] after its own, list by list. *)
Definition with_findings (self : analyzer) (more : inconsistencies) : analyzer :=
  {| json_file_path := json_file_path self;
     data := data self;
     found :=
       {| pricing_discrepancies :=
            pricing_discrepancies (found self) ++ pricing_discrepancies more;
          package_details_discrepancies :=
            package_details_discrepancies (found self)
              ++ package_details_discrepancies more;
          translation_mismatches :=
            translation_mismatches (found self) ++ translation_mismatches more;
          contact_info_discrepancies :=
            contact_info_discrepancies (found self)
              ++ contact_info_discrepancies more |} |}.

(** The analyzer as [__init__] leaves it, on the pages of [self]. *)
Definition afresh (self : analyzer) : analyzer :=
  new_analyzer (json_file_path self) (data self).

End FindingsSpec.

(** ** Price facts and the pages they come from *)

Module GroupSpec.

Import ContentConsistencyAnalyzer.

(** A fact of the category [cat] taken from one of [pages]: a numeral
    of the page's text with its value and context, the language of the
    context, and the category the context gives. *)
Definition filed_fact (pages : list (pystr * page_data)) (cat : category)
           (f : price_info) : Prop :=
  exists url page n,
    In (url, page) pages /\
    pi_url f = url /\
    NumeralSpec.well_formed n /\
    pi_original f = NumeralSpec.text n /\
    pi_price f = NumeralSpec.value n /\
    pi_context f = get_price_context (all_text_of page) (pi_original f) /\
    pi_language f = detect_language (pi_context f) /\
    categorize (pi_context f) = cat.

(** Groups as [price_groups] holds them: a category once, no group
    empty, every fact under its category. *)
Definition grouped (pages : list (pystr * page_data))
           (groups : list (category * list price_info)) : Prop :=
  NoDup (map fst groups) /\
  forall cat facts,
    In (cat, facts) groups -> facts <> [] /\ Forall (filed_fact pages cat) facts.

End GroupSpec.

(** ** What a bucket of pages holds *)

Module BucketSpec.

Import ContentConsistencyAnalyzer.

(** Every entry of [bucket] is the extraction of a page of [pages] with
    that address, of language [l]. *)
Definition holds (l : language) (pages : list (pystr * page_data))
           (bucket : list (pystr * page_info)) : Prop :=
  forall url info,
    In (url, info) bucket ->
    exists page,
      In (url, page) pages /\ page_info_of page = Ok info /\ page_language page = l.

Definition well_held (pages : list (pystr * page_data)) (lp : language_pages) : Prop :=
  holds English pages (english_pages lp)
  /\ holds Sinhala pages (sinhala_pages lp)
  /\ holds Mixed pages (mixed_pages lp).

(** No address in two buckets. *)
Definition disjoint_buckets (lp : language_pages) : Prop :=
  forall url,
    ~ (In url (map fst (english_pages lp)) /\ In url (map fst (sinhala_pages lp)))
    /\ ~ (In url (map fst (english_pages lp)) /\ In url (map fst (mixed_pages lp)))
    /\ ~ (In url (map fst (sinhala_pages lp)) /\ In url (map fst (mixed_pages lp))).

End BucketSpec.

(** ** Contacts as the patterns admit them *)

Module ContactSpec.

Import ContentConsistencyAnalyzer.

(** The number of [@] in a text. *)
Definition at_signs (s : pystr) : nat := count_occ N.eq_dec s 64%N.

(** The number of decimal digits in a text. *)
Definition digit_count (s : pystr) : nat := length (filter Unicode.is_decimal s).

(** An email address as line 197 admits it: one [@], and at the end two
    characters or more that are ASCII letters or the bar. *)
Definition email_shaped (s : pystr) : Prop :=
  at_signs s = 1%nat
  /\ exists front ending,
      s = front ++ 46%N :: ending /\
      (2 <= length ending)%nat /\
      Forall (fun c => tld_char c = true) ending.

(** A phone number as lines 182-186 admit it: ten to thirteen digits. *)
Definition phone_shaped (s : pystr) : Prop := (10 <= digit_count s <= 13)%nat.

End ContactSpec.

(** ** The loop over the matches of a speed pattern *)

Module SpeedSpec.

Import ContentConsistencyAnalyzer.

(** Lines 127-131 for the matches of one pattern. *)
Definition record_speeds (text : pystr) (acc : list speed) (matches : list pystr)
  : result (list speed) :=
  for_each
    (fun acc m =>
       v <- float_of_str m ;;
       Ok (acc ++ [ {| speed_value := v; speed_context := get_price_context text m |} ]))
    matches acc.

End SpeedSpec.

(** ** What a finding of the package analysis holds *)

Module PackageSpec.

Import ContentConsistencyAnalyzer.

(** The key of line 332. *)
Definition feature_key (details : package_details) : pystr :=
  join (lit "-") (sorted str_ltb (map feature_name (features details))).

(** [pkg] is what lines 318-339 file under [key] for a page of [pages]. *)
Definition from_page (pages : list (pystr * page_data)) (key : pystr) (pkg : package)
  : Prop :=
  exists page details,
    In (pkg_url pkg, page) pages
    /\ extract_package_details (all_text_of page) = Ok details
    /\ feature_key details = key
    /\ pkg_speeds pkg = speeds details
    /\ pkg_data_limits pkg = data_limits details
    /\ pkg_language pkg = detect_language (all_text_of page).

Definition finding_key (d : package_discrepancy) : pystr :=
  match d with
  | SpeedInconsistency key _ _ | DataLimitInconsistency key _ _ => key
  end.

Definition finding_packages (d : package_discrepancy) : list package :=
  match d with
  | SpeedInconsistency _ _ packages | DataLimitInconsistency _ _ packages => packages
  end.

(** The packages of a finding: two or more, of different pages, each
    filed under the finding's key. *)
Definition several_pages (pages : list (pystr * page_data)) (d : package_discrepancy)
  : Prop :=
  (2 <= length (finding_packages d))%nat
  /\ NoDup (map pkg_url (finding_packages d))
  /\ Forall (from_page pages (finding_key d)) (finding_packages d).

(** What lines 306-324 collect: one entry for an address, the details
    and the language of a page with that address. *)
Definition collected_from (pages : list (pystr * page_data))
           (collected : list (pystr * (package_details * language))) : Prop :=
  NoDup (map fst collected)
  /\ forall url details lang,
       In (url, (details, lang)) collected ->
       exists page,
         In (url, page) pages
         /\ extract_package_details (all_text_of page) = Ok details
         /\ lang = detect_language (all_text_of page).

(** What lines 327-339 file: under a key, packages of different
    addresses, each of a collected entry with that key. *)
Definition grouped_from (collected : list (pystr * (package_details * language)))
           (groups : list (pystr * list package)) : Prop :=
  forall key packages,
    In (key, packages) groups ->
    NoDup (map pkg_url packages)
    /\ Forall (fun pkg =>
                 exists details lang,
                   In (pkg_url pkg, (details, lang)) collected
                   /\ feature_key details = key
                   /\ pkg_speeds pkg = speeds details
                   /\ pkg_data_limits pkg = data_limits details
                   /\ pkg_language pkg = lang)
              packages.

(** Two of the values the finding is about differ. *)
Definition varies (repr_float : float -> pystr) (d : package_discrepancy) : Prop :=
  match d with
  | SpeedInconsistency _ _ packages =>
      let all_speeds := flat_map (fun pkg => map speed_value (pkg_speeds pkg)) packages in
      exists a b, In a all_speeds /\ In b all_speeds /\ (a =? b)%float = false
  | DataLimitInconsistency _ _ packages =>
      let types :=
        flat_map (fun pkg => map (data_limit_type repr_float) (pkg_data_limits pkg))
                 packages in
      exists a b, In a types /\ In b types /\ a <> b
  end.

End PackageSpec.

(** ** What a finding of the translation analysis holds *)

Module MismatchSpec.

Import ContentConsistencyAnalyzer.

(** The names of lines 445-446. *)
Definition feature_names (info : page_info) : list pystr :=
  map feature_name (features (info_package_details info)).

(** The values of lines 427-428. *)
Definition price_values (info : page_info) : list float :=
  map value (info_prices info).

(** Some feature is named on one of the two pages only. *)
Definition features_differ (info1 info2 : page_info) : Prop :=
  exists f,
    (In f (feature_names info1) /\ ~ In f (feature_names info2))
    \/ (In f (feature_names info2) /\ ~ In f (feature_names info1)).

(** The finding of lines 433-442. *)
Definition price_finding (lang1 lang2 : language) (url1 url2 : pystr)
           (info1 info2 : page_info) : translation_mismatch :=
  PriceMismatchBetweenLanguages url1 url2 lang1 lang2
                                (price_values info1) (price_values info2).

(** The finding of lines 457-465. *)
Definition feature_finding
           (list_of_str_difference : list pystr -> list pystr -> list pystr)
           (lang1 lang2 : language) (url1 url2 : pystr) (info1 info2 : page_info)
  : translation_mismatch :=
  FeatureMismatchBetweenLanguages
    url1 url2 lang1 lang2
    (list_of_str_difference (feature_set info2) (feature_set info1))
    (list_of_str_difference (feature_set info1) (feature_set info2)).

(** [m] is a finding about the pair of pages, which
    [might_be_translations] accepts: their prices do not match, or
    their features differ. *)
Definition pair_finding (list_of_str_difference : list pystr -> list pystr -> list pystr)
           (lang1 lang2 : language) (url1 url2 : pystr) (info1 info2 : page_info)
           (m : translation_mismatch) : Prop :=
  might_be_translations url1 url2 info1 info2 = true
  /\ ((m = price_finding lang1 lang2 url1 url2 info1 info2
       /\ price_values info1 <> [] /\ price_values info2 <> []
       /\ price_lists_match (price_values info1) (price_values info2) = Ok false)
      \/ (m = feature_finding list_of_str_difference lang1 lang2 url1 url2 info1 info2
          /\ feature_names info1 <> [] /\ feature_names info2 <> []
          /\ features_differ info1 info2)).

(** The test of lines 510-511 on one price. *)
Definition context_is (l : language) (p : price) : bool :=
  match detect_language (context p), l with
  | English, English | Sinhala, Sinhala => true
  | _, _ => false
  end.

(** The values of line 514 or 515. *)
Definition prices_in (l : language) (info : page_info) : list float :=
  map value (filter (context_is l) (info_prices info)).

(** [m] is the finding about the mixed page: it has prices in an
    English and in a Sinhala context, and they do not match. *)
Definition internal_finding (url : pystr) (info : page_info) (m : translation_mismatch)
  : Prop :=
  m = InternalLanguagePriceMismatch url (prices_in English info) (prices_in Sinhala info)
  /\ prices_in English info <> [] /\ prices_in Sinhala info <> []
  /\ price_lists_match (prices_in English info) (prices_in Sinhala info) = Ok false.

(** [m] is a finding about the buckets: about a pair of an English and
    a Sinhala page, or about one mixed page. *)
Definition bucket_finding (list_of_str_difference : list pystr -> list pystr -> list pystr)
           (lp : language_pages) (m : translation_mismatch) : Prop :=
  (exists url1 info1 url2 info2,
      In (url1, info1) (english_pages lp)
      /\ In (url2, info2) (sinhala_pages lp)
      /\ pair_finding list_of_str_difference English Sinhala url1 url2 info1 info2 m)
  \/ (exists url info,
         In (url, info) (mixed_pages lp) /\ internal_finding url info m).

(** The first address of a finding, and the second when it has one. *)
Definition first_url (m : translation_mismatch) : pystr :=
  match m with
  | PriceMismatchBetweenLanguages url1 _ _ _ _ _
  | FeatureMismatchBetweenLanguages url1 _ _ _ _ _
  | InternalLanguagePriceMismatch url1 _ _ => url1
  end.

Definition second_url (m : translation_mismatch) : option pystr :=
  match m with
  | PriceMismatchBetweenLanguages _ url2 _ _ _ _
  | FeatureMismatchBetweenLanguages _ url2 _ _ _ _ => Some url2
  | InternalLanguagePriceMismatch _ _ _ => None
  end.

End MismatchSpec.

(** ** What a finding of the contact analysis holds *)

Module ContactFindingSpec.

Import ContentConsistencyAnalyzer ContactSpec.

(** [d] is a contact of the given shape found on a page of [pages]. *)
Definition found_on (pages : list (pystr * page_data)) (shaped : pystr -> Prop)
           (d : contact_detail) : Prop :=
  shaped (cd_value d)
  /\ exists page,
       In (cd_url d, page) pages
       /\ cd_context d = get_price_context (all_text_of page) (cd_value d).

(** [count] different values among [details], more than three, listed
    as [values]. *)
Definition too_many (list_of_str_set : list pystr -> list pystr)
           (count : nat) (values : list pystr) (details : list contact_detail) : Prop :=
  exists distinct,
    values = list_of_str_set distinct
    /\ count = length distinct
    /\ (3 < count)%nat
    /\ NoDup distinct
    /\ forall v, In v distinct <-> In v (map cd_value details).

Definition contact_finding (list_of_str_set : list pystr -> list pystr)
           (pages : list (pystr * page_data)) (d : contact_discrepancy) : Prop :=
  match d with
  | MultiplePhoneNumbers count numbers details =>
      too_many list_of_str_set count numbers details
      /\ Forall (found_on pages phone_shaped) details
  | MultipleEmailAddresses count emails details =>
      too_many list_of_str_set count emails details
      /\ Forall (found_on pages email_shaped) details
  end.

Definition about_phones (d : contact_discrepancy) : bool :=
  match d with
  | MultiplePhoneNumbers _ _ _ => true
  | MultipleEmailAddresses _ _ _ => false
  end.

End ContactFindingSpec.

(** ** Greedy matches

    What the matcher does on a text it can take greedily; the theorems
    on complete extraction compare the patterns with it. *)

Module GreedySpec.

Import Regex.

(** The character before the position reached by reading [w]. *)
Definition after (prev : option N) (w : pystr) : option N :=
  fold_left (fun _ c => Some c) w prev.






End GreedySpec.

Module PriceGrammar.

Import ContentConsistencyAnalyzer NumeralSpec.





End PriceGrammar.

(** ** Inputs of the worked examples *)

Module Examples.

Import ContentConsistencyAnalyzer.

(** A price fact of value [n], found on the page [url]. *)
Definition fact (url : string) (n : N) : price_info :=
  {| pi_url := lit url;
     pi_price := float_of_N n;
     pi_original := str_of_N n;
     pi_context := lit "Rs. " ++ str_of_N n;
     pi_language := English |}.

(** Three facts of one category: 1090 and 910 are both within 10% of
    the first, 1000. *)
Definition drifting_facts : list price_info :=
  [fact "a" 1000; fact "b" 1090; fact "c" 910].

(** Two facts, the first of value zero. *)
Definition zero_first_facts : list price_info := [fact "a" 0; fact "b" 100].

(** A page with the given body, no title and no image. *)
Definition page (body : pystr) : page_data :=
  {| pg_title := []; pg_text := body; pg_ocr_images := [] |}.

(** A price written without separators and a price with a marker in
    front, both about fiber. *)
Definition unseparated_pages : list (pystr * page_data) :=
  [(lit "http://slt.lk/fiber", page (lit "Fiber 1000/- or fibre Rs. 500"))].

(** A price of zero, written first, and a second price, both about
    fiber. *)
Definition zero_price_pages : list (pystr * page_data) :=
  [(lit "http://slt.lk/fiber", page (lit "Fiber Rs. 0 or fibre Rs. 500"))].

(** Two fiber prices, fifty percent apart, on one page. *)
Definition two_price_pages : list (pystr * page_data) :=
  [(lit "http://slt.lk/fiber", page (lit "Fiber Rs. 1,000 or fibre Rs. 1,500"))].

(** Eight Sinhala letters and no Latin letter; four of each. *)
Definition sinhala_word : pystr := repeat 3461%N 8.
Definition half_sinhala : pystr := repeat 3461%N 4 ++ lit "abcd".


(** An English page with one price and a Sinhala page with none. *)
Definition english_page : page_data := page (lit "Plan Rs. 100").
Definition sinhala_page : page_data := page (repeat 3461%N 5).
Definition english_url : pystr := lit "http://slt.lk/a".
Definition sinhala_url : pystr := lit "http://slt.lk/b".

(** Two readings of the clock, one second apart. *)
Definition morning : datetime :=
  {| year := 2025; month := 1; day := 2; hour := 3; minute := 4; second := 5 |}.
Definition a_second_later : datetime :=
  {| year := 2025; month := 1; day := 2; hour := 3; minute := 4; second := 6 |}.

(** One page without any price, speed or contact. *)
Definition quiet_pages : list (pystr * page_data) :=
  [(lit "http://slt.lk/", page (lit "Welcome"))].

(** Facts of a category are told apart here by price only. *)
Definition prices_of (facts : list price_info) : list float := map pi_price facts.

Definition triggering_prices : list float :=
  map float_of_N [1000; 1000; 1000; 1500; 1500]%N.

Definition close_prices : list float := map float_of_N [1000; 1030; 1050]%N.

(** A page that names the given features and has no price. *)
Definition naming (names : list string) : page_info :=
  {| info_text := [];
     info_prices := [];
     info_package_details :=
       {| speeds := [];
          data_limits := [];
          features := map (fun name => {| feature_name := lit name;
                                          feature_context := [] |}) names |} |}.

(** The two versions of one address. *)
Definition english_plan_url : pystr := lit "http://slt.lk/en/plan".
Definition sinhala_plan_url : pystr := lit "http://slt.lk/si/plan".

(** An English page about fiber and a Sinhala page about ADSL, under
    the two versions of one address, with different prices. *)
Definition translated_pages : list (pystr * page_data) :=
  [(english_plan_url, page (lit "Fiber plan Rs. 100"));
   (sinhala_plan_url, page (repeat 3461%N 20 ++ lit " ADSL Rs. 200"))].

(** An English page that names fiber and wifi and a Sinhala page that
    names ADSL, under the two versions of one address, without any
    price. *)
Definition two_feature_pages : list (pystr * page_data) :=
  [(english_plan_url, page (lit "Fiber and wifi"));
   (sinhala_plan_url, page (repeat 3461%N 20 ++ lit " ADSL"))].

(** [repr] of a string of ASCII letters: the string between quotes. *)
Definition quoted (s : pystr) : pystr := [39%N] ++ s ++ [39%N].

(** The members of [a - b] as they come in [a], and the other way
    round: the two orders of a set of two strings. *)
Definition in_order (a b : list pystr) : list pystr := set_difference a b.
Definition in_reverse (a b : list pystr) : list pystr := rev (set_difference a b).

(** A page with prices of the given values that names the given
    features. *)
Definition offering (values : list N) (names : list string) : page_info :=
  {| info_text := [];
     info_prices := map (fun n => {| value := float_of_N n;
                                     original := str_of_N n;
                                     context := [] |}) values;
     info_package_details :=
       {| speeds := [];
          data_limits := [];
          features := map (fun name => {| feature_name := lit name;
                                          feature_context := [] |}) names |} |}.

(** Two addresses that are not versions of one address. *)
Definition fiber_url : pystr := lit "http://slt.lk/fiber".
Definition adsl_url : pystr := lit "http://slt.lk/adsl".

End Examples.

(** * Properties *)

(** ** The order of binary64 numbers

    Comparisons of primitive floats are those of their [spec_float] images
    ([FloatAxioms]); away from NaN they form a total preorder in which only
    the two zeros are distinct and equal. *)

Module FloatOrder.

Local Open Scope float_scope.

Ltac spec_cases :=
  repeat match goal with
    | s : bool |- _ => destruct s
    end;
  simpl in *; try congruence.

Ltac cmp_cases :=
  repeat match goal with
    | |- context [Z.compare ?a ?b] => destruct (Z.compare_spec a b)
    | H : context [Z.compare ?a ?b] |- _ => destruct (Z.compare_spec a b)
    | |- context [Pos.compare ?a ?b] => destruct (Pos.compare_spec a b)
    | H : context [Pos.compare ?a ?b] |- _ => destruct (Pos.compare_spec a b)
    end;
  simpl in *; subst; try congruence; try lia.

Lemma SFcompare_refl (x : spec_float) :
  x <> S754_nan -> SFcompare x x = Some Eq.
Proof.
  destruct x as [s|s| |s m e]; simpl; try congruence; intros _.
  - destruct s; reflexivity.
  - change (Pos.compare_cont Eq m m) with (Pos.compare m m).
    rewrite Z.compare_refl, Pos.compare_refl. destruct s; reflexivity.
Qed.

Lemma SFleb_trans (x y z : spec_float) :
  SFleb x y = true -> SFleb y z = true -> SFleb x z = true.
Proof.
  unfold SFleb.
  destruct x as [sx|sx| |sx mx ex], y as [sy|sy| |sy my ey],
           z as [sz|sz| |sz mz ez]; simpl; try congruence;
    spec_cases;
    change (Pos.compare_cont Eq) with Pos.compare in *; cmp_cases.
Qed.

Lemma SFleb_total (x y : spec_float) :
  x <> S754_nan -> y <> S754_nan -> SFltb y x = false -> SFleb x y = true.
Proof.
  unfold SFleb, SFltb.
  destruct x as [sx|sx| |sx mx ex], y as [sy|sy| |sy my ey];
    simpl; try congruence; intros _ _;
    spec_cases;
    change (Pos.compare_cont Eq) with Pos.compare in *; cmp_cases.
Qed.

Lemma SFeqb_eq (x y : spec_float) :
  SFeqb x y = true -> (forall s, x <> S754_zero s) -> x = y.
Proof.
  unfold SFeqb.
  destruct x as [sx|sx| |sx mx ex], y as [sy|sy| |sy my ey];
    simpl; try congruence; intros H Hz;
    try (exfalso; apply (Hz sx); reflexivity);
    spec_cases;
    change (Pos.compare_cont Eq) with Pos.compare in *; cmp_cases.
Qed.

Lemma SFleb_antisym (x y : spec_float) :
  SFleb x y = true -> SFleb y x = true -> SFeqb x y = true.
Proof.
  unfold SFleb, SFeqb.
  destruct x as [sx|sx| |sx mx ex], y as [sy|sy| |sy my ey];
    simpl; try congruence;
    spec_cases;
    change (Pos.compare_cont Eq) with Pos.compare in *; cmp_cases.
Qed.

Lemma not_nan_spec (x : float) : not_nan x <-> Prim2SF x <> S754_nan.
Proof.
  unfold not_nan, is_nan. rewrite eqb_spec. unfold SFeqb.
  split.
  - intros H E. rewrite E in H. discriminate.
  - intros H. rewrite SFcompare_refl by assumption. reflexivity.
Qed.

Lemma nonzero_spec (x : float) :
  (x =? 0) = false -> forall s, Prim2SF x <> S754_zero s.
Proof.
  rewrite eqb_spec. intros H s E. rewrite E in H. discriminate.
Qed.

Lemma ltb_leb (x y : float) : (x <? y) = true -> (x <=? y) = true.
Proof.
  rewrite ltb_spec, leb_spec. unfold SFltb, SFleb.
  destruct (SFcompare _ _) as [[| |]|]; congruence.
Qed.

Lemma eqb_leb (x y : float) : (x =? y) = true -> (x <=? y) = true.
Proof.
  rewrite eqb_spec, leb_spec. unfold SFeqb, SFleb.
  destruct (SFcompare _ _) as [[| |]|]; congruence.
Qed.

Lemma leb_refl (x : float) : not_nan x -> (x <=? x) = true.
Proof.
  intros H. apply eqb_leb. exact (proj1 (negb_false_iff _) H).
Qed.

Lemma leb_trans (x y z : float) :
  (x <=? y) = true -> (y <=? z) = true -> (x <=? z) = true.
Proof. rewrite !leb_spec. apply SFleb_trans. Qed.

Lemma leb_total (x y : float) :
  not_nan x -> not_nan y -> (y <? x) = false -> (x <=? y) = true.
Proof.
  rewrite !not_nan_spec, ltb_spec, leb_spec. apply SFleb_total.
Qed.

Lemma leb_antisym (x y : float) :
  (x <=? y) = true -> (y <=? x) = true -> (x =? y) = true.
Proof. rewrite !leb_spec, eqb_spec. apply SFleb_antisym. Qed.

(** Equal non-zero numbers are the same float. *)
Lemma eqb_eq (x y : float) :
  (x =? y) = true -> (x =? 0) = false -> x = y.
Proof.
  rewrite (eqb_spec x y). intros H Hz. apply Prim2SF_inj.
  apply SFeqb_eq; [assumption | apply nonzero_spec; assumption].
Qed.

End FloatOrder.

(** ** Loops *)

Lemma for_each_app {A S : Type} (body : S -> A -> result S) (xs ys : list A) (s : S) :
  for_each body (xs ++ ys) s = (s' <- for_each body xs s ;; for_each body ys s').
Proof.
  revert s. induction xs as [|x xs IH]; intros s; simpl; [reflexivity|].
  destruct (body s x); simpl; [apply IH | reflexivity].
Qed.

(** A loop that appends one computed item per element. *)
Lemma for_each_collect {A B : Type} (body : list B -> A -> result (list B))
      (g : A -> B) (xs : list A) :
  (forall x acc, In x xs -> body acc x = Ok (acc ++ [g x])) ->
  forall acc, for_each body xs acc = Ok (acc ++ map g xs).
Proof.
  induction xs as [|x xs IH]; intros Hf acc; simpl.
  - rewrite app_nil_r. reflexivity.
  - rewrite (Hf x acc (or_introl eq_refl)). simpl.
    rewrite IH by (intros; apply Hf; right; assumption).
    rewrite <- app_assoc. reflexivity.
Qed.

(** ** Greedy clustering *)

Module ClusterFacts.

Local Open Scope float_scope.

Import ContentConsistencyAnalyzer ClusterSpec.

Lemma within_tolerance_near (v rep : float) :
  (rep =? 0) = false -> within_tolerance v rep = Ok (near v rep).
Proof.
  intros H. unfold within_tolerance, truediv. rewrite H. reflexivity.
Qed.

Lemma scan_groups_spec (f : price_info) (gs : list group) :
  Forall sound_group gs ->
  (exists before rep members after,
      gs = before ++ (rep :: members) :: after /\
      Forall (rep_far f) before /\
      near (pi_price f) (pi_price rep) = true /\
      scan_groups f gs = Ok (true, before ++ (rep :: members ++ [f]) :: after))
  \/ (Forall (rep_far f) gs /\ scan_groups f gs = Ok (false, gs)).
Proof.
  induction 1 as [|g gs [rep [members [-> Hrep]]] Hgs IH].
  - right. split; [constructor | reflexivity].
  - simpl. rewrite (within_tolerance_near _ Hrep). simpl.
    destruct (near (pi_price f) (pi_price rep)) eqn:Hnear.
    + left. exists [], rep, members, gs. repeat split; auto.
    + assert (Hfar : rep_far f (rep :: members))
        by (exists rep, members; split; auto).
      destruct IH as [(before & r & ms & after & -> & Hb & Hn & ->) | [Hall ->]].
      * left. exists ((rep :: members) :: before), r, ms, after.
        repeat split; auto.
      * right. split; [constructor; assumption | reflexivity].
Qed.

Lemma add_price_spec (f : price_info) (gs : list group) :
  Forall sound_group gs ->
  exists gs', add_price gs f = Ok gs' /\ greedy_insert f gs gs'.
Proof.
  intros Hs. unfold add_price.
  destruct (scan_groups_spec f Hs)
    as [(before & r & ms & after & -> & Hb & Hn & ->) | [Hall ->]]; simpl.
  - eexists. split; [reflexivity | constructor; assumption].
  - eexists. split; [reflexivity | constructor; assumption].
Qed.

Lemma greedy_insert_sound (f : price_info) (gs gs' : list group) :
  (pi_price f =? 0) = false ->
  greedy_insert f gs gs' -> Forall sound_group gs -> Forall sound_group gs'.
Proof.
  intros Hf [before rep members after _ _ | ? _]; rewrite !Forall_app.
  - intros [Hb Hg]. split; [assumption|].
    inversion Hg as [|? ? [r [ms [E Hr]]] Ha]; subst.
    injection E as <- <-.
    constructor; [|assumption].
    exists rep, (members ++ [f]). split; [reflexivity | assumption].
  - intros Hgs. split; [assumption|].
    constructor; [|constructor]. exists f, []. split; [reflexivity | assumption].
Qed.

(** Refinement: the loop of lines 258-273 computes the policy. *)
Lemma for_each_add_price_spec (facts : list price_info) :
  Forall (fun f => (pi_price f =? 0) = false) facts ->
  forall gs, Forall sound_group gs ->
    exists gs', for_each add_price facts gs = Ok gs' /\
                greedy_clusters gs facts gs' /\ Forall sound_group gs'.
Proof.
  induction 1 as [|f facts Hf _ IH]; intros gs Hs; simpl.
  - exists gs. repeat split; [constructor | assumption].
  - destruct (add_price_spec f Hs) as [gs1 [-> Hins]]. simpl.
    destruct (IH gs1 (greedy_insert_sound Hf Hins Hs)) as [gs' [-> [Hcl Hs']]].
    exists gs'. repeat split; [econstructor; eassumption | assumption].
Qed.

(** The invariant the policy does maintain: members stay within tolerance
    of the representative. *)
Lemma greedy_insert_anchored (f : price_info) (gs gs' : list group) :
  greedy_insert f gs gs' -> Forall anchored gs -> Forall anchored gs'.
Proof.
  intros [before rep members after _ Hn | ? _]; rewrite !Forall_app.
  - intros [Hb Hg]. split; [assumption|].
    inversion Hg as [|? ? [r [ms [E Hr]]] Ha]; subst.
    injection E as <- <-.
    constructor; [|assumption].
    exists rep, (members ++ [f]). split; [reflexivity|].
    rewrite Forall_app. split; [assumption | constructor; [assumption | constructor]].
  - intros Hgs. split; [assumption|].
    constructor; [|constructor]. exists f, []. split; [reflexivity | constructor].
Qed.

Lemma greedy_clusters_anchored (facts : list price_info) (gs gs' : list group) :
  greedy_clusters gs facts gs' -> Forall anchored gs -> Forall anchored gs'.
Proof.
  induction 1; intros Ha; [assumption|].
  eauto using greedy_insert_anchored.
Qed.

(** Clusters hold input facts only. *)
Lemma greedy_insert_members (P : price_info -> Prop) (f : price_info)
      (gs gs' : list group) :
  P f -> greedy_insert f gs gs' -> Forall (Forall P) gs -> Forall (Forall P) gs'.
Proof.
  intros Hf [before rep members after _ _ | ? _]; rewrite !Forall_app.
  - intros [Hb Hg]. split; [assumption|].
    inversion Hg as [|? ? Hrm Ha]; subst.
    constructor; [|assumption].
    change (rep :: members ++ [f]) with ((rep :: members) ++ [f]).
    rewrite Forall_app. split; [assumption | constructor; [assumption | constructor]].
  - intros Hgs. split; [assumption|].
    constructor; [|constructor]. constructor; [assumption | constructor].
Qed.

Lemma greedy_clusters_members (P : price_info -> Prop) (facts : list price_info)
      (gs gs' : list group) :
  Forall P facts ->
  greedy_clusters gs facts gs' -> Forall (Forall P) gs -> Forall (Forall P) gs'.
Proof.
  intros HP Hcl. induction Hcl; intros Hgs; [assumption|].
  inversion HP; subst. eauto using greedy_insert_members.
Qed.

Lemma cluster_prices_spec (facts : list price_info) :
  Forall nonzero_price facts ->
  exists clusters,
    cluster_prices facts = Ok clusters /\
    greedy_clusters [] facts clusters /\
    Forall sound_group clusters /\
    Forall (Forall nonzero_price) clusters.
Proof.
  intros Hf.
  assert (Hz : Forall (fun f => (pi_price f =? 0) = false) facts)
    by (eapply Forall_impl; [|exact Hf]; intros ? [_ ?]; assumption).
  destruct (for_each_add_price_spec Hz (gs := [])) as [cl [E [Hcl Hs]]];
    [constructor|].
  exists cl. repeat split; try assumption.
  eapply greedy_clusters_members; eauto.
Qed.

End ClusterFacts.

(** ** Sorting *)

Section SortedFacts.
Variable A : Type.
Variable lt : A -> A -> bool.

Lemma insert_sorted_In (x y : A) (xs : list A) :
  In y (insert_sorted lt x xs) <-> y = x \/ In y xs.
Proof.
  induction xs as [|z xs IH]; simpl.
  - intuition.
  - destruct (lt z x); simpl; rewrite ?IH; intuition.
Qed.

Lemma sorted_In (y : A) (xs : list A) : In y (sorted lt xs) <-> In y xs.
Proof.
  induction xs as [|x xs IH]; [reflexivity|].
  change (sorted lt (x :: xs)) with (insert_sorted lt x (sorted lt xs)).
  rewrite insert_sorted_In, IH. simpl. intuition.
Qed.

Lemma insert_sorted_length (x : A) (xs : list A) :
  length (insert_sorted lt x xs) = S (length xs).
Proof.
  induction xs as [|z xs IH]; simpl; [reflexivity|].
  destruct (lt z x); simpl; [rewrite IH|]; reflexivity.
Qed.

Lemma sorted_length (xs : list A) : length (sorted lt xs) = length xs.
Proof.
  induction xs as [|x xs IH]; [reflexivity|].
  change (sorted lt (x :: xs)) with (insert_sorted lt x (sorted lt xs)).
  rewrite insert_sorted_length, IH. reflexivity.
Qed.

(** [lt] read as a preorder [le] on the domain [dom]. *)
Variable le : A -> A -> Prop.
Variable dom : A -> Prop.
Hypothesis le_trans : forall x y z, le x y -> le y z -> le x z.
Hypothesis lt_le : forall x y, lt x y = true -> le x y.
Hypothesis nlt_le : forall x y, dom x -> dom y -> lt y x = false -> le x y.

Lemma insert_sorted_sorted (x : A) (xs : list A) :
  dom x -> Forall dom xs ->
  StronglySorted le xs -> StronglySorted le (insert_sorted lt x xs).
Proof.
  intros Hx Hd Hs. induction Hs as [|z xs Hs IH Hz]; simpl.
  - repeat constructor.
  - inversion Hd as [|? ? Hdz Hdxs]; subst.
    destruct (lt z x) eqn:Hlt.
    + constructor; [apply IH; assumption|].
      rewrite Forall_forall. intros y Hy.
      apply insert_sorted_In in Hy. destruct Hy as [-> | Hy].
      * apply lt_le. assumption.
      * rewrite Forall_forall in Hz. apply Hz. assumption.
    + assert (Hxz : le x z) by (apply nlt_le; assumption).
      constructor; [constructor; assumption|].
      constructor; [assumption|].
      eapply Forall_impl; [|exact Hz]. intros y Hy. eapply le_trans; eassumption.
Qed.

Lemma sorted_sorted (xs : list A) :
  Forall dom xs -> StronglySorted le (sorted lt xs).
Proof.
  induction 1 as [|x xs Hx Hxs IH]; [constructor|].
  change (sorted lt (x :: xs)) with (insert_sorted lt x (sorted lt xs)).
  apply insert_sorted_sorted; try assumption.
  rewrite Forall_forall. intros y Hy. apply (proj1 (sorted_In y xs)) in Hy.
  rewrite Forall_forall in Hxs. apply Hxs. assumption.
Qed.

Hypothesis le_refl : forall x, dom x -> le x x.

Lemma item_first_least (xs : list A) (x : A) :
  Forall dom xs -> StronglySorted le xs -> item_first xs = Ok x ->
  In x xs /\ forall y, In y xs -> le x y.
Proof.
  intros Hd Hs E. destruct xs as [|z xs]; simpl in E; [discriminate|].
  injection E as ->. split; [left; reflexivity|].
  inversion Hs as [|? ? _ Hz]; subst. inversion Hd; subst.
  intros y [<- | Hy]; [apply le_refl; assumption|].
  rewrite Forall_forall in Hz. apply Hz. assumption.
Qed.

Lemma item_last_greatest (xs : list A) (x : A) :
  Forall dom xs -> StronglySorted le xs -> item_last xs = Ok x ->
  In x xs /\ forall y, In y xs -> le y x.
Proof.
  intros Hd Hs. revert x. induction Hs as [|z xs Hs IH Hz]; intros x E.
  - discriminate.
  - inversion Hd as [|? ? Hdz Hdxs]; subst.
    destruct xs as [|w xs'].
    + injection E as ->. split; [left; reflexivity|].
      intros y [<- | []]. apply le_refl. assumption.
    + change (item_last (w :: xs') = Ok x) in E.
      destruct (IH Hdxs x E) as [Hin Hmax].
      split; [right; assumption|].
      intros y [<- | Hy]; [|apply Hmax; assumption].
      rewrite Forall_forall in Hz. apply Hz. assumption.
Qed.

End SortedFacts.

Lemma item_first_nonempty {A : Type} (xs : list A) :
  xs <> [] -> exists x, item_first xs = Ok x.
Proof. destruct xs; [congruence | eexists; reflexivity]. Qed.

Lemma item_last_nonempty {A : Type} (xs : list A) :
  xs <> [] -> exists x, item_last xs = Ok x.
Proof.
  induction xs as [|x xs IH]; [congruence|]. intros _.
  destruct xs as [|y xs]; [eexists; reflexivity|].
  apply IH. discriminate.
Qed.

(** ** The discrepancy trigger *)

Module TriggerFacts.

Local Open Scope float_scope.

Import ContentConsistencyAnalyzer ClusterSpec ClusterFacts FloatOrder.

Lemma eqb_not_ltb (x y : float) : (x =? y) = true -> (x <? y) = false.
Proof.
  rewrite eqb_spec, ltb_spec. unfold SFeqb, SFltb.
  destruct (SFcompare _ _) as [[| |]|]; congruence.
Qed.

Lemma range_lt_le (a b : float * nat) : range_lt a b = true -> range_le a b.
Proof.
  unfold range_lt, range_le. destruct (fst a =? fst b) eqn:E; intros H.
  - apply eqb_leb. assumption.
  - apply ltb_leb. assumption.
Qed.

Lemma range_nlt_le (a b : float * nat) :
  range_dom a -> range_dom b -> range_lt b a = false -> range_le a b.
Proof.
  unfold range_lt, range_le, range_dom. intros Ha Hb.
  destruct (fst b =? fst a) eqn:E; intros H.
  - apply leb_total; try assumption. apply eqb_not_ltb. assumption.
  - apply leb_total; assumption.
Qed.

Lemma range_le_trans (a b c : float * nat) :
  range_le a b -> range_le b c -> range_le a c.
Proof. unfold range_le. apply leb_trans. Qed.

Lemma range_le_refl (a : float * nat) : range_dom a -> range_le a a.
Proof. unfold range_le, range_dom. apply leb_refl. Qed.

Lemma representative_range (g : group) :
  sound_group g -> representative g = Ok (fst (range_of g)).
Proof. intros [rep [members [-> _]]]. reflexivity. Qed.

Lemma representatives_ranges (clusters : list group) :
  Forall sound_group clusters ->
  representatives clusters = map fst (map range_of clusters).
Proof.
  induction 1 as [|g gs [rep [members [-> _]]] _ IH]; simpl; [reflexivity|].
  f_equal. exact IH.
Qed.

Lemma price_ranges_of_spec (clusters : list group) :
  Forall sound_group clusters ->
  price_ranges_of clusters = Ok (sorted range_lt (map range_of clusters)).
Proof.
  intros Hs. unfold price_ranges_of.
  rewrite (for_each_collect _ range_of).
  - reflexivity.
  - intros g acc Hg. rewrite Forall_forall in Hs.
    destruct (Hs g Hg) as [rep [members [-> _]]]. reflexivity.
Qed.

(** The loop of lines 289-296 cannot fail on non-empty clusters. *)
Lemma occurrences_ok (clusters : list group) :
  Forall sound_group clusters ->
  exists occs,
    for_each (fun acc g => o <- occurrence_of g ;; Ok (acc ++ [o])) clusters []
    = Ok occs /\ map occ_count occs = map (@length _) clusters.
Proof.
  intros Hs.
  set (occ := fun g : group =>
                match g with
                | p :: _ =>
                    {| occ_url := pi_url p;
                       occ_price := lit "Rs. " ++ format_f 0 (pi_price p);
                       occ_context := pi_context p;
                       occ_language := pi_language p;
                       occ_count := length g |}
                | [] =>
                    {| occ_url := []; occ_price := []; occ_context := [];
                       occ_language := Empty; occ_count := 0 |}
                end).
  exists (map occ clusters). split.
  - apply (for_each_collect _ occ).
    intros g acc Hg. rewrite Forall_forall in Hs.
    destruct (Hs g Hg) as [rep [members [-> _]]]. reflexivity.
  - rewrite map_map. apply map_ext_in. intros g Hg.
    rewrite Forall_forall in Hs.
    destruct (Hs g Hg) as [rep [members [-> _]]]. reflexivity.
Qed.

Lemma ranges_dom (clusters : list group) :
  Forall sound_group clusters -> Forall (Forall nonzero_price) clusters ->
  Forall (fun r => range_dom r /\ (fst r =? 0) = false) (map range_of clusters).
Proof.
  intros Hs Hn. rewrite Forall_forall. intros r Hr.
  apply in_map_iff in Hr. destruct Hr as [g [<- Hg]].
  rewrite Forall_forall in Hs, Hn.
  destruct (Hs g Hg) as [rep [members [-> _]]].
  specialize (Hn _ Hg). inversion Hn as [|? ? [Hnan Hz] _]; subst.
  split; assumption.
Qed.

(** Lines 276-298 on clusters with usable representatives. *)
Lemma report_clusters_spec (cat : category) (clusters : list group) :
  Forall sound_group clusters -> Forall (Forall nonzero_price) clusters ->
  exists found,
    report_clusters cat clusters = Ok found /\
    (found <> None <->
     (1 < length clusters)%nat /\ significant_spread clusters).
Proof.
  intros Hs Hn. unfold report_clusters.
  destruct (Nat.ltb_spec 1 (length clusters)) as [Hlen | Hlen];
    [|exists None; split; [reflexivity | split; [congruence | lia]]].
  rewrite (price_ranges_of_spec Hs). cbn [bind].
  set (ranges := map range_of clusters).
  set (srt := sorted range_lt ranges).
  assert (Hne : srt <> []).
  { intros E. apply (f_equal (@length _)) in E. unfold srt, ranges in E.
    rewrite sorted_length, length_map in E. simpl in E. lia. }
  destruct (item_first_nonempty Hne) as [lo Elo].
  destruct (item_last_nonempty Hne) as [hi Ehi].
  rewrite Elo, Ehi. cbn [bind].
  pose proof (ranges_dom Hs Hn) as Hdom. fold ranges in Hdom.
  assert (Hdsrt : Forall range_dom srt).
  { rewrite Forall_forall in *. intros r Hr. apply sorted_In in Hr.
    apply Hdom. assumption. }
  assert (Hsorted : StronglySorted range_le srt).
  { apply sorted_sorted with (dom := range_dom).
    - exact range_le_trans.
    - exact range_lt_le.
    - exact range_nlt_le.
    - eapply Forall_impl; [|exact Hdom]. intros ? [? _]. assumption. }
  destruct (item_first_least range_le_refl Hdsrt Hsorted Elo) as [Hlo_in Hlo].
  destruct (item_last_greatest range_le_refl Hdsrt Hsorted Ehi) as [Hhi_in Hhi].
  assert (Hlo_z : (fst lo =? 0) = false).
  { apply sorted_In in Hlo_in. rewrite Forall_forall in Hdom.
    apply Hdom. assumption. }
  assert (Hmin : is_minimum (fst lo) (representatives clusters)).
  { rewrite (representatives_ranges Hs). fold ranges. split.
    - apply in_map. apply sorted_In in Hlo_in. assumption.
    - intros x Hx. apply in_map_iff in Hx. destruct Hx as [r [<- Hr]].
      apply Hlo. apply sorted_In. assumption. }
  assert (Hmax : is_maximum (fst hi) (representatives clusters)).
  { rewrite (representatives_ranges Hs). fold ranges. split.
    - apply in_map. apply sorted_In in Hhi_in. assumption.
    - intros x Hx. apply in_map_iff in Hx. destruct Hx as [r [<- Hr]].
      apply Hhi. apply sorted_In. assumption. }
  unfold truediv. rewrite Hlo_z. cbn [bind].
  destruct (gtb ((fst hi - fst lo) / fst lo) lit_0_2) eqn:Hgt.
  - destruct (occurrences_ok Hs) as [occs [-> _]]. cbn [bind].
    eexists. split; [reflexivity|].
    split; [intros _ | congruence].
    split; [assumption|]. exists (fst lo), (fst hi). auto.
  - exists None. split; [reflexivity|].
    split; [congruence|]. intros [_ [lo' [hi' [[Hlo'_in Hlo'] [[Hhi'_in Hhi'] Hgt']]]]].
    destruct Hmin as [Hmin_in Hmin], Hmax as [Hmax_in Hmax].
    assert (fst lo = lo').
    { apply eqb_eq; [|assumption]. apply leb_antisym; auto. }
    assert (Hhi_z : (fst hi =? 0) = false).
    { apply sorted_In in Hhi_in. rewrite Forall_forall in Hdom.
      apply Hdom. assumption. }
    assert (fst hi = hi').
    { apply eqb_eq; [|assumption]. apply leb_antisym; auto. }
    subst. congruence.
Qed.

(** A single cluster, or none, is never reported. *)
Lemma report_clusters_single (cat : category) (clusters : list group) :
  (length clusters <= 1)%nat -> report_clusters cat clusters = Ok None.
Proof.
  intros H. unfold report_clusters.
  destruct (Nat.ltb_spec 1 (length clusters)); [lia | reflexivity].
Qed.

(** Fewer than two facts: the gate of line 255 skips the category, and
    clustering them would give at most one cluster. *)
Lemma cluster_prices_short (facts : list price_info) :
  (length facts <= 1)%nat ->
  exists clusters,
    cluster_prices facts = Ok clusters /\ (length clusters <= 1)%nat.
Proof.
  destruct facts as [|f [|f' facts]]; simpl; intros H; try lia.
  - exists []. split; [reflexivity | simpl; lia].
  - exists [[f]]. split; [reflexivity | simpl; lia].
Qed.

Lemma analyze_category_spec (cat : category) (facts : list price_info) :
  Forall nonzero_price facts ->
  exists clusters found,
    cluster_prices facts = Ok clusters /\
    greedy_clusters [] facts clusters /\
    analyze_category cat facts = Ok found /\
    (found <> None <->
     (1 < length clusters)%nat /\ significant_spread clusters).
Proof.
  intros Hf.
  destruct (cluster_prices_spec Hf) as [clusters [Ecl [Hgr [Hs Hn]]]].
  exists clusters. unfold analyze_category.
  destruct (Nat.ltb_spec 1 (length facts)) as [Hlen | Hlen].
  - rewrite Ecl. cbn [bind].
    destruct (report_clusters_spec cat Hs Hn) as [found [E Hiff]].
    exists found. auto.
  - exists None. repeat split; try assumption; try congruence.
    destruct (cluster_prices_short facts Hlen) as [cl [Ecl' Hshort]].
    intros [Hlong _]. rewrite Ecl in Ecl'. injection Ecl' as ->. lia.
Qed.

End TriggerFacts.

(** ** Worked inputs *)

Lemma Permutation_count {A : Type} (f : A -> bool) (l l' : list A) :
  Permutation l l' -> length (filter f l) = length (filter f l').
Proof.
  induction 1 as [|x l l' _ IH|x y l|l l' l'' _ IH1 _ IH2]; simpl.
  - reflexivity.
  - destruct (f x); simpl; congruence.
  - destruct (f x), (f y); reflexivity.
  - congruence.
Qed.

Module PricingExamples.

Local Open Scope float_scope.

Import ContentConsistencyAnalyzer ClusterSpec Examples.

(** The arrangements of a multiset of prices, one case per arrangement;
    an arrangement with the wrong counts contradicts the permutation. *)
Ltac arrangements H values :=
  let Hlen := fresh "Hlen" in
  pose proof (Permutation_length H) as Hlen;
  repeat match goal with
    | facts : list price_info |- _ =>
        destruct facts as [|[? ? ? ? ?] facts]; simpl in Hlen; try discriminate Hlen
    end;
  clear Hlen;
  let Hin := fresh "Hin" in
  assert (Hin : Forall (fun x => In x values) (prices_of
    ltac:(match type of H with Permutation (prices_of ?l) _ => exact l end)));
  [ rewrite Forall_forall; intros x Hx; exact (Permutation_in x H Hx) | ];
  unfold prices_of in Hin; simpl in Hin;
  repeat match goal with
    | Hf : Forall _ (_ :: _) |- _ => inversion Hf; clear Hf; subst
    | Hf : Forall _ [] |- _ => clear Hf
    end;
  repeat match goal with
    | Hd : _ \/ _ |- _ => destruct Hd
    | Hd : False |- _ => destruct Hd
    end;
  subst.

Ltac wrong_counts H :=
  exfalso;
  match type of H with
  | Permutation _ ?target =>
      let rec try_values vs :=
        lazymatch vs with
        | ?v :: ?vs' =>
            first [ let C := fresh "C" in
                    pose proof (Permutation_count (fun x => x =? v) H) as C;
                    vm_compute in C; discriminate C
                  | try_values vs' ]
        end in
      let t := eval vm_compute in target in try_values t
  end.

Lemma triggering_example (cat : category) (facts : list price_info) :
  Permutation (prices_of facts) triggering_prices ->
  exists d,
    find_inconsistencies [(cat, facts)] [] = Ok [d] /\
    pd_category d = cat /\
    pd_price_range d = lit "Rs. 1000 - Rs. 1500" /\
    pd_difference_percentage d = lit "50.0%".
Proof.
  intros H.
  arrangements H ltac:(eval vm_compute in triggering_prices);
    first [ eexists; split; [vm_compute; reflexivity | repeat split]
          | wrong_counts H ].
Qed.

Lemma non_triggering_example (cat : category) (facts : list price_info) :
  Permutation (prices_of facts) close_prices ->
  cluster_prices facts = Ok [facts] /\
  find_inconsistencies [(cat, facts)] [] = Ok [].
Proof.
  intros H.
  arrangements H ltac:(eval vm_compute in close_prices);
    first [ split; vm_compute; reflexivity | wrong_counts H ].
Qed.

End PricingExamples.

(** ** Language classification *)

Module LanguageFacts.

Local Open Scope float_scope.

Import ContentConsistencyAnalyzer LanguageSpec.


Lemma lstrip_head (s : pystr) :
  lstrip s = [] \/ exists c t, lstrip s = c :: t /\ isspace c = false.
Proof.
  induction s as [|c s IH]; simpl; [left; reflexivity|].
  destruct (isspace c) eqn:E; [exact IH|].
  right. exists c, s. split; [reflexivity | assumption].
Qed.

Lemma blank_rev (s : pystr) : blank (rev s) <-> blank s.
Proof.
  unfold blank. rewrite !Forall_forall.
  split; intros H c Hc; apply H; [apply -> in_rev | apply <- in_rev]; assumption.
Qed.







(** Exact quotients of integer division. *)
Lemma div_eucl_exact (a b q : Z) :
  (0 < b)%Z -> a = (b * q)%Z -> Z.div_eucl a b = (q, 0%Z).
Proof.
  intros Hb ->.
  pose proof (Z.div_eucl_eq (b * q) b) as H.
  pose proof (Z.mod_pos_bound (b * q) b Hb) as Hm.
  unfold Z.modulo in Hm.
  destruct (Z.div_eucl (b * q) b) as [q' r].
  specialize (H ltac:(lia)).
  assert (q' = q) by nia. subst q'. f_equal. lia.
Qed.

Lemma new_location_zero (n : Z) : new_location n 0 = loc_Exact.
Proof. unfold new_location. destruct (Z.even n); reflexivity. Qed.

(** [n / n] is [1.0]. *)
Lemma of_ratio_same (p : positive) : of_ratio (Npos p) p = 1.
Proof.
  unfold of_ratio, SFdiv, SFdiv_core_binary.
  replace (Zdigits2 (Zpos p) + 0 - (Zdigits2 (Zpos p) + 0))%Z with 0%Z by lia.
  change (Z.min (fexp prec emax 0) (0 - 0))%Z with (-53)%Z.
  change (0 - 0 - -53)%Z with 53%Z. cbv iota.
  rewrite Z.shiftl_mul_pow2 by lia.
  rewrite (@div_eucl_exact _ _ (2 ^ 53)%Z) by lia.
  rewrite new_location_zero. vm_compute. reflexivity.
Qed.




End LanguageFacts.

(** ** Price-list matching *)

Module MatchFacts.

Local Open Scope float_scope.

Import ContentConsistencyAnalyzer FloatOrder.

Lemma SFabs_round_aux (s s' : bool) (m e : Z) (l : location) :
  SFabs (binary_round_aux prec emax s m e l)
  = SFabs (binary_round_aux prec emax s' m e l).
Proof.
  unfold binary_round_aux.
  destruct (shr_fexp prec emax m e l) as [mrs e'].
  destruct (shr_fexp prec emax _ e' loc_Exact) as [mrs' e''].
  destruct (shr_m mrs'); try reflexivity.
  destruct (e'' <=? emax - prec)%Z; reflexivity.
Qed.

Lemma SFabs_round (s s' : bool) (m : positive) (e : Z) :
  SFabs (binary_round prec emax s m e) = SFabs (binary_round prec emax s' m e).
Proof.
  unfold binary_round. destruct (shl_align m e _). apply SFabs_round_aux.
Qed.

Lemma SFabs_normalize_opp (z e : Z) (sz sz' : bool) :
  SFabs (binary_normalize prec emax z e sz)
  = SFabs (binary_normalize prec emax (- z) e sz').
Proof.
  destruct z; simpl; [reflexivity | apply SFabs_round | apply SFabs_round].
Qed.

(** [|x - y|] and [|y - x|] are the same number. *)
Lemma SFabs_sub_comm (x y : spec_float) :
  SFabs (SFsub prec emax x y) = SFabs (SFsub prec emax y x).
Proof.
  destruct x as [sx|sx| |sx mx ex], y as [sy|sy| |sy my ey]; simpl;
    try reflexivity;
    try (destruct sx, sy; reflexivity).
  rewrite (Z.min_comm ey ex).
  rewrite (SFabs_normalize_opp _ _ false false). f_equal. f_equal. lia.
Qed.

Lemma abs_sub_comm (x y : float) : abs (x - y) = abs (y - x).
Proof.
  apply Prim2SF_inj. rewrite !abs_spec, !sub_spec. apply SFabs_sub_comm.
Qed.

Lemma ltb_asym (x y : float) : (x <? y) = true -> (y <? x) = false.
Proof.
  rewrite !ltb_spec. unfold SFltb.
  destruct (Prim2SF x) as [sx|sx| |sx mx ex], (Prim2SF y) as [sy|sy| |sy my ey];
    simpl; try congruence; spec_cases;
    change (Pos.compare_cont Eq) with Pos.compare in *; cmp_cases.
Qed.

Lemma eqb_zero (x y : float) : (x =? y) = true -> (x =? 0) = (y =? 0).
Proof.
  rewrite !eqb_spec. change (Prim2SF 0) with (S754_zero false). unfold SFeqb.
  destruct (Prim2SF x) as [sx|sx| |sx mx ex], (Prim2SF y) as [sy|sy| |sy my ey];
    simpl; try congruence; spec_cases.
Qed.

(** The quotient of line 500 does not depend on the order of the pair. *)
Lemma truediv_max_comm (n p1 p2 : float) :
  not_nan p1 -> not_nan p2 -> truediv n (max p1 p2) = truediv n (max p2 p1).
Proof.
  intros H1 H2. unfold max, gtb.
  destruct (p1 <? p2) eqn:E12.
  - rewrite (ltb_asym E12). reflexivity.
  - destruct (p2 <? p1) eqn:E21; [reflexivity|].
    assert (Heq : (p1 =? p2) = true).
    { apply leb_antisym; apply leb_total; assumption. }
    unfold truediv. rewrite <- (eqb_zero Heq).
    destruct (p1 =? 0) eqn:Ez; [reflexivity|].
    rewrite (eqb_eq Heq Ez). reflexivity.
Qed.

Lemma all_close_swap (tolerance : float) (pairs : list (float * float)) :
  Forall (fun p => not_nan (fst p) /\ not_nan (snd p)) pairs ->
  all_close tolerance (map swap pairs) = all_close tolerance pairs.
Proof.
  induction 1 as [|[p1 p2] pairs [H1 H2] _ IH]; simpl; [reflexivity|].
  simpl in H1, H2.
  rewrite (abs_sub_comm p2 p1), (truediv_max_comm _ H2 H1), IH. reflexivity.
Qed.

Lemma combine_swap {A B : Type} (xs : list A) (ys : list B) :
  combine ys xs = map (fun p => (snd p, fst p)) (combine xs ys).
Proof.
  revert ys. induction xs as [|x xs IH]; intros [|y ys]; simpl;
    try reflexivity. f_equal. apply IH.
Qed.

Lemma combine_Forall {A B : Type} (P : A -> Prop) (Q : B -> Prop)
      (xs : list A) (ys : list B) :
  Forall P xs -> Forall Q ys ->
  Forall (fun p => P (fst p) /\ Q (snd p)) (combine xs ys).
Proof.
  intros Hx. revert ys. induction Hx as [|x xs Hx _ IH]; intros ys Hy; simpl.
  - constructor.
  - destruct Hy as [|y ys Hy Hys]; constructor; [split; assumption | apply IH; assumption].
Qed.

Lemma sorted_Forall {A : Type} (lt : A -> A -> bool) (P : A -> Prop) (xs : list A) :
  Forall P xs -> Forall P (sorted lt xs).
Proof.
  rewrite !Forall_forall. intros H x Hx. apply H.
  apply (proj1 (sorted_In lt x xs)). assumption.
Qed.

End MatchFacts.

(** ** The matcher finds words of the pattern *)

Module RegexFacts.

Import Regex RegexLang.

Section Soundness.
Variable R : Type.
Variable G : pystr -> Prop.

Local Abbreviation cap_in := (RegexLang.cap_in G).
Local Abbreviation consumed := (@RegexLang.consumed R G).

Lemma or_else_some (a b : option R) (x : R) :
  or_else a b = Some x -> a = Some x \/ (a = None /\ b = Some x).
Proof. destruct a; simpl; auto. Qed.

Lemma consumed_nothing (r : regex) (prev : option N) (s : pystr)
      (cap : option pystr) (k : cont R) (x : R) :
  lang r [] -> sets_group r = false -> cap_in cap ->
  k prev s cap = Some x -> consumed r s cap k x.
Proof.
  intros Hl Hs Hcap H. exists [], prev, s, cap. repeat split; auto.
  intros [E | E]; [congruence | assumption].
Qed.

Lemma star_loop_sound (a : regex) :
  (forall prev s cap k x,
      cap_in cap -> run a prev s cap k = Some x -> consumed a s cap k x) ->
  forall fuel prev s cap k x,
    cap_in cap -> star_loop (run a) k fuel prev s cap = Some x ->
    consumed (Star a) s cap k x.
Proof.
  intros IHa. induction fuel as [|fuel IH]; intros prev s cap k x Hcap H;
    simpl in H.
  - eapply consumed_nothing; eauto using lang_star_stop.
  - apply or_else_some in H. destruct H as [H | [_ H]].
    + apply IHa in H; [|assumption].
      destruct H as (w & prev1 & s1 & cap1 & -> & Hw & Hcap1 & Hsome & H).
      destruct (Nat.ltb _ _); [|discriminate].
      apply IH in H; [|assumption].
      destruct H as (v & prev2 & s2 & cap2 & -> & Hv & Hcap2 & Hsome2 & H).
      exists (w ++ v), prev2, s2, cap2. rewrite app_assoc.
      repeat split; auto using lang_star_round.
      intros [? | Hc]; [discriminate|]. auto.
    + eapply consumed_nothing; eauto using lang_star_stop.
Qed.

Lemma repeat_loop_sound (a : regex) :
  (forall prev s cap k x,
      cap_in cap -> run a prev s cap k = Some x -> consumed a s cap k x) ->
  forall hi lo prev s cap k x,
    cap_in cap -> repeat_loop (run a) k hi lo prev s cap = Some x ->
    consumed (Repeat lo hi a) s cap k x.
Proof.
  intros IHa.
  assert (Hstop : forall hi lo prev s cap k x,
             cap_in cap ->
             match lo with O => k prev s cap | S _ => None end = Some x ->
             consumed (Repeat lo hi a) s cap k x).
  { intros hi [|lo] prev s cap k x Hcap H; [|discriminate].
    eapply consumed_nothing; eauto using lang_repeat_stop. }
  induction hi as [|hi IH]; intros lo prev s cap k x Hcap H; simpl in H.
  - eapply Hstop; eassumption.
  - apply or_else_some in H.
    destruct H as [H | [_ H]]; [|eapply Hstop; eassumption].
    apply IHa in H; [|assumption].
    destruct H as (w & prev1 & s1 & cap1 & -> & Hw & Hcap1 & Hsome & H).
    apply IH in H; [|assumption].
    destruct H as (v & prev2 & s2 & cap2 & -> & Hv & Hcap2 & Hsome2 & H).
    exists (w ++ v), prev2, s2, cap2. rewrite app_assoc.
    repeat split; auto using lang_repeat_round.
    intros [? | Hc]; [discriminate|]. auto.
Qed.

Lemma run_sound (r : regex) :
  groups_in G r ->
  forall prev s cap k x,
    cap_in cap -> run r prev s cap k = Some x -> consumed r s cap k x.
Proof.
  induction r as [|p|a IHa b IHb|a IHa b IHb|a IHa|lo hi a IHa|a IHa|];
    intros Hg prev s cap k x Hcap H; simpl in H, Hg.
  - eapply consumed_nothing; eauto using lang_eps.
  - destruct s as [|c s]; [discriminate|].
    destruct (p c) eqn:Hp; [|discriminate].
    exists [c], (Some c), s, cap. repeat split; auto using lang_chr.
    intros [? | ?]; [discriminate | assumption].
  - destruct Hg as [Hga Hgb].
    apply (IHa Hga) in H; [|assumption].
    destruct H as (w & prev1 & s1 & cap1 & -> & Hw & Hcap1 & Hsome1 & H).
    apply (IHb Hgb) in H; [|assumption].
    destruct H as (v & prev2 & s2 & cap2 & -> & Hv & Hcap2 & Hsome2 & H).
    exists (w ++ v), prev2, s2, cap2. rewrite app_assoc.
    repeat split; auto using lang_seq.
    simpl. intros [Hs | Hc]; [|auto].
    apply orb_true_iff in Hs. destruct Hs; auto.
  - destruct Hg as [Hga Hgb].
    apply or_else_some in H. destruct H as [H | [_ H]].
    + apply (IHa Hga) in H; [|assumption].
      destruct H as (w & prev1 & s1 & cap1 & -> & Hw & Hcap1 & Hsome1 & H).
      exists w, prev1, s1, cap1. repeat split; auto using lang_alt_left.
      simpl. intros [Hs | Hc]; [|auto].
      apply andb_true_iff in Hs. destruct Hs; auto.
    + apply (IHb Hgb) in H; [|assumption].
      destruct H as (w & prev1 & s1 & cap1 & -> & Hw & Hcap1 & Hsome1 & H).
      exists w, prev1, s1, cap1. repeat split; auto using lang_alt_right.
      simpl. intros [Hs | Hc]; [|auto].
      apply andb_true_iff in Hs. destruct Hs; auto.
  - eapply star_loop_sound; eauto.
  - eapply repeat_loop_sound; eauto.
  - destruct Hg as [HG Hga].
    apply (IHa Hga) in H; [|assumption].
    destruct H as (w & prev1 & s1 & cap1 & -> & Hw & Hcap1 & Hsome1 & H).
    rewrite length_app, Nat.add_sub, firstn_app, Nat.sub_diag, firstn_all in H.
    simpl in H. rewrite app_nil_r in H.
    exists w, prev1, s1, (Some w). repeat split; auto using lang_group.
    + intros g E. injection E as <-. apply HG. assumption.
    + discriminate.
  - destruct (at_boundary prev s); [|discriminate].
    eapply consumed_nothing; eauto using lang_boundary.
Qed.

End Soundness.

(** A match at a position of the text. *)
Lemma match_here_sound (G : pystr -> Prop) (r : regex) (prev prev' : option N)
      (s s' : pystr) (cap : option pystr) :
  groups_in G r -> sets_group r = true ->
  match_here r prev s = Some (prev', s', cap) ->
  exists w g, s = w ++ s' /\ lang r w /\ cap = Some g /\ G g.
Proof.
  intros Hg Hs H. unfold match_here in H.
  apply (run_sound (G := G)) in H; [|assumption|intros ? ?; discriminate].
  destruct H as (w & prev1 & s1 & cap1 & -> & Hw & Hcap1 & Hsome & H).
  injection H as <- <- <-.
  destruct cap1 as [g|]; [|exfalso; apply Hsome; auto].
  exists w, g. auto.
Qed.

(** Every item [findall] returns is a word of the pattern's group. *)
Lemma findall_from_sound (G : pystr -> Prop) (r : regex) :
  groups_in G r -> sets_group r = true ->
  forall fuel prev s, Forall G (findall_from fuel r prev s).
Proof.
  intros Hg Hs. induction fuel as [|fuel IH]; intros prev s; simpl; [constructor|].
  assert (Hskip : Forall G match s with
                           | [] => []
                           | c :: s' => findall_from fuel r (Some c) s'
                           end)
    by (destruct s; [constructor | apply IH]).
  destruct (match_here r prev s) as [[[prev' s'] cap]|] eqn:E; [|exact Hskip].
  destruct (match_here_sound G r prev s Hg Hs E) as (w & g & _ & _ & -> & HG).
  constructor; [assumption|].
  destruct (Nat.ltb _ _); [apply IH | exact Hskip].
Qed.

Lemma findall_sound (G : pystr -> Prop) (r : regex) (s : pystr) :
  groups_in G r -> sets_group r = true -> Forall G (findall r s).
Proof. intros. apply findall_from_sound; assumption. Qed.

End RegexFacts.

(** ** Numerals and [float] *)

Module NumeralFacts.

Import Regex RegexLang RegexFacts ContentConsistencyAnalyzer ExtractSpec NumeralSpec.

Lemma lang_chr_inv (p : N -> bool) (w : pystr) :
  lang (Chr p) w -> exists c, w = [c] /\ p c = true.
Proof. inversion 1; subst; eauto. Qed.

Lemma lang_eps_inv (w : pystr) : lang Eps w -> w = [].
Proof. inversion 1; reflexivity. Qed.

Lemma lang_seq_inv (a b : regex) (w : pystr) :
  lang (Seq a b) w -> exists u v, w = u ++ v /\ lang a u /\ lang b v.
Proof. inversion 1; subst; eauto. Qed.

Lemma lang_opt_inv (a : regex) (w : pystr) :
  lang (Opt a) w -> w = [] \/ lang a w.
Proof.
  unfold Opt. inversion 1; subst; [right; assumption | left].
  apply lang_eps_inv. assumption.
Qed.

(** Bounded repetition of a character class. *)
Lemma lang_repeat_chr (p : N -> bool) (hi lo : nat) (w : pystr) :
  lang (Repeat lo hi (Chr p)) w ->
  Forall (fun c => p c = true) w /\ (lo <= length w <= hi)%nat.
Proof.
  revert lo w. induction hi as [|hi IH]; intros lo w H; inversion H; subst.
  - split; [constructor | simpl; lia].
  - split; [constructor | simpl; lia].
  - match goal with Hu : lang (Chr p) _ |- _ =>
      apply lang_chr_inv in Hu; destruct Hu as [c [-> Hc]] end.
    match goal with Hv : lang (Repeat _ hi _) _ |- _ =>
      apply IH in Hv; destruct Hv as [Hall Hlen] end.
    split; [constructor; assumption | simpl; lia].
Qed.

(** A one-character literal that has no case. *)
Lemma lang_lit_plain (c : N) (w : pystr) :
  (forall t, ignorecase c t = true -> t = c) ->
  lang (Lit [c]) w -> w = [c].
Proof.
  intros Hc H. simpl in H. apply lang_seq_inv in H.
  destruct H as (u & v & -> & Hu & Hv).
  apply lang_chr_inv in Hu. destruct Hu as [t [-> Ht]].
  apply lang_eps_inv in Hv. subst. rewrite (Hc t Ht). reflexivity.
Qed.

Lemma comma_plain (t : N) : ignorecase 44 t = true -> t = 44%N.
Proof. unfold ignorecase. simpl. apply N.eqb_eq. Qed.

Lemma point_plain (t : N) : ignorecase 46 t = true -> t = 46%N.
Proof. unfold ignorecase. simpl. apply N.eqb_eq. Qed.

Lemma lang_comma_groups (w : pystr) :
  lang comma_groups w ->
  exists gs, w = concat (map (cons 44%N) gs) /\
             Forall (fun g => length g = 3%nat /\ digits g) gs.
Proof.
  unfold comma_groups. remember (Star _) as r eqn:Er. intros H.
  induction H; try discriminate.
  - exists []. split; [reflexivity | constructor].
  - injection Er as ->.
    destruct (IHlang2 eq_refl) as [gs [-> Hgs]].
    apply lang_seq_inv in H. destruct H as (c & g & -> & Hc & Hg).
    apply (lang_lit_plain comma_plain) in Hc. subst c.
    apply lang_repeat_chr in Hg. destruct Hg as [Hd Hlen].
    exists (g :: gs). split; [reflexivity|].
    constructor; [split; [lia | exact Hd] | assumption].
Qed.



Lemma lang_numeral_body (w : pystr) :
  lang numeral_body w -> exists n, well_formed n /\ w = text n.
Proof.
  unfold numeral_body. intros H.
  apply lang_seq_inv in H. destruct H as (l & w1 & -> & Hl & H).
  apply lang_seq_inv in H. destruct H as (g & f & -> & Hg & Hf).
  apply lang_repeat_chr in Hl. destruct Hl as [Hld Hllen].
  apply lang_comma_groups in Hg. destruct Hg as [gs [-> Hgs]].
  apply lang_opt_inv in Hf. destruct Hf as [-> | Hf].
  - exists {| lead := l; groups := gs; fraction := None |}.
    split; [repeat split; simpl; auto; lia | reflexivity].
  - apply lang_seq_inv in Hf. destruct Hf as (c & fd & -> & Hc & Hfd).
    apply (lang_lit_plain point_plain) in Hc. subst c.
    apply lang_repeat_chr in Hfd. destruct Hfd as [Hfdd Hfdlen].
    exists {| lead := l; groups := gs; fraction := Some fd |}.
    split; [repeat split; simpl; auto; lia | reflexivity].
Qed.

(** [s.replace(c, '')] drops every [c]. *)
Lemma replace_from_single (c : N) (fuel : nat) (s : pystr) :
  (length s <= fuel)%nat ->
  replace_from fuel [c] [] s = filter (fun x => negb (c =? x)%N) s.
Proof.
  revert s. induction fuel as [|fuel IH]; intros s Hlen.
  - destruct s; [reflexivity | simpl in Hlen; lia].
  - destruct s as [|x s]; [reflexivity|].
    simpl in Hlen. simpl. rewrite andb_true_r.
    destruct (c =? x)%N; simpl; rewrite IH by lia; reflexivity.
Qed.

Lemma replace_single (c : N) (s : pystr) :
  replace [c] [] s = filter (fun x => negb (c =? x)%N) s.
Proof. apply replace_from_single. lia. Qed.

Lemma filter_id {A : Type} (p : A -> bool) (xs : list A) :
  Forall (fun x => p x = true) xs -> filter p xs = xs.
Proof.
  induction 1 as [|x xs Hx _ IH]; simpl; [reflexivity|].
  rewrite Hx, IH. reflexivity.
Qed.

Lemma digit_not_comma (c : N) :
  Unicode.is_decimal c = true -> negb (44 =? c)%N = true.
Proof.
  intros H. destruct (N.eqb_spec 44 c) as [<- | ]; [|reflexivity].
  vm_compute in H. discriminate.
Qed.

Lemma digits_keep (ds : list N) :
  digits ds -> filter (fun x => negb (44 =? x)%N) ds = ds.
Proof.
  intros H. apply filter_id. eapply Forall_impl; [|exact H].
  intros c Hc. apply digit_not_comma. assumption.
Qed.

Lemma groups_drop_commas (gs : list (list N)) :
  Forall (fun g => length g = 3%nat /\ digits g) gs ->
  filter (fun x => negb (44 =? x)%N) (concat (map (cons 44%N) gs)) = concat gs.
Proof.
  induction 1 as [|g gs [_ Hg] _ IH]; [reflexivity|].
  change (concat (map (cons 44%N) (g :: gs)))
    with ((44%N :: g) ++ concat (map (cons 44%N) gs)).
  rewrite filter_app, IH.
  change (filter (fun x => negb (44 =? x)%N) (44%N :: g))
    with (filter (fun x => negb (44 =? x)%N) g).
  rewrite (digits_keep Hg). reflexivity.
Qed.

Lemma concat_digits (gs : list (list N)) :
  Forall (fun g => length g = 3%nat /\ digits g) gs -> digits (concat gs).
Proof.
  unfold digits. induction 1 as [|g gs [_ Hg] _ IH]; simpl; [constructor|].
  apply Forall_app. split; assumption.
Qed.

(** The text of a numeral without its commas. *)
Lemma text_without_commas (n : numeral) :
  well_formed n ->
  replace (lit ",") [] (text n)
  = (lead n ++ concat (groups n))
      ++ match fraction n with
         | Some f => 46%N :: f
         | None => []
         end.
Proof.
  intros (Hlen & Hl & Hg & Hf).
  change (lit ",") with [44%N]. rewrite replace_single. unfold text.
  rewrite !filter_app, (digits_keep Hl), (groups_drop_commas Hg), app_assoc.
  f_equal. destruct (fraction n) as [f|]; [|reflexivity].
  destruct Hf as [_ Hf].
  change (filter (fun x => negb (44 =? x)%N) (46%N :: f))
    with (46%N :: filter (fun x => negb (44 =? x)%N) f).
  rewrite (digits_keep Hf). reflexivity.
Qed.

Lemma read_digits_app (ds rest : pystr) (acc : N) (k : nat) :
  digits ds ->
  read_digits (ds ++ rest) acc k
  = read_digits rest
      (fold_left (fun acc c => (10 * acc
                                + match Unicode.digit_value c with
                                  | Some d => d
                                  | None => 0
                                  end)%N) ds acc)
      (k + length ds).
Proof.
  intros H. revert acc k. induction H as [|c ds Hc _ IH]; intros acc k; simpl.
  - rewrite Nat.add_0_r. reflexivity.
  - unfold Unicode.is_decimal in Hc.
    destruct (Unicode.digit_value c) as [d|]; [|discriminate].
    rewrite IH. f_equal. lia.
Qed.

Lemma float_of_str_whole (ds : pystr) :
  digits ds -> ds <> [] -> float_of_str ds = Ok (PyFloat.of_ratio (number ds) 1).
Proof.
  intros Hd Hne. unfold float_of_str.
  rewrite <- (app_nil_r ds) at 1. rewrite (read_digits_app [] 0 0 Hd). simpl.
  destruct ds; [congruence | reflexivity].
Qed.

Lemma float_of_str_fraction (ds fs : pystr) :
  digits ds -> ds <> [] -> digits fs ->
  float_of_str (ds ++ 46%N :: fs)
  = Ok (PyFloat.of_ratio (number (ds ++ fs)) (pow10 (length fs))).
Proof.
  intros Hd Hne Hf. unfold float_of_str.
  rewrite (read_digits_app (46%N :: fs) 0 0 Hd).
  change (read_digits (46%N :: fs) ?a ?k) with (a, k, 46%N :: fs).
  cbv iota beta.
  rewrite <- (app_nil_r fs) at 1. rewrite (read_digits_app [] _ 0 Hf). simpl.
  unfold number. rewrite fold_left_app.
  destruct ds; [congruence | reflexivity].
Qed.

(** [float] of a numeral without its commas is the numeral's value. *)
Lemma float_of_numeral (n : numeral) :
  well_formed n ->
  float_of_str (replace (lit ",") [] (text n)) = Ok (value n).
Proof.
  intros Hwf. rewrite (text_without_commas Hwf).
  destruct Hwf as (Hlen & Hl & Hg & Hf).
  assert (Hd : digits (lead n ++ concat (groups n)))
    by (apply Forall_app; split; [assumption | apply concat_digits; assumption]).
  assert (Hne : lead n ++ concat (groups n) <> []).
  { destruct (lead n); [simpl in Hlen; lia | discriminate]. }
  unfold value. destruct (fraction n) as [f|].
  - destruct Hf as [Hflen Hf].
    rewrite (float_of_str_fraction Hd Hne Hf), Hflen, <- app_assoc. reflexivity.
  - rewrite app_nil_r. apply float_of_str_whole; assumption.
Qed.

End NumeralFacts.

(** ** Extraction never fails *)

(** A loop whose body keeps an invariant returns, and keeps it. *)
Lemma for_each_invariant {A S : Type} (P : S -> Prop) (body : S -> A -> result S)
      (xs : list A) :
  (forall x s, In x xs -> P s -> exists s', body s x = Ok s' /\ P s') ->
  forall s, P s -> exists s', for_each body xs s = Ok s' /\ P s'.
Proof.
  induction xs as [|x xs IH]; intros Hbody s Hs; simpl.
  - exists s. auto.
  - destruct (Hbody x s (or_introl eq_refl) Hs) as [s1 [-> Hs1]]. simpl.
    apply IH; [|assumption]. intros y s2 Hy. apply Hbody. right. assumption.
Qed.

Module ExtractFacts.

Import Regex RegexLang RegexFacts ContentConsistencyAnalyzer ExtractSpec NumeralSpec NumeralFacts.

Ltac split_groups :=
  simpl;
  repeat match goal with
    | |- _ /\ _ => split
    | |- True => exact I
    | |- ?x = ?x => reflexivity
    end.

Lemma patterns_capture_numerals :
  Forall (fun r => groups_in (lang numeral_body) r /\ sets_group r = true) patterns.
Proof.
  unfold patterns.
  repeat (constructor; [split_groups; intros w Hw; exact Hw|]).
  constructor.
Qed.

(** [extract_prices] returns, and every price it returns is the value of
    a well-formed numeral of the text. *)
Lemma extract_prices_sound (text : pystr) :
  exists prices, extract_prices text = Ok prices /\ Forall (records text) prices.
Proof.
  unfold extract_prices.
  apply (for_each_invariant (Forall (records text))); [|constructor].
  intros pattern prices Hin Hprices.
  pose proof patterns_capture_numerals as Hp. rewrite Forall_forall in Hp.
  destruct (Hp pattern Hin) as [Hg Hs].
  pose proof (findall_sound (lang numeral_body) pattern text Hg Hs) as Hall.
  rewrite Forall_forall in Hall.
  apply (for_each_invariant (Forall (records text))); [|assumption].
  intros m acc Hm Hacc.
  destruct (lang_numeral_body (Hall m Hm)) as [n [Hwf ->]].
  rewrite (float_of_numeral Hwf). simpl.
  eexists. split; [reflexivity|].
  apply Forall_app. split; [assumption|].
  constructor; [|constructor]. exists n. simpl. auto.
Qed.

(** *** Package details *)

Lemma lang_star_digits (w : pystr) : lang (Star Digit) w -> digits w.
Proof.
  remember (Star Digit) as r eqn:Er. intros H.
  induction H; try discriminate; [constructor|].
  injection Er as ->. apply lang_chr_inv in H. destruct H as [c [-> Hc]].
  constructor; [assumption | apply IHlang2; reflexivity].
Qed.

Lemma lang_decimal_body (w : pystr) :
  lang decimal_body w -> exists v, float_of_str w = Ok v.
Proof.
  unfold decimal_body. intros H.
  apply lang_seq_inv in H. destruct H as (d & w1 & -> & Hd & H).
  apply lang_chr_inv in Hd. destruct Hd as [c [-> Hc]].
  apply lang_seq_inv in H. destruct H as (ds & f & -> & Hds & Hf).
  apply lang_star_digits in Hds.
  assert (Hd : digits ([c] ++ ds)) by (constructor; assumption).
  apply lang_opt_inv in Hf. destruct Hf as [-> | Hf].
  - rewrite app_nil_r. eexists. apply float_of_str_whole; [assumption | discriminate].
  - apply lang_seq_inv in Hf. destruct Hf as (pt & fd & -> & Hpt & Hfd).
    apply (lang_lit_plain point_plain) in Hpt. subst pt.
    apply lang_seq_inv in Hfd. destruct Hfd as (f1 & fs & -> & Hf1 & Hfs).
    apply lang_chr_inv in Hf1. destruct Hf1 as [c' [-> Hc']].
    apply lang_star_digits in Hfs.
    rewrite app_assoc. eexists.
    apply (float_of_str_fraction (ds := [c] ++ ds) (fs := [c'] ++ fs));
      [assumption | discriminate | constructor; assumption].
Qed.

Lemma unlimited_not_digits (rest : regex) (w : pystr) :
  lang (Seq (Lit (lit "unlimited")) rest) w -> convertible w.
Proof.
  intros H. right.
  apply lang_seq_inv in H. destruct H as (u & v & -> & Hu & _).
  simpl in Hu. apply lang_seq_inv in Hu. destruct Hu as (c & u' & -> & Hc & _).
  apply lang_chr_inv in Hc. destruct Hc as [t [-> Ht]].
  change (lit ".") with [46%N]. rewrite replace_single.
  assert (Et : t = 117%N \/ t = 85%N).
  { unfold ignorecase in Ht. simpl in Ht.
    rewrite !orb_false_r in Ht. apply orb_true_iff in Ht.
    destruct Ht as [Ht | Ht]; apply N.eqb_eq in Ht; auto. }
  destruct Et; subst t; reflexivity.
Qed.

Lemma lit_as_seq (s : pystr) (w : pystr) : lang (Lit s) w -> lang (Seq (Lit s) Eps) w.
Proof. intros H. rewrite <- (app_nil_r w). constructor; [assumption | constructor]. Qed.

Lemma speed_patterns_capture :
  Forall (fun r => groups_in (lang decimal_body) r /\ sets_group r = true)
         speed_patterns.
Proof.
  unfold speed_patterns. simpl map.
  repeat (constructor; [split_groups; intros w Hw; exact Hw|]).
  constructor.
Qed.

Lemma data_patterns_capture :
  Forall (fun r => groups_in convertible r /\ sets_group r = true) data_patterns.
Proof.
  assert (Hnum : forall w, lang decimal_body w -> convertible w)
    by (intros w Hw; left; apply lang_decimal_body; exact Hw).
  unfold data_patterns.
  constructor; [split_groups; exact Hnum|].
  constructor; [split_groups; exact Hnum|].
  constructor; [split_groups; intros w Hw; eapply unlimited_not_digits; exact Hw|].
  constructor; [|constructor].
  split_groups. intros w Hw. eapply unlimited_not_digits. apply lit_as_seq. exact Hw.
Qed.

Lemma extract_package_details_total (text : pystr) :
  exists details, extract_package_details text = Ok details.
Proof.
  unfold extract_package_details.
  assert (Hspeeds : exists speeds0,
             for_each
               (fun acc pattern =>
                  for_each
                    (fun acc m =>
                       v <- float_of_str m ;;
                       Ok (acc ++ [ {| speed_value := v;
                                       speed_context := get_price_context text m |} ]))
                    (findall pattern text) acc)
               speed_patterns [] = Ok speeds0 /\ True).
  { apply (for_each_invariant (fun _ => True)); [|exact I].
    intros pattern acc Hin _.
    pose proof speed_patterns_capture as Hp. rewrite Forall_forall in Hp.
    destruct (Hp pattern Hin) as [Hg Hs].
    pose proof (findall_sound (lang decimal_body) pattern text Hg Hs) as Hall.
    rewrite Forall_forall in Hall.
    apply (for_each_invariant (fun _ => True)); [|exact I].
    intros m acc' Hm _. destruct (lang_decimal_body (Hall m Hm)) as [v ->].
    simpl. eexists. split; [reflexivity | exact I]. }
  destruct Hspeeds as [speeds0 [-> _]]. cbn [bind].
  match goal with
  | |- exists d, bind ?loop _ = _ =>
      assert (Hdata : exists data_limits0, loop = Ok data_limits0 /\ True)
  end.
  { apply (for_each_invariant (fun _ => True)); [|exact I].
    intros pattern acc Hin _.
    pose proof data_patterns_capture as Hp. rewrite Forall_forall in Hp.
    destruct (Hp pattern Hin) as [Hg Hs].
    pose proof (findall_sound convertible pattern text Hg Hs) as Hall.
    rewrite Forall_forall in Hall.
    apply (for_each_invariant (fun _ => True)); [|exact I].
    intros m acc' Hm _.
    destruct (contains (lit "unlimited") (Unicode.lower m));
      [eexists; split; [reflexivity | exact I]|].
    destruct (Hall m Hm) as [[v Ev] | Hnd].
    - rewrite Ev. destruct (isdigit _); simpl; eexists; split; try reflexivity; exact I.
    - rewrite Hnd. simpl. eexists. split; [reflexivity | exact I]. }
  destruct Hdata as [data_limits0 [-> _]]. cbn [bind].
  eexists. reflexivity.
Qed.

Lemma page_info_of_total (page : page_data) :
  exists info, page_info_of page = Ok info /\ info_text info = all_text_of page.
Proof.
  unfold page_info_of.
  destruct (extract_prices_sound (all_text_of page)) as [prices [-> _]].
  destruct (extract_package_details_total (all_text_of page)) as [details ->].
  simpl. eexists. split; reflexivity.
Qed.

End ExtractFacts.

(** ** Pages by language *)

(** A loop whose body relates the state to the items already seen. *)
Lemma for_each_prefix {A S : Type} (P : list A -> S -> Prop) (body : S -> A -> result S)
      (xs : list A) (s0 : S) :
  P [] s0 ->
  (forall seen x s, P seen s -> exists s', body s x = Ok s' /\ P (seen ++ [x]) s') ->
  exists s', for_each body xs s0 = Ok s' /\ P xs s'.
Proof.
  intros H0 Hbody.
  assert (H : forall seen s, P seen s ->
                             exists s', for_each body xs s = Ok s' /\ P (seen ++ xs) s').
  { induction xs as [|x xs IH]; intros seen s Hs; simpl.
    - exists s. rewrite app_nil_r. auto.
    - destruct (Hbody seen x s Hs) as [s1 [-> Hs1]]. simpl.
      destruct (IH (seen ++ [x]) s1 Hs1) as [s' [E Hs']].
      exists s'. rewrite <- app_assoc in Hs'. auto. }
  apply (H [] s0 H0).
Qed.

Module PartitionFacts.

Import ContentConsistencyAnalyzer ExtractSpec ExtractFacts.

Lemma pystr_eqb_eq (a b : pystr) : PyStr.eqb a b = true <-> a = b.
Proof.
  unfold PyStr.eqb. destruct (list_eq_dec N.eq_dec a b); split; congruence.
Qed.

(** The keys after [d[key] = v]. *)
Lemma dict_set_keys {V : Type} (key : pystr) (v : V) (d : list (pystr * V)) (k : pystr) :
  In k (map fst (dict_set PyStr.eqb key v d)) <-> k = key \/ In k (map fst d).
Proof.
  induction d as [|[k' v'] d IH]; simpl.
  - intuition.
  - destruct (PyStr.eqb key k') eqn:E; simpl.
    + apply pystr_eqb_eq in E. subst k'. intuition.
    + rewrite IH. intuition.
Qed.

Lemma classified_snoc (l : language) (pages : list (pystr * page_data))
      (entry : pystr * page_data) (url : pystr) :
  classified l (pages ++ [entry]) url
  <-> classified l pages url \/ (url = fst entry /\ page_language (snd entry) = l).
Proof.
  unfold classified. split.
  - intros [page [Hin Hl]]. apply in_app_or in Hin. destruct Hin as [Hin | [E | []]].
    + left. eauto.
    + right. subst entry. auto.
  - intros [[page [Hin Hl]] | [-> Hl]].
    + exists page. split; [apply in_or_app; auto | assumption].
    + exists (snd entry). split; [|assumption].
      apply in_or_app. right. left. destruct entry; reflexivity.
Qed.

Lemma file_page_filed (pages : list (pystr * page_data)) (entry : pystr * page_data)
      (info : page_info) (lp : language_pages) :
  filed pages lp ->
  filed (pages ++ [entry])
        (file_page (fst entry) (page_language (snd entry)) info lp).
Proof.
  intros (He & Hs & Hm).
  unfold filed. setoid_rewrite classified_snoc.
  destruct (page_language (snd entry)) eqn:El; simpl;
    repeat split; intros H;
    repeat match goal with
      | H : In _ (map fst (dict_set _ _ _ _)) |- _ => apply dict_set_keys in H
      | |- In _ (map fst (dict_set _ _ _ _)) => apply dict_set_keys
      end;
    try (rewrite ?He, ?Hs, ?Hm in *; intuition congruence).
Qed.


End PartitionFacts.

(** ** Greedy matches *)

Module GreedyFacts.

Import Regex GreedySpec.




Lemma repeat_loop_O (R : Type) body (k : cont R) prev s cap :
  repeat_loop body k 0 0 prev s cap = k prev s cap.
Proof. reflexivity. Qed.


















End GreedyFacts.

(** ** Every marked price is found *)


Module CompleteFacts.

Import Regex GreedySpec GreedyFacts ContentConsistencyAnalyzer ExtractSpec.
Import NumeralSpec NumeralFacts PriceGrammar.

Lemma space_cases (c : N) :
  isspace c = true ->
  In c [9; 10; 11; 12; 13; 28; 29; 30; 31; 32; 133; 160; 5760;
        8192; 8193; 8194; 8195; 8196; 8197; 8198; 8199; 8200; 8201; 8202;
        8232; 8233; 8239; 8287; 12288]%N.
Proof.
  unfold isspace.
  rewrite !orb_true_iff, !andb_true_iff, !N.leb_le, !N.eqb_eq.
  intros H. simpl. lia.
Qed.

Lemma digit_not_space (c : N) : Unicode.is_decimal c = true -> isspace c = false.
Proof.
  intros Hd. destruct (isspace c) eqn:E; [|reflexivity].
  apply space_cases in E. simpl in E.
  repeat (destruct E as [E | E]; [subst c; vm_compute in Hd; discriminate Hd|]).
  destruct E.
Qed.

Lemma space_not_digit (c : N) : isspace c = true -> Unicode.is_decimal c = false.
Proof.
  intros Hs. destruct (Unicode.is_decimal c) eqn:E; [|reflexivity].
  apply digit_not_space in E. congruence.
Qed.


















End CompleteFacts.

(** ** The report and the clock *)

Module ReportFacts.

Import ContentConsistencyAnalyzer ReportSpec.

Section Clock.
Variable repr_float : float -> pystr.
Variable repr_str : pystr -> pystr.

Local Abbreviation after_timestamp := (ReportSpec.after_timestamp repr_float repr_str).
Local Abbreviation text_after := (ReportSpec.text_after repr_float repr_str).


(** The clock reaches the fourth item only. *)
Lemma report_lines_shape (now : datetime) (self : analyzer) :
  report_lines repr_float repr_str now self
  = before_timestamp ++ (lit "Generated on: " ++ strftime now)
                     :: after_timestamp self.
Proof. reflexivity. Qed.

Lemma nth_error_other (now1 now2 : datetime) (self : analyzer) (i : nat) :
  i <> 3%nat ->
  nth_error (report_lines repr_float repr_str now1 self) i
  = nth_error (report_lines repr_float repr_str now2 self) i.
Proof.
  intros Hi. rewrite !report_lines_shape.
  destruct i as [|[|[|[|i]]]]; try reflexivity. congruence.
Qed.

Lemma after_timestamp_cons (self : analyzer) :
  exists l ls, after_timestamp self = l :: ls.
Proof. eexists. eexists. reflexivity. Qed.

Lemma generate_report_shape (now : datetime) (self : analyzer) :
  generate_report repr_float repr_str now self
  = text_before ++ strftime now ++ text_after self.
Proof.
  unfold generate_report, text_after. rewrite report_lines_shape.
  destruct (after_timestamp_cons self) as [l [ls ->]].
  unfold before_timestamp, text_before.
  cbn [join app]. rewrite <- !app_assoc. reflexivity.
Qed.

(** Two reports of one analyzer are the same text exactly when the
    clock shows the same second. *)
Lemma generate_report_same (now1 now2 : datetime) (self : analyzer) :
  generate_report repr_float repr_str now1 self
  = generate_report repr_float repr_str now2 self
  <-> strftime now1 = strftime now2.
Proof.
  rewrite !generate_report_shape. split.
  - intros H. apply app_inv_head in H. apply app_inv_tail in H. assumption.
  - intros ->. reflexivity.
Qed.

End Clock.

End ReportFacts.

(** ** More on clusters: what they hold, and what is reported *)

Module ClusterMore.

Import ContentConsistencyAnalyzer ClusterSpec ClusterFacts ClusterShape.

Local Open Scope float_scope.

(** *** The facts are kept *)

Lemma scan_groups_perm (f : price_info) (gs : list group) :
  forall (found : bool) (gs' : list group),
    scan_groups f gs = Ok (found, gs') ->
    length gs' = length gs
    /\ (Forall (fun g => g <> []) gs -> Forall (fun g => g <> []) gs')
    /\ if found then Permutation (concat gs') (f :: concat gs) else gs' = gs.
Proof.
  induction gs as [|g gs IH]; intros found gs' H; simpl in H.
  - injection H as <- <-. repeat split. auto.
  - destruct (representative g) as [rep|]; [|discriminate H]. simpl in H.
    destruct (within_tolerance (pi_price f) rep) as [[|]|]; try discriminate H; simpl in H.
    + injection H as <- <-. split; [reflexivity|]. split.
      * intros Hne. inversion Hne; subst. constructor; [|assumption].
        destruct g; discriminate.
      * simpl. rewrite <- app_assoc. simpl.
        apply Permutation_sym, Permutation_middle.
    + destruct (scan_groups f gs) as [[found' rest']|]; [|discriminate H].
      simpl in H. injection H as <- <-.
      destruct (IH found' rest' eq_refl) as (Hlen & Hne & Hperm).
      split; [simpl; congruence|]. split.
      * intros Hg. inversion Hg; subst. constructor; auto.
      * destruct found'; [|congruence]. simpl. rewrite Hperm.
        apply Permutation_sym, Permutation_middle.
Qed.

Lemma add_price_perm (f : price_info) (gs gs' : list group) :
  add_price gs f = Ok gs' ->
  Permutation (concat gs') (f :: concat gs)
  /\ (Forall (fun g => g <> []) gs -> Forall (fun g => g <> []) gs').
Proof.
  unfold add_price. intros H.
  destruct (scan_groups f gs) as [[found rest]|] eqn:E; [|discriminate H].
  simpl in H. injection H as <-.
  destruct (scan_groups_perm _ _ E) as (_ & Hne & Hperm).
  destruct found.
  - auto.
  - subst rest. split.
    + rewrite concat_app. simpl.
      apply Permutation_sym, Permutation_cons_append.
    + intros Hg. apply Forall_app. split; [assumption|].
      constructor; [discriminate | constructor].
Qed.

Lemma for_each_add_price_perm (facts : list price_info) :
  forall gs gs' : list group,
    for_each add_price facts gs = Ok gs' ->
    Permutation (concat gs') (facts ++ concat gs)
    /\ (Forall (fun g => g <> []) gs -> Forall (fun g => g <> []) gs').
Proof.
  induction facts as [|f facts IH]; intros gs gs' H; simpl in H.
  - injection H as <-. auto.
  - destruct (add_price gs f) as [gs1|] eqn:E; [|discriminate H]. simpl in H.
    destruct (add_price_perm _ _ E) as [Hp1 Hn1].
    destruct (IH _ _ H) as [Hp Hn]. split; [|auto].
    rewrite Hp, Hp1. simpl. apply Permutation_sym, Permutation_middle.
Qed.

Lemma cluster_prices_perm (facts : list price_info) (clusters : list group) :
  cluster_prices facts = Ok clusters ->
  Permutation (concat clusters) facts /\ Forall (fun g => g <> []) clusters.
Proof.
  intros H. destruct (for_each_add_price_perm _ _ H) as [Hp Hn].
  simpl in Hp. rewrite app_nil_r in Hp. split; [exact Hp | apply Hn; constructor].
Qed.

Lemma groups_not_longer (gs : list group) :
  Forall (fun g => g <> []) gs -> (length gs <= length (concat gs))%nat.
Proof.
  induction 1 as [|g gs Hg _ IH]; simpl; [lia|].
  rewrite length_app. destruct g; [congruence | simpl; lia].
Qed.

(** *** Representatives stay apart *)

Lemma representatives_app (gs hs : list group) :
  representatives (gs ++ hs) = representatives gs ++ representatives hs.
Proof. unfold representatives. apply flat_map_app. Qed.

Lemma rep_far_representatives (f : price_info) (gs : list group) :
  Forall (rep_far f) gs ->
  Forall (fun r => near (pi_price f) r = false) (representatives gs).
Proof.
  induction 1 as [|g gs (rep & members & -> & Hfar) _ IH]; simpl; [constructor|].
  constructor; assumption.
Qed.

Lemma ForallOrdPairs_snoc {A : Type} (R : A -> A -> Prop) (l : list A) (x : A) :
  ForallOrdPairs R l -> Forall (fun y => R y x) l -> ForallOrdPairs R (l ++ [x]).
Proof.
  induction 1 as [|y l Hy Hl IH]; intros Hx; simpl.
  - constructor; constructor.
  - inversion Hx; subst. constructor; [|auto].
    apply Forall_app. split; [assumption | constructor; [assumption | constructor]].
Qed.

Lemma greedy_insert_apart (f : price_info) (gs gs' : list group) :
  greedy_insert f gs gs' ->
  apart (representatives gs) -> apart (representatives gs').
Proof.
  intros [before rep members after _ _ | ? Hfar] Ha.
  - rewrite representatives_app in *. exact Ha.
  - rewrite representatives_app. simpl.
    apply ForallOrdPairs_snoc; [exact Ha|].
    apply rep_far_representatives, Hfar.
Qed.

Lemma greedy_clusters_apart (facts : list price_info) (gs gs' : list group) :
  greedy_clusters gs facts gs' ->
  apart (representatives gs) -> apart (representatives gs').
Proof. induction 1; eauto using greedy_insert_apart. Qed.

(** *** What a discrepancy lists *)

Lemma occurrences_listed (gs : list group) :
  forall acc occs,
    for_each (fun acc g => o <- occurrence_of g ;; Ok (acc ++ [o])) gs acc = Ok occs ->
    exists new, occs = acc ++ new /\ Forall2 occurrence_for gs new.
Proof.
  induction gs as [|g gs IH]; intros acc occs H; simpl in H.
  - injection H as <-. exists []. rewrite app_nil_r. split; [reflexivity | constructor].
  - destruct g as [|rep members]; [discriminate H|]. simpl in H.
    destruct (IH _ _ H) as (new & -> & Hnew).
    eexists. split; [rewrite <- app_assoc; reflexivity|].
    constructor; [|exact Hnew].
    exists rep, members. repeat split.
Qed.

Lemma occurrence_counts (gs : list group) (occs : list occurrence) :
  Forall2 occurrence_for gs occs ->
  list_sum (map occ_count occs) = length (concat gs).
Proof.
  induction 1 as [|g o gs occs (rep & members & -> & _ & _ & _ & _ & Hc) _ IH]; simpl;
    [reflexivity|].
  rewrite Hc, IH, length_app. reflexivity.
Qed.

Lemma report_clusters_lists (cat : category) (clusters : list group)
      (d : pricing_discrepancy) :
  report_clusters cat clusters = Ok (Some d) ->
  (1 < length clusters)%nat /\ pd_category d = cat
  /\ Forall2 occurrence_for clusters (pd_occurrences d).
Proof.
  unfold report_clusters. intros H.
  destruct (Nat.ltb 1 (length clusters)) eqn:El; [|discriminate H].
  apply Nat.ltb_lt in El.
  destruct (price_ranges_of clusters) as [ranges|]; [|discriminate H]. simpl in H.
  destruct (item_first ranges) as [lo|]; [|discriminate H]. simpl in H.
  destruct (item_last ranges) as [hi|]; [|discriminate H]. simpl in H.
  destruct (truediv (fst hi - fst lo) (fst lo)) as [spread|]; [|discriminate H].
  simpl in H.
  destruct (gtb spread lit_0_2); [|discriminate H].
  destruct (for_each _ clusters []) as [occs|] eqn:Eo; [|discriminate H].
  simpl in H. injection H as <-.
  destruct (occurrences_listed _ _ Eo) as (new & -> & Hnew).
  repeat split; assumption.
Qed.

Lemma analyze_category_lists (cat : category) (facts : list price_info)
      (d : pricing_discrepancy) :
  analyze_category cat facts = Ok (Some d) ->
  exists clusters,
    cluster_prices facts = Ok clusters /\
    (1 < length clusters)%nat /\ pd_category d = cat /\
    Forall2 occurrence_for clusters (pd_occurrences d).
Proof.
  unfold analyze_category. intros H.
  destruct (Nat.ltb 1 (length facts)); [|discriminate H].
  destruct (cluster_prices facts) as [clusters|]; [|discriminate H]. simpl in H.
  exists clusters. split; [reflexivity | apply report_clusters_lists, H].
Qed.

(** *** One discrepancy for a category *)

Lemma dict_append_keys {V : Type} (key : category) (x : V)
      (d : list (category * list V)) (k : category) :
  In k (map fst (dict_append category_eqb key x d)) <-> k = key \/ In k (map fst d).
Proof.
  induction d as [|[k' xs] d IH]; simpl.
  - intuition.
  - destruct (category_eqb key k') eqn:E; simpl.
    + assert (key = k') by (destruct key, k'; (reflexivity || discriminate E)).
      subst. intuition.
    + rewrite IH. intuition.
Qed.

Lemma dict_append_NoDup {V : Type} (key : category) (x : V)
      (d : list (category * list V)) :
  NoDup (map fst d) -> NoDup (map fst (dict_append category_eqb key x d)).
Proof.
  induction d as [|[k' xs] d IH]; simpl; intros Hd.
  - constructor; [intros [] | constructor].
  - apply NoDup_cons_iff in Hd. destruct Hd as [Hk Hd'].
    destruct (category_eqb key k') eqn:E; simpl.
    + constructor; assumption.
    + constructor; [|auto].
      rewrite dict_append_keys. intros [Hkey | Hin]; [|contradiction].
      subst k'. destruct key; discriminate E.
Qed.

Lemma group_prices_NoDup (pages : list (pystr * page_data))
      (groups : list (category * list price_info)) :
  group_prices pages = Ok groups -> NoDup (map fst groups).
Proof.
  unfold group_prices. intros H.
  destruct (for_each_invariant
              (fun groups : list (category * list price_info) => NoDup (map fst groups))
              (fun price_groups entry =>
                 prices <- extract_prices (all_text_of (snd entry)) ;;
                 Ok (fold_left
                       (fun groups p =>
                          dict_append category_eqb (categorize (context p))
                                      {| pi_url := fst entry;
                                         pi_price := value p;
                                         pi_original := original p;
                                         pi_context := context p;
                                         pi_language := detect_language (context p) |}
                                      groups)
                       prices price_groups))
              pages) with (s := @nil (category * list price_info))
    as (groups' & E & Hn).
  - intros entry acc _ Hacc.
    destruct (ExtractFacts.extract_prices_sound (all_text_of (snd entry)))
      as (prices & -> & _). simpl.
    eexists. split; [reflexivity|].
    revert acc Hacc. induction prices as [|p prices IH]; intros acc Hacc; simpl;
      [assumption|].
    apply IH, dict_append_NoDup, Hacc.
  - constructor.
  - rewrite E in H. injection H as <-. exact Hn.
Qed.

Lemma find_inconsistencies_categories (groups : list (category * list price_info)) :
  forall acc out,
    find_inconsistencies groups acc = Ok out ->
    exists new,
      out = acc ++ new /\
      (forall d, In d new -> In (pd_category d) (map fst groups)) /\
      (NoDup (map fst groups) -> NoDup (map pd_category new)).
Proof.
  unfold find_inconsistencies.
  induction groups as [|[cat facts] groups IH]; intros acc out H; simpl in H.
  - injection H as <-. exists []. rewrite app_nil_r.
    split; [reflexivity|]. split; [intros d [] | constructor].
  - destruct (analyze_category cat facts) as [found|] eqn:E; [|discriminate H].
    simpl in H. destruct (IH _ _ H) as (new & -> & Hin & Hnd).
    destruct found as [d|].
    + destruct (analyze_category_lists _ _ E) as (_ & _ & _ & Hcat & _).
      exists (d :: new). split; [rewrite <- app_assoc; reflexivity|]. split.
      * intros d' [<- | Hd']; simpl; [left; congruence | right; apply Hin, Hd'].
      * intros Hg. inversion Hg as [|? ? Hfresh Hg']; subst. simpl.
        constructor; [|apply Hnd, Hg'].
        rewrite in_map_iff. intros (d' & Hc & Hd'). apply Hfresh.
        rewrite <- Hc. apply Hin, Hd'.
    + exists new. split; [reflexivity|]. split.
      * intros d' Hd'. simpl. right. apply Hin, Hd'.
      * intros Hg. inversion Hg; subst. auto.
Qed.

End ClusterMore.

(** ** More on the two language classifiers *)

Module LanguageMore.

Local Open Scope float_scope.

Import ContentConsistencyAnalyzer LanguageSpec LanguageFacts NumeralFacts.




(** [len(text.replace(' ', ''))] counts the characters other than U+0020. *)
Lemma count_non_blank_zero (text : pystr) :
  DiscrepancyAnalyzer.count_non_blank text = 0%N <-> Forall (fun c => c = 32%N) text.
Proof.
  unfold DiscrepancyAnalyzer.count_non_blank.
  change (lit " ") with [32%N]. rewrite replace_single.
  split.
  - intros H.
    assert (H' : length (filter (fun x => negb (32 =? x)%N) text) = 0%nat) by lia.
    clear H. induction text as [|c text IH]; [constructor|]. cbn [filter] in H'.
    destruct (32 =? c)%N eqn:E; cbn [negb length] in H'; [|discriminate H'].
    apply N.eqb_eq in E. constructor; [congruence | apply IH, H'].
  - intros H.
    induction H as [|c text -> _ IH]; [reflexivity|]. cbn [filter].
    rewrite N.eqb_refl. exact IH.
Qed.

Lemma count_chars_all (p : N -> bool) (text : pystr) :
  Forall (fun c => p c = true) text -> count_chars p text = N.of_nat (length text).
Proof. intros H. unfold count_chars. rewrite (filter_id _ H). reflexivity. Qed.

Lemma count_chars_none (p : N -> bool) (text : pystr) :
  Forall (fun c => p c = false) text -> count_chars p text = 0%N.
Proof.
  intros H. unfold count_chars.
  induction H as [|c text Hc _ IH]; simpl; [reflexivity|]. rewrite Hc. exact IH.
Qed.

Lemma count_non_blank_all (text : pystr) :
  Forall (fun c => c <> 32%N) text ->
  DiscrepancyAnalyzer.count_non_blank text = N.of_nat (length text).
Proof.
  intros H. unfold DiscrepancyAnalyzer.count_non_blank.
  change (lit " ") with [32%N]. rewrite replace_single, filter_id; [reflexivity|].
  eapply Forall_impl; [|exact H]. intros c Hc. cbv beta.
  apply negb_true_iff, N.eqb_neq. congruence.
Qed.

Lemma sinhala_not_english (c : N) : is_sinhala c = true -> is_english c = false.
Proof.
  unfold is_sinhala, is_english. rewrite !andb_true_iff, !N.leb_le. intros [H1 H2].
  replace (c <=? 90)%N with false by (symmetry; apply N.leb_gt; lia).
  replace (c <=? 122)%N with false by (symmetry; apply N.leb_gt; lia).
  rewrite !andb_false_r. reflexivity.
Qed.

Lemma english_not_sinhala (c : N) : is_english c = true -> is_sinhala c = false.
Proof.
  intros H. destruct (is_sinhala c) eqn:E; [|reflexivity].
  apply sinhala_not_english in E. congruence.
Qed.

Lemma sinhala_not_blank (c : N) : is_sinhala c = true -> c <> 32%N.
Proof. intros H ->. discriminate H. Qed.

Lemma english_not_blank (c : N) : is_english c = true -> c <> 32%N.
Proof. intros H ->. discriminate H. Qed.

End LanguageMore.

(** ** A price of zero stops the analysis of its category *)

Module ZeroFacts.

Import ContentConsistencyAnalyzer ClusterSpec ClusterFacts ClusterShape ClusterMore.
Import TriggerFacts FloatOrder LanguageFacts ZeroSpec.

Local Open Scope float_scope.

(** *** Floats around zero *)

Lemma SFdiv_same (m : positive) (e : Z) :
  SFdiv prec emax (S754_finite false m e) (S754_finite false m e)
  = S754_finite false 4503599627370496 (-52).
Proof.
  unfold SFdiv, SFdiv_core_binary.
  replace (Zdigits2 (Zpos m) + e - (Zdigits2 (Zpos m) + e))%Z with 0%Z by lia.
  replace (e - e)%Z with 0%Z by lia.
  change (Z.min (fexp prec emax 0) 0)%Z with (-53)%Z.
  change (0 - -53)%Z with 53%Z. cbv iota.
  rewrite Z.shiftl_mul_pow2 by lia.
  rewrite (@div_eucl_exact _ _ (2 ^ 53)%Z) by lia.
  rewrite new_location_zero. vm_compute. reflexivity.
Qed.

Lemma nonnegative_cases (x : float) :
  (0 <=? x) = true -> (x =? 0) = true \/ (0 <? x) = true.
Proof.
  rewrite leb_spec, eqb_spec, ltb_spec.
  change (Prim2SF 0) with (S754_zero false).
  unfold SFleb, SFeqb, SFltb.
  destruct (Prim2SF x) as [s|s| |s m e]; simpl; try discriminate;
    destruct s; simpl; auto; discriminate.
Qed.

Lemma nonnegative_not_nan (x : float) : (0 <=? x) = true -> not_nan x.
Proof.
  intros H. apply not_nan_spec. intros E.
  rewrite leb_spec, E in H. discriminate H.
Qed.

Lemma positive_nonzero (x : float) : (0 <? x) = true -> (x =? 0) = false.
Proof.
  rewrite ltb_spec, eqb_spec.
  change (Prim2SF 0) with (S754_zero false).
  unfold SFeqb, SFltb.
  destruct (Prim2SF x) as [s|s| |s m e]; simpl; try discriminate;
    destruct s; simpl; auto; discriminate.
Qed.

Lemma positive_nonnegative (x : float) : (0 <? x) = true -> (0 <=? x) = true.
Proof. apply ltb_leb. Qed.

(** Zero is out of the tolerance of every price above zero:
    [abs(0 - r) / r] is one, or not a number when [r] is infinite. *)
Lemma zero_far (z r : float) :
  (z =? 0) = true -> (0 <? r) = true -> near z r = false.
Proof.
  unfold near, relative_distance.
  rewrite eqb_spec, !ltb_spec, div_spec, abs_spec, sub_spec.
  change (Prim2SF 0) with (S754_zero false).
  unfold SFeqb at 1, SFltb at 1. intros Hz Hr.
  destruct (Prim2SF z) as [sz|sz| |sz mz ez]; simpl in Hz;
    try discriminate Hz; try (destruct sz; discriminate Hz).
  destruct (Prim2SF r) as [sr|sr| |sr mr er]; simpl in Hr;
    try discriminate Hr; destruct sr; try discriminate Hr.
  - reflexivity.
  - unfold SF64div, SF64sub. cbn [SFsub negb SFabs].
    rewrite SFdiv_same. vm_compute. reflexivity.
Qed.

(** *** The clusters once a zero has come *)

Lemma scan_groups_zero (f : price_info) (n : nat) (gs : list group) :
  zero_behind n gs ->
  scan_groups f gs = Raise ZeroDivisionError
  \/ ((0 < n)%nat /\
      exists gs', scan_groups f gs = Ok (true, gs') /\ zero_behind n gs').
Proof.
  intros (before & rep & members & after & -> & <- & Hs & Hz).
  induction Hs as [|g before (r & ms & -> & Hr) Hs IH].
  - left. simpl. unfold within_tolerance, truediv.
    unfold zero_price in Hz. rewrite Hz. reflexivity.
  - cbn [app scan_groups representative item_first bind].
    rewrite (within_tolerance_near _ Hr). cbn [bind].
    destruct (near (pi_price f) (pi_price r)).
    + right. split; [simpl; lia|]. eexists. split; [reflexivity|].
      exists ((r :: ms ++ [f]) :: before), rep, members, after.
      repeat split; try assumption.
      constructor; [exists r, (ms ++ [f]); auto | assumption].
    + destruct IH as [-> | (_ & gs' & -> & before' & rep' & members' & after'
                            & -> & Hlen & Hs' & Hz')].
      * left. reflexivity.
      * right. split; [simpl; lia|]. eexists. split; [reflexivity|].
        exists ((r :: ms) :: before'), rep', members', after'.
        repeat split; try assumption.
        -- simpl. congruence.
        -- constructor; [exists r, ms; auto | assumption].
Qed.

Lemma add_price_zero (f : price_info) (n : nat) (gs : list group) :
  zero_behind n gs ->
  add_price gs f = Raise ZeroDivisionError
  \/ ((0 < n)%nat /\ exists gs', add_price gs f = Ok gs' /\ zero_behind n gs').
Proof.
  intros H. unfold add_price.
  destruct (scan_groups_zero f H) as [-> | (Hn & gs' & -> & H')].
  - left. reflexivity.
  - right. split; [exact Hn|]. exists gs'. split; [reflexivity | exact H'].
Qed.

Lemma for_each_add_price_zero (facts : list price_info) :
  forall (n : nat) (gs : list group),
    zero_behind n gs ->
    for_each add_price facts gs = Raise ZeroDivisionError
    \/ (exists gs',
           for_each add_price facts gs = Ok gs' /\ zero_behind n gs' /\
           (facts <> [] -> (0 < n)%nat)).
Proof.
  induction facts as [|f facts IH]; intros n gs H.
  - right. exists gs. split; [reflexivity|]. split; [exact H | congruence].
  - cbn [for_each].
    destruct (add_price_zero f H) as [-> | (Hn & gs1 & -> & H1)].
    + left. reflexivity.
    + cbn [bind]. destruct (IH n gs1 H1) as [-> | (gs' & -> & H' & _)].
      * left. reflexivity.
      * right. exists gs'. auto.
Qed.

(** The facts up to the first zero. *)
Lemma first_zero (facts : list price_info) :
  Forall nonnegative_price facts -> Exists zero_price facts ->
  exists before zero after,
    facts = before ++ zero :: after /\
    Forall positive_price before /\ zero_price zero.
Proof.
  induction 1 as [|f facts Hf Hfacts IH]; intros Hz; [inversion Hz|].
  destruct (nonnegative_cases Hf) as [Hzero | Hpos].
  - exists [], f, facts. repeat split; [constructor | exact Hzero].
  - inversion Hz as [? ? Hz' | ? ? Hz']; subst.
    + unfold zero_price in Hz'. rewrite (positive_nonzero Hpos) in Hz'.
      discriminate Hz'.
    + destruct (IH Hz') as (before & zero & after & -> & Hb & Hzero).
      exists (f :: before), zero, after. repeat split; [constructor|]; assumption.
Qed.

Lemma positive_is_nonzero (p : price_info) : positive_price p -> nonzero_price p.
Proof.
  intros H. split.
  - apply nonnegative_not_nan, positive_nonnegative, H.
  - apply positive_nonzero, H.
Qed.

(** The zero opens a cluster behind those of the facts before it. *)
Lemma add_price_first_zero (zero : price_info) (gs : list group) :
  Forall sound_group gs -> Forall (Forall positive_price) gs -> zero_price zero ->
  add_price gs zero = Ok (gs ++ [[zero]]).
Proof.
  intros Hs Hp Hz. unfold add_price.
  destruct (scan_groups_spec zero Hs)
    as [(before & r & ms & after & -> & _ & Hn & _) | [_ ->]]; [|reflexivity].
  apply Forall_app in Hp. destruct Hp as [_ Hp].
  inversion Hp as [|? ? Hg _]; subst. inversion Hg as [|? ? Hr _]; subst.
  rewrite (zero_far Hz Hr) in Hn. discriminate Hn.
Qed.

Lemma cluster_prices_zero (facts : list price_info) :
  Forall nonnegative_price facts -> Exists zero_price facts ->
  (1 < length facts)%nat ->
  cluster_prices facts = Raise ZeroDivisionError
  \/ (exists n clusters,
         cluster_prices facts = Ok clusters /\ zero_behind (S n) clusters).
Proof.
  intros Hnn Hex Hlen.
  destruct (first_zero Hnn Hex) as (before & zero & after & -> & Hb & Hz).
  unfold cluster_prices. rewrite for_each_app.
  assert (Hnz : Forall nonzero_price before)
    by (eapply Forall_impl; [|exact Hb]; apply positive_is_nonzero).
  destruct (cluster_prices_spec Hnz) as (cs & Hcs & Hg & Hs & _).
  unfold cluster_prices in Hcs. rewrite Hcs. cbn [bind for_each].
  assert (Hp : Forall (Forall positive_price) cs)
    by (apply (greedy_clusters_members Hb Hg); constructor).
  rewrite (add_price_first_zero Hs Hp Hz). cbn [bind].
  assert (H0 : zero_behind (length cs) (cs ++ [[zero]]))
    by (exists cs, zero, [], []; repeat split; assumption).
  destruct (for_each_add_price_zero after H0) as [-> | (gs' & -> & H' & Hn)];
    [left; reflexivity|].
  right. destruct (length cs) as [|n] eqn:El.
  - exfalso. destruct after as [|f after].
    + destruct cs; [|discriminate El].
      destruct (cluster_prices_perm _ Hcs) as [Hperm _]. simpl in Hperm.
      apply Permutation_nil in Hperm. subst before. simpl in Hlen. lia.
    + specialize (Hn ltac:(discriminate)). lia.
  - exists n, gs'. split; [reflexivity | exact H'].
Qed.

(** *** The report of clusters with a zero among the representatives *)

Lemma price_ranges_of_nonempty (clusters : list group) :
  Forall (fun g => g <> []) clusters ->
  price_ranges_of clusters = Ok (sorted range_lt (map range_of clusters)).
Proof.
  intros Hs. unfold price_ranges_of.
  rewrite (for_each_collect _ range_of).
  - reflexivity.
  - intros g acc Hg. rewrite Forall_forall in Hs.
    specialize (Hs g Hg). destruct g; [congruence | reflexivity].
Qed.

Lemma report_clusters_zero (cat : category) (n : nat) (clusters : list group) :
  zero_behind (S n) clusters ->
  Forall (fun g => g <> []) clusters ->
  Forall (Forall nonnegative_price) clusters ->
  report_clusters cat clusters = Raise ZeroDivisionError.
Proof.
  intros Hzb Hne Hnn. unfold report_clusters.
  assert (Hzero : exists rep members, In (rep :: members) clusters /\ zero_price rep).
  { destruct Hzb as (before & rep & members & after & -> & _ & _ & Hz).
    exists rep, members. split; [apply in_or_app; right; left; reflexivity | exact Hz]. }
  assert (Hlen : (1 < length clusters)%nat).
  { destruct Hzb as (before & rep & members & after & -> & Hlen & _).
    rewrite length_app. simpl. lia. }
  clear Hzb. destruct Hzero as (rep & members & Hin & Hz).
  destruct (Nat.ltb_spec 1 (length clusters)) as [_ | Hshort]; [|lia].
  rewrite (price_ranges_of_nonempty Hne). cbn [bind].
  set (ranges := map range_of clusters).
  set (srt := sorted range_lt ranges).
  assert (Hdom : Forall (fun r => (0 <=? fst r) = true) ranges).
  { unfold ranges. rewrite Forall_forall. intros r Hr.
    apply in_map_iff in Hr. destruct Hr as [g [<- Hg]].
    rewrite Forall_forall in Hne, Hnn.
    specialize (Hne g Hg). specialize (Hnn g Hg).
    destruct g as [|p g]; [congruence|]. inversion Hnn; subst. assumption. }
  assert (Hsrt_ne : srt <> []).
  { intros E. apply (f_equal (@length _)) in E. unfold srt, ranges in E.
    rewrite sorted_length, length_map in E. simpl in E. lia. }
  destruct (item_first_nonempty Hsrt_ne) as [lo Elo].
  destruct (item_last_nonempty Hsrt_ne) as [hi Ehi].
  rewrite Elo, Ehi. cbn [bind].
  assert (Hd : Forall range_dom ranges).
  { eapply Forall_impl; [|exact Hdom]. intros r Hr. apply nonnegative_not_nan, Hr. }
  assert (Hdsrt : Forall range_dom srt).
  { rewrite Forall_forall in *. intros r Hr. apply sorted_In in Hr. auto. }
  assert (Hsorted : StronglySorted range_le srt).
  { apply sorted_sorted with (dom := range_dom).
    - exact range_le_trans.
    - exact range_lt_le.
    - exact range_nlt_le.
    - exact Hd. }
  destruct (item_first_least range_le_refl Hdsrt Hsorted Elo) as [Hlo_in Hlo].
  assert (Hzero_in : In (range_of (rep :: members)) srt).
  { apply sorted_In. unfold ranges. apply in_map. exact Hin. }
  specialize (Hlo _ Hzero_in). unfold range_le in Hlo. simpl in Hlo.
  assert (Hlo0 : (fst lo =? 0) = true).
  { apply leb_antisym.
    - apply (leb_trans Hlo). apply eqb_leb, Hz.
    - apply sorted_In in Hlo_in. rewrite Forall_forall in Hdom. apply Hdom, Hlo_in. }
  unfold truediv. rewrite Hlo0. reflexivity.
Qed.

End ZeroFacts.

(** ** Matching price lists that hold a zero *)

Module MatchMore.

Import ContentConsistencyAnalyzer FloatOrder ZeroFacts.

Local Open Scope float_scope.

(** The first price of a sorted list with a zero, none below zero. *)
Lemma sorted_head_zero (xs : list float) :
  Forall (fun x => (0 <=? x) = true) xs ->
  Exists (fun x => (x =? 0) = true) xs ->
  exists x0 rest, sorted ltb xs = x0 :: rest /\ (x0 =? 0) = true.
Proof.
  intros Hnn Hex.
  assert (Hd : Forall not_nan xs)
    by (eapply Forall_impl; [|exact Hnn]; intros x; apply nonnegative_not_nan).
  assert (Hsorted : StronglySorted (fun x y => (x <=? y) = true) (sorted ltb xs)).
  { apply sorted_sorted with (dom := not_nan).
    - exact leb_trans.
    - exact ltb_leb.
    - exact leb_total.
    - exact Hd. }
  assert (Hds : Forall not_nan (sorted ltb xs)).
  { rewrite Forall_forall in Hd. rewrite Forall_forall. intros x Hx.
    apply Hd. apply (proj1 (sorted_In ltb x xs)). exact Hx. }
  apply Exists_exists in Hex. destruct Hex as (z & Hz_in & Hz).
  destruct (sorted ltb xs) as [|x0 rest] eqn:E.
  - apply (proj2 (sorted_In ltb z xs)) in Hz_in. rewrite E in Hz_in. destruct Hz_in.
  - exists x0, rest. split; [reflexivity|].
    destruct (item_first_least (le := fun x y => (x <=? y) = true) leb_refl
                               Hds Hsorted eq_refl) as [Hin Hleast].
    apply leb_antisym.
    + apply (leb_trans (y := z)); [|apply eqb_leb, Hz].
      apply Hleast. rewrite <- E. apply (proj2 (sorted_In ltb z xs)), Hz_in.
    + rewrite Forall_forall in Hnn. apply Hnn.
      apply (proj1 (sorted_In ltb x0 xs)). rewrite E. left. reflexivity.
Qed.

Lemma max_zero (x y : float) :
  (x =? 0) = true -> (y =? 0) = true -> (max x y =? 0) = true.
Proof. intros Hx Hy. unfold max. destruct (gtb y x); assumption. Qed.

End MatchMore.

(** ** The analyses only add findings *)

(** A loop that appends what each item gives does not look at what is
    there already. *)
Lemma for_each_accumulate {A B : Type} (g : A -> result (list B))
      (body : list B -> A -> result (list B)) :
  (forall acc x, body acc x = (r <- g x ;; Ok (acc ++ r))) ->
  forall xs acc,
    for_each body xs acc = (rs <- for_each body xs [] ;; Ok (acc ++ rs)).
Proof.
  intros Hbody. induction xs as [|x xs IH]; intros acc; cbn [for_each].
  - cbn [bind]. rewrite app_nil_r. reflexivity.
  - rewrite !Hbody. destruct (g x) as [r|e]; cbn [bind]; [|reflexivity].
    rewrite (IH (acc ++ r)), (IH ([] ++ r)).
    destruct (for_each body xs []) as [rs|e]; cbn [bind]; [|reflexivity].
    rewrite <- app_assoc. reflexivity.
Qed.

Lemma fold_left_accumulate {A B : Type} (h : A -> list B) (xs : list A) :
  forall acc, fold_left (fun acc x => acc ++ h x) xs acc
              = acc ++ fold_left (fun acc x => acc ++ h x) xs [].
Proof.
  induction xs as [|x xs IH]; intros acc; simpl.
  - rewrite app_nil_r. reflexivity.
  - rewrite (IH (acc ++ h x)), (IH (h x)). rewrite <- app_assoc. reflexivity.
Qed.

Module AppendFacts.

Import ContentConsistencyAnalyzer FindingsSpec.

Section Interpreter.
Variable repr_float : float -> pystr.
Variable list_of_float_set : list float -> list float.
Variable list_of_str_set : list pystr -> list pystr.
Variable list_of_str_difference : list pystr -> list pystr -> list pystr.

Lemma find_inconsistencies_appends (groups : list (category * list price_info))
      (acc : list pricing_discrepancy) :
  find_inconsistencies groups acc
  = (new <- find_inconsistencies groups [] ;; Ok (acc ++ new)).
Proof.
  unfold find_inconsistencies.
  apply (for_each_accumulate
           (fun entry =>
              found <- analyze_category (fst entry) (snd entry) ;;
              Ok match found with
                 | Some d => [d]
                 | None => []
                 end)).
  intros acc' entry.
  destruct (analyze_category (fst entry) (snd entry)) as [[d|]|e]; cbn [bind];
    rewrite ?app_nil_r; reflexivity.
Qed.

Lemma pricing_appends (pages : list (pystr * page_data))
      (acc : list pricing_discrepancy) :
  analyze_pricing_consistency pages acc
  = (new <- analyze_pricing_consistency pages [] ;; Ok (acc ++ new)).
Proof.
  unfold analyze_pricing_consistency.
  destruct (group_prices pages) as [groups|e]; cbn [bind]; [|reflexivity].
  apply find_inconsistencies_appends.
Qed.

Lemma package_appends (self : analyzer) :
  analyze_package_consistency repr_float list_of_float_set list_of_str_set self
  = (new <- analyze_package_consistency repr_float list_of_float_set list_of_str_set
                                        (afresh self) ;;
     Ok (package_details_discrepancies (found self) ++ new)).
Proof.
  unfold analyze_package_consistency, afresh, new_analyzer. cbn [data found].
  destruct (collect_package_details (data self)) as [collected|e]; cbn [bind];
    [|reflexivity].
  cbn [package_details_discrepancies].
  rewrite (fold_left_accumulate
             (fun group => check_feature_group repr_float list_of_float_set
                                               list_of_str_set (fst group) (snd group))).
  reflexivity.
Qed.

Lemma compare_appends (pages1 pages2 : list (pystr * page_info))
      (lang1 lang2 : language) (acc : list translation_mismatch) :
  compare_cross_language_consistency list_of_str_difference pages1 pages2 lang1 lang2 acc
  = (new <- compare_cross_language_consistency list_of_str_difference pages1 pages2
                                               lang1 lang2 [] ;;
     Ok (acc ++ new)).
Proof.
  unfold compare_cross_language_consistency.
  apply (for_each_accumulate
           (fun page1 =>
              for_each
                (fun acc page2 =>
                   new <- compare_pages list_of_str_difference lang1 lang2 page1 page2 ;;
                   Ok (acc ++ new))
                pages2 [])).
  intros acc' page1.
  apply (for_each_accumulate
           (fun page2 => compare_pages list_of_str_difference lang1 lang2 page1 page2)).
  intros acc'' page2.
  destruct (compare_pages list_of_str_difference lang1 lang2 page1 page2); reflexivity.
Qed.

Lemma mixed_appends (url : pystr) (info : page_info) (acc : list translation_mismatch) :
  check_mixed_language_consistency url info acc
  = (new <- check_mixed_language_consistency url info [] ;; Ok (acc ++ new)).
Proof.
  unfold check_mixed_language_consistency.
  destruct (filter _ (info_prices info)) as [|e es];
    [cbn [bind]; rewrite app_nil_r; reflexivity|].
  destruct (filter _ (info_prices info)) as [|s ss];
    [cbn [bind]; rewrite app_nil_r; reflexivity|].
  destruct (price_lists_match _ _) as [[|]|]; cbn [bind];
    rewrite ?app_nil_r; reflexivity.
Qed.

Lemma translation_appends (self : analyzer) :
  analyze_translation_consistency list_of_str_difference self
  = (new <- analyze_translation_consistency list_of_str_difference (afresh self) ;;
     Ok (translation_mismatches (found self) ++ new)).
Proof.
  unfold analyze_translation_consistency, afresh, new_analyzer.
  cbn [data found translation_mismatches].
  destruct (partition_pages (data self)) as [pages|e]; cbn [bind]; [|reflexivity].
  rewrite compare_appends.
  destruct (compare_cross_language_consistency _ _ _ _ _ []) as [crossed|e];
    cbn [bind]; [|reflexivity].
  set (body := fun acc (page : pystr * page_info) =>
                 check_mixed_language_consistency (fst page) (snd page) acc).
  assert (Hbody : forall acc page,
             body acc page
             = (r <- check_mixed_language_consistency (fst page) (snd page) [] ;;
                Ok (acc ++ r)))
    by (intros; apply mixed_appends).
  rewrite (for_each_accumulate _ body Hbody (mixed_pages pages)
                               (translation_mismatches (found self) ++ crossed)).
  rewrite (for_each_accumulate _ body Hbody (mixed_pages pages) crossed).
  destruct (for_each body (mixed_pages pages) []) as [mixed|e]; cbn [bind];
    [|reflexivity].
  rewrite app_assoc. reflexivity.
Qed.

Lemma contact_appends (self : analyzer) :
  analyze_contact_consistency list_of_str_set self
  = contact_info_discrepancies (found self)
      ++ analyze_contact_consistency list_of_str_set (afresh self).
Proof.
  unfold analyze_contact_consistency, afresh, new_analyzer. cbn [data found].
  destruct (collect_contacts (data self)) as [phones emails]. reflexivity.
Qed.

End Interpreter.

End AppendFacts.

(** ** The price facts of the pages, by category *)

Module GroupFacts.

Import ContentConsistencyAnalyzer ExtractSpec ExtractFacts ClusterMore GroupSpec.

Lemma dict_append_In {V : Type} (key : category) (x : V)
      (d : list (category * list V)) (k : category) (xs : list V) :
  In (k, xs) (dict_append category_eqb key x d) ->
  In (k, xs) d
  \/ (k = key /\ exists old, xs = old ++ [x] /\ (old = [] \/ In (k, old) d)).
Proof.
  induction d as [|[k' ys] d IH]; simpl.
  - intros [E | []]. injection E as <- <-. right. split; [reflexivity|].
    exists []. auto.
  - destruct (category_eqb key k') eqn:E; simpl.
    + assert (key = k') by (destruct key, k'; (reflexivity || discriminate E)).
      subst k'. intros [E' | Hin]; [|auto].
      injection E' as <- <-. right. split; [reflexivity|].
      exists ys. auto.
    + intros [E' | Hin]; [auto|].
      destruct (IH Hin) as [Hd | (-> & old & -> & [-> | Hold])]; [auto| |].
      * right. split; [reflexivity|]. exists []. auto.
      * right. split; [reflexivity|]. exists old. auto.
Qed.

Lemma filed_fact_more (pages more : list (pystr * page_data)) (cat : category)
      (f : price_info) :
  filed_fact pages cat f -> filed_fact (pages ++ more) cat f.
Proof.
  intros (url & page & n & Hin & Hrest).
  exists url, page, n. split; [apply in_or_app; auto | exact Hrest].
Qed.

Lemma grouped_more (pages more : list (pystr * page_data))
      (groups : list (category * list price_info)) :
  grouped pages groups -> grouped (pages ++ more) groups.
Proof.
  intros [Hnd Hall]. split; [exact Hnd|].
  intros cat facts Hin. destruct (Hall cat facts Hin) as [Hne Hf].
  split; [exact Hne|]. eapply Forall_impl; [|exact Hf].
  intros f. apply filed_fact_more.
Qed.

(** Lines 227-251 for the prices of one page. *)
Lemma file_prices_grouped (pages : list (pystr * page_data)) (url : pystr)
      (page : page_data) (prices : list price) :
  In (url, page) pages ->
  Forall (records (all_text_of page)) prices ->
  forall groups,
    grouped pages groups ->
    grouped pages
      (fold_left
         (fun groups p =>
            dict_append category_eqb (categorize (context p))
              {| pi_url := url;
                 pi_price := value p;
                 pi_original := original p;
                 pi_context := context p;
                 pi_language := detect_language (context p) |}
              groups)
         prices groups).
Proof.
  intros Hpage. induction 1 as [|p prices Hp _ IH]; intros groups Hg; simpl;
    [exact Hg|].
  apply IH. destruct Hg as [Hnd Hall]. split; [apply dict_append_NoDup, Hnd|].
  assert (Hfact : filed_fact pages (categorize (context p))
                    {| pi_url := url;
                       pi_price := value p;
                       pi_original := original p;
                       pi_context := context p;
                       pi_language := detect_language (context p) |}).
  { destruct Hp as (n & Hn & Ho & Hv & Hc).
    exists url, page, n. simpl.
    split; [exact Hpage|]. split; [reflexivity|]. split; [exact Hn|].
    split; [exact Ho|]. split; [exact Hv|]. split; [exact Hc|].
    split; reflexivity. }
  intros cat facts Hin.
  destruct (dict_append_In _ _ _ _ _ Hin) as [Hd | (-> & old & -> & Hold)].
  - apply Hall, Hd.
  - split; [destruct old; discriminate|].
    apply Forall_app. split; [|constructor; [exact Hfact | constructor]].
    destruct Hold as [-> | Hold]; [constructor|].
    apply (Hall _ _ Hold).
Qed.

End GroupFacts.

(** ** The context of a price *)

Module ContextFacts.

Import ContentConsistencyAnalyzer LanguageSpec LanguageFacts.

Lemma lstrip_length (s : pystr) : (length (lstrip s) <= length s)%nat.
Proof.
  induction s as [|c s IH]; simpl; [lia|].
  destruct (isspace c); simpl; lia.
Qed.

Lemma rstrip_length (s : pystr) : (length (rstrip s) <= length s)%nat.
Proof.
  unfold rstrip. rewrite length_rev.
  rewrite <- (length_rev s). apply lstrip_length.
Qed.

Lemma strip_length (s : pystr) : (length (strip s) <= length s)%nat.
Proof.
  unfold strip. pose proof (rstrip_length (lstrip s)). pose proof (lstrip_length s). lia.
Qed.

(** [lstrip] removes a blank prefix. *)
Lemma lstrip_suffix (s : pystr) : exists sp, s = sp ++ lstrip s /\ blank sp.
Proof.
  induction s as [|c s (sp & E & Hsp)]; simpl.
  - exists []. split; [reflexivity | constructor].
  - destruct (isspace c) eqn:Ec.
    + exists (c :: sp). split; [simpl; congruence | constructor; assumption].
    + exists []. split; [reflexivity | constructor].
Qed.

Lemma lstrip_fixed (s : pystr) :
  match s with
  | c :: _ => isspace c = false
  | [] => True
  end -> lstrip s = s.
Proof. destruct s as [|c s]; simpl; [reflexivity|]. intros ->. reflexivity. Qed.

Lemma lstrip_idempotent (s : pystr) : lstrip (lstrip s) = lstrip s.
Proof.
  apply lstrip_fixed.
  destruct (lstrip_head s) as [-> | (c & t & -> & Hc)]; [exact I | exact Hc].
Qed.

Lemma rstrip_idempotent (s : pystr) : rstrip (rstrip s) = rstrip s.
Proof. unfold rstrip. rewrite rev_involutive, lstrip_idempotent. reflexivity. Qed.

(** [rstrip] removes a blank suffix. *)
Lemma rstrip_prefix (s : pystr) : exists sp, s = rstrip s ++ sp /\ blank sp.
Proof.
  unfold rstrip. destruct (lstrip_suffix (rev s)) as (sp & E & Hsp).
  exists (rev sp). split; [|apply blank_rev, Hsp].
  rewrite <- rev_app_distr, <- E, rev_involutive. reflexivity.
Qed.

(** A text that does not start with white space keeps its start. *)
Lemma lstrip_rstrip (s : pystr) : lstrip s = s -> lstrip (rstrip s) = rstrip s.
Proof.
  intros Hs. apply lstrip_fixed.
  destruct (rstrip_prefix s) as (sp & E & Hsp).
  destruct (rstrip s) as [|c r] eqn:Er; [exact I|].
  destruct (isspace c) eqn:Ec; [|reflexivity].
  rewrite E in Hs. simpl in Hs. rewrite Ec in Hs.
  pose proof (lstrip_length (r ++ sp)) as Hlen.
  rewrite Hs in Hlen. simpl in Hlen. lia.
Qed.

Lemma strip_idempotent (s : pystr) : strip (strip s) = strip s.
Proof.
  unfold strip.
  rewrite (lstrip_rstrip (lstrip_idempotent s)).
  apply rstrip_idempotent.
Qed.

Lemma slice_length (s : pystr) (start stop : nat) :
  (length (slice s start stop) <= stop - start)%nat.
Proof. unfold slice. apply firstn_le_length. Qed.

End ContextFacts.

(** ** The buckets of the translation analysis *)

Module BucketFacts.

Import ContentConsistencyAnalyzer ExtractSpec ExtractFacts PartitionFacts BucketSpec.

Lemma dict_set_In {V : Type} (key : pystr) (v : V) (d : list (pystr * V))
      (k : pystr) (x : V) :
  In (k, x) (dict_set PyStr.eqb key v d) -> (k = key /\ x = v) \/ In (k, x) d.
Proof.
  induction d as [|[k' v'] d IH]; simpl.
  - intros [E | []]. injection E as <- <-. auto.
  - destruct (PyStr.eqb key k') eqn:E; simpl.
    + apply pystr_eqb_eq in E. subst k'.
      intros [E' | Hin]; [injection E' as <- <-; auto | auto].
    + intros [E' | Hin]; [auto|]. destruct (IH Hin); auto.
Qed.

Lemma holds_more (l : language) (pages more : list (pystr * page_data))
      (bucket : list (pystr * page_info)) :
  holds l pages bucket -> holds l (pages ++ more) bucket.
Proof.
  intros H url info Hin. destruct (H url info Hin) as (page & Hp & Hrest).
  exists page. split; [apply in_or_app; auto | exact Hrest].
Qed.

Lemma holds_set (l : language) (pages : list (pystr * page_data))
      (bucket : list (pystr * page_info)) (url : pystr) (page : page_data)
      (info : page_info) :
  In (url, page) pages -> page_info_of page = Ok info -> page_language page = l ->
  holds l pages bucket -> holds l pages (dict_set PyStr.eqb url info bucket).
Proof.
  intros Hp Hi Hl H url' info' Hin.
  destruct (dict_set_In _ _ _ _ _ Hin) as [[-> ->] | Hold].
  - exists page. auto.
  - apply H, Hold.
Qed.

Lemma file_page_held (pages : list (pystr * page_data)) (entry : pystr * page_data)
      (info : page_info) (lp : language_pages) :
  page_info_of (snd entry) = Ok info ->
  well_held pages lp ->
  well_held (pages ++ [entry])
            (file_page (fst entry) (page_language (snd entry)) info lp).
Proof.
  intros Hi (He & Hs & Hm).
  assert (Hin : In (fst entry, snd entry) (pages ++ [entry]))
    by (apply in_or_app; right; left; destruct entry; reflexivity).
  pose proof (holds_more [entry] He) as He'.
  pose proof (holds_more [entry] Hs) as Hs'.
  pose proof (holds_more [entry] Hm) as Hm'.
  unfold well_held.
  destruct (page_language (snd entry)) eqn:El; simpl; repeat split;
    try assumption; eapply holds_set; eassumption.
Qed.

Lemma partition_pages_held (pages : list (pystr * page_data)) :
  exists lp, partition_pages pages = Ok lp /\ well_held pages lp /\ filed pages lp.
Proof.
  unfold partition_pages.
  apply (for_each_prefix (fun seen lp => well_held seen lp /\ filed seen lp)).
  - split; [repeat split; intros url info [] |].
    repeat split; simpl; try contradiction; intros [page [[] _]].
  - intros seen entry lp [Hh Hf].
    destruct (page_info_of_total (snd entry)) as [info [Hi _]]. rewrite Hi. cbn [bind].
    eexists. split; [reflexivity|].
    split; [apply file_page_held; assumption | apply file_page_filed; assumption].
Qed.

(** An address names one page. *)
Lemma one_page (pages : list (pystr * page_data)) (url : pystr) (p q : page_data) :
  NoDup (map fst pages) -> In (url, p) pages -> In (url, q) pages -> p = q.
Proof.
  induction pages as [|[u r] pages IH]; simpl; intros Hnd Hp Hq; [contradiction|].
  apply NoDup_cons_iff in Hnd. destruct Hnd as [Hu Hnd].
  destruct Hp as [Ep | Hp], Hq as [Eq | Hq].
  - congruence.
  - injection Ep as -> ->. exfalso. apply Hu.
    apply (in_map fst) in Hq. exact Hq.
  - injection Eq as -> ->. exfalso. apply Hu.
    apply (in_map fst) in Hp. exact Hp.
  - auto.
Qed.

Lemma classified_once (pages : list (pystr * page_data)) (url : pystr)
      (l1 l2 : language) :
  NoDup (map fst pages) ->
  classified l1 pages url -> classified l2 pages url -> l1 = l2.
Proof.
  intros Hnd (p & Hp & <-) (q & Hq & <-).
  rewrite (@one_page pages url p q Hnd Hp Hq). reflexivity.
Qed.

End BucketFacts.

(** ** Sets of feature names *)

Module SetFacts.

Import ContentConsistencyAnalyzer PartitionFacts.

Lemma in_set_In (x : pystr) (s : list pystr) : in_set x s = true <-> In x s.
Proof.
  unfold in_set. rewrite existsb_exists. split.
  - intros (y & Hy & E). apply pystr_eqb_eq in E. subst. exact Hy.
  - intros H. exists x. split; [exact H | apply pystr_eqb_eq; reflexivity].
Qed.

Lemma in_set_dec (x : pystr) (s : list pystr) : In x s \/ ~ In x s.
Proof.
  destruct (in_set x s) eqn:E.
  - left. apply in_set_In, E.
  - right. intros H. apply in_set_In in H. congruence.
Qed.

Lemma make_set_from (xs : list pystr) :
  forall acc,
    NoDup acc ->
    let s := fold_left (fun s x => if in_set x s then s else s ++ [x]) xs acc in
    NoDup s /\ forall x, In x s <-> In x acc \/ In x xs.
Proof.
  induction xs as [|y xs IH]; intros acc Hacc; simpl.
  - split; [exact Hacc | intuition].
  - destruct (in_set y acc) eqn:E.
    + destruct (IH acc Hacc) as [Hnd Hin]. split; [exact Hnd|].
      intros x. rewrite Hin. apply in_set_In in E.
      split; [intuition | intros [H | [<- | H]]; auto].
    + assert (Hy : ~ In y acc) by (intros H; apply in_set_In in H; congruence).
      assert (Hacc' : NoDup (acc ++ [y])).
      { apply NoDup_app; [exact Hacc | constructor; [intros [] | constructor] |].
        intros a Ha [<- | []]. contradiction. }
      destruct (IH _ Hacc') as [Hnd Hin]. split; [exact Hnd|].
      intros x. rewrite Hin, in_app_iff. simpl. intuition.
Qed.

Lemma make_set_spec (xs : list pystr) :
  NoDup (make_set xs) /\ forall x, In x (make_set xs) <-> In x xs.
Proof.
  destruct (make_set_from xs (NoDup_nil _)) as [Hnd Hin].
  split; [exact Hnd|]. intros x. unfold make_set. rewrite Hin. simpl. intuition.
Qed.

Lemma set_intersection_In (a b : list pystr) (x : pystr) :
  In x (set_intersection a b) <-> In x a /\ In x b.
Proof. unfold set_intersection. rewrite filter_In, in_set_In. reflexivity. Qed.

Lemma set_difference_In (a b : list pystr) (x : pystr) :
  In x (set_difference a b) <-> In x a /\ ~ In x b.
Proof.
  unfold set_difference. rewrite filter_In, negb_true_iff.
  split; intros [Ha Hb]; (split; [exact Ha|]).
  - intros H. apply in_set_In in H. congruence.
  - destruct (in_set x b) eqn:E; [|reflexivity].
    exfalso. apply Hb, in_set_In, E.
Qed.

Lemma set_union_In (a b : list pystr) (x : pystr) :
  In x (set_union a b) <-> In x a \/ In x b.
Proof.
  unfold set_union. rewrite in_app_iff, set_difference_In.
  destruct (in_set_dec x a); intuition.
Qed.

Lemma set_union_NoDup (a b : list pystr) :
  NoDup a -> NoDup b -> NoDup (set_union a b).
Proof.
  intros Ha Hb. unfold set_union. apply NoDup_app.
  - exact Ha.
  - unfold set_difference. apply NoDup_filter, Hb.
  - intros x Hx Hd. apply set_difference_In in Hd. tauto.
Qed.

Lemma set_intersection_length (a b : list pystr) :
  NoDup a -> NoDup b ->
  length (set_intersection a b) = length (set_intersection b a).
Proof.
  intros Ha Hb. apply Permutation_length, NoDup_Permutation.
  - unfold set_intersection. apply NoDup_filter, Ha.
  - unfold set_intersection. apply NoDup_filter, Hb.
  - intros x. rewrite !set_intersection_In. tauto.
Qed.

Lemma set_union_length (a b : list pystr) :
  NoDup a -> NoDup b -> length (set_union a b) = length (set_union b a).
Proof.
  intros Ha Hb. apply Permutation_length, NoDup_Permutation.
  - apply set_union_NoDup; assumption.
  - apply set_union_NoDup; assumption.
  - intros x. rewrite !set_union_In. tauto.
Qed.

Lemma similar_features_sym (info1 info2 : page_info) :
  similar_features info1 info2 = similar_features info2 info1.
Proof.
  unfold similar_features, feature_set.
  destruct (make_set_spec (map feature_name (features (info_package_details info1))))
    as [H1 _].
  destruct (make_set_spec (map feature_name (features (info_package_details info2))))
    as [H2 _].
  rewrite (set_intersection_length H1 H2), (set_union_length H1 H2).
  destruct (make_set _), (make_set _); reflexivity.
Qed.

Lemma pystr_eqb_sym (a b : pystr) : PyStr.eqb a b = PyStr.eqb b a.
Proof.
  destruct (PyStr.eqb a b) eqn:E1, (PyStr.eqb b a) eqn:E2; try reflexivity.
  - apply pystr_eqb_eq in E1. subst. rewrite (proj2 (pystr_eqb_eq b b) eq_refl) in E2.
    discriminate E2.
  - apply pystr_eqb_eq in E2. subst. rewrite (proj2 (pystr_eqb_eq a a) eq_refl) in E1.
    discriminate E1.
Qed.

End SetFacts.

(** ** Each fact sits in the first cluster it is near *)

Module SettledFacts.

Import ContentConsistencyAnalyzer ClusterSpec ClusterFacts SettledSpec FloatOrder.

Local Open Scope float_scope.

Lemma ForallOrdPairs_app {A : Type} (R : A -> A -> Prop) (l1 l2 : list A) :
  ForallOrdPairs R (l1 ++ l2)
  <-> ForallOrdPairs R l1 /\ ForallOrdPairs R l2
      /\ Forall (fun x => Forall (R x) l2) l1.
Proof.
  induction l1 as [|x l1 IH]; simpl.
  - split; [intros H; repeat split; [constructor | exact H | constructor] | tauto].
  - split.
    + intros H. inversion H as [|? ? Hx Hrest]; subst.
      apply IH in Hrest. destruct Hrest as (H1 & H2 & H12).
      apply Forall_app in Hx. destruct Hx as [Hx1 Hx2].
      repeat split; [constructor; assumption | assumption | constructor; assumption].
    + intros (H1 & H2 & H12).
      inversion H1 as [|? ? Hx1 H1']; subst. inversion H12 as [|? ? Hx2 H12']; subst.
      constructor; [apply Forall_app; auto | apply IH; auto].
Qed.

Lemma passed_joined (f : price_info) (b g : group) :
  rep_far f b -> passed b g -> passed b (g ++ [f]).
Proof.
  intros (rep & members & -> & Hfar) (rep' & members' & E & Hg).
  injection E as <- <-. exists rep, members. split; [reflexivity|].
  apply Forall_app. split; [exact Hg | constructor; [exact Hfar | constructor]].
Qed.

Lemma passed_same_rep (rep : price_info) (members members' : list price_info)
      (later : group) :
  passed (rep :: members) later -> passed (rep :: members') later.
Proof.
  intros (r & ms & E & H). injection E as <- <-. exists rep, members'. auto.
Qed.

Lemma greedy_insert_settled (f : price_info) (gs gs' : list group) :
  greedy_insert f gs gs' -> settled gs -> settled gs'.
Proof.
  unfold settled.
  intros [before rep members after Hfar _ | ? Hfar] H.
  - apply ForallOrdPairs_app in H. destruct H as (Hb & Hga & Hbga).
    inversion Hga as [|? ? Hg Ha]; subst.
    apply ForallOrdPairs_app. split; [exact Hb|]. split.
    + constructor; [|exact Ha].
      eapply Forall_impl; [|exact Hg]. intros a. apply passed_same_rep.
    + rewrite Forall_forall in *. intros b Hin.
      specialize (Hbga b Hin). inversion Hbga as [|? ? Hbg Hba]; subst.
      constructor; [|exact Hba].
      apply (passed_joined (g := rep :: members)); [apply Hfar, Hin | exact Hbg].
  - apply ForallOrdPairs_app. split; [exact H|].
    split; [constructor; [constructor | constructor]|].
    eapply Forall_impl; [|exact Hfar].
    intros b (rep & members & -> & Hb). constructor; [|constructor].
    exists rep, members. split; [reflexivity|]. constructor; [exact Hb | constructor].
Qed.

Lemma greedy_clusters_settled (facts : list price_info) (gs gs' : list group) :
  greedy_clusters gs facts gs' -> settled gs -> settled gs'.
Proof. induction 1; eauto using greedy_insert_settled. Qed.

(** *** A price is within the tolerance of itself *)

Lemma finite_spec (x : float) :
  is_finite x = true -> (x =? 0) = false ->
  exists s m e, Prim2SF x = S754_finite s m e.
Proof.
  unfold is_finite, is_nan, is_infinity.
  rewrite negb_true_iff, orb_false_iff, negb_false_iff.
  rewrite !eqb_spec, abs_spec.
  change (Prim2SF infinity) with (S754_infinity false).
  change (Prim2SF 0) with (S754_zero false).
  intros [Hnan Hinf] Hz.
  destruct (Prim2SF x) as [s|s| |s m e]; simpl in *; try discriminate.
  eauto.
Qed.

Lemma near_self (x : float) :
  is_finite x = true -> (x =? 0) = false -> near x x = true.
Proof.
  intros Hf Hz. destruct (finite_spec Hf Hz) as (s & m & e & E).
  unfold near, relative_distance.
  rewrite ltb_spec, div_spec, abs_spec, sub_spec, E.
  unfold SF64div, SF64sub, SFsub.
  rewrite Z.sub_diag. cbn [binary_normalize SFabs SFdiv].
  destruct s; vm_compute; reflexivity.
Qed.

End SettledFacts.

(** ** What the contact patterns admit *)

Module ContactFacts.

Import Regex RegexLang RegexFacts ContentConsistencyAnalyzer NumeralFacts ContactSpec.

Lemma lang_star_chr (p : N -> bool) (w : pystr) :
  lang (Star (Chr p)) w -> Forall (fun c => p c = true) w.
Proof.
  remember (Star (Chr p)) as r eqn:Er. intros H.
  induction H; try discriminate; [constructor|].
  injection Er as ->. apply lang_chr_inv in H. destruct H as [c [-> Hc]].
  constructor; [assumption | apply IHlang2; reflexivity].
Qed.

Lemma lang_plus_chr (p : N -> bool) (w : pystr) :
  lang (Plus (Chr p)) w -> Forall (fun c => p c = true) w /\ w <> [].
Proof.
  unfold Plus. intros H. apply lang_seq_inv in H.
  destruct H as (u & v & -> & Hu & Hv).
  apply lang_chr_inv in Hu. destruct Hu as [c [-> Hc]].
  apply lang_star_chr in Hv. split; [constructor; assumption | discriminate].
Qed.

Lemma lang_exact (s w : pystr) : lang (Exact s) w -> w = s.
Proof.
  revert w. induction s as [|c s IH]; intros w H; simpl in H.
  - apply lang_eps_inv, H.
  - apply lang_seq_inv in H. destruct H as (u & v & -> & Hu & Hv).
    apply lang_chr_inv in Hu. destruct Hu as [t [-> Ht]].
    apply N.eqb_eq in Ht. subst t. rewrite (IH v Hv). reflexivity.
Qed.

Lemma lang_boundary_inv (w : pystr) : lang WordBoundary w -> w = [].
Proof. inversion 1; reflexivity. Qed.

Lemma lang_alt_inv (a b : regex) (w : pystr) : lang (Alt a b) w -> lang a w \/ lang b w.
Proof. inversion 1; subst; auto. Qed.

Lemma at_signs_app (u v : pystr) : at_signs (u ++ v) = (at_signs u + at_signs v)%nat.
Proof. apply count_occ_app. Qed.

Lemma at_signs_none (p : N -> bool) (w : pystr) :
  p 64%N = false -> Forall (fun c => p c = true) w -> at_signs w = 0%nat.
Proof.
  intros Hp Hw. unfold at_signs. apply count_occ_not_In.
  intros Hin. rewrite Forall_forall in Hw. specialize (Hw _ Hin). congruence.
Qed.

Lemma digit_count_app (u v : pystr) :
  digit_count (u ++ v) = (digit_count u + digit_count v)%nat.
Proof. unfold digit_count. rewrite filter_app, length_app. reflexivity. Qed.

Lemma digit_count_digits (w : pystr) :
  Forall (fun c => Unicode.is_decimal c = true) w -> digit_count w = length w.
Proof. intros H. unfold digit_count. rewrite (filter_id _ H). reflexivity. Qed.

Lemma digit_count_spaces (w : pystr) :
  Forall (fun c => isspace c = true) w -> digit_count w = 0%nat.
Proof.
  intros H. unfold digit_count.
  induction H as [|c w Hc _ IH]; simpl; [reflexivity|].
  rewrite (CompleteFacts.space_not_digit _ Hc). exact IH.
Qed.

(** The inside of the group of [email_pattern]. *)
Lemma email_body_shaped (a : regex) (w : pystr) :
  email_pattern = Group a -> lang a w -> email_shaped w.
Proof.
  intros E H. injection E as <-.
  apply lang_seq_inv in H. destruct H as (b0 & w0 & -> & Hb0 & H).
  apply lang_boundary_inv in Hb0. subst b0.
  apply lang_seq_inv in H. destruct H as (loc & w1 & -> & Hloc & H).
  apply lang_plus_chr in Hloc. destruct Hloc as [Hloc _].
  apply lang_seq_inv in H. destruct H as (at1 & w2 & -> & Hat & H).
  apply (lang_exact [64%N]) in Hat. subst at1.
  apply lang_seq_inv in H. destruct H as (dom & w3 & -> & Hdom & H).
  apply lang_plus_chr in Hdom. destruct Hdom as [Hdom _].
  apply lang_seq_inv in H. destruct H as (pt & w4 & -> & Hpt & H).
  apply (lang_exact [46%N]) in Hpt. subst pt.
  apply lang_seq_inv in H. destruct H as (t1 & w5 & -> & Ht1 & H).
  apply lang_chr_inv in Ht1. destruct Ht1 as [c1 [-> Hc1]].
  apply lang_seq_inv in H. destruct H as (t2 & w6 & -> & Ht2 & H).
  apply lang_chr_inv in Ht2. destruct Ht2 as [c2 [-> Hc2]].
  apply lang_seq_inv in H. destruct H as (ts & b1 & -> & Hts & Hb1).
  apply lang_star_chr in Hts. apply lang_boundary_inv in Hb1. subst b1.
  assert (Hending : Forall (fun c => tld_char c = true) (c1 :: c2 :: ts))
    by (constructor; [|constructor]; assumption).
  split.
  - rewrite !at_signs_app.
    rewrite (@at_signs_none local_char loc eq_refl Hloc).
    rewrite (@at_signs_none domain_char dom eq_refl Hdom).
    rewrite (@at_signs_none tld_char [c1] eq_refl)
      by (constructor; [exact Hc1 | constructor]).
    rewrite (@at_signs_none tld_char [c2] eq_refl)
      by (constructor; [exact Hc2 | constructor]).
    rewrite (@at_signs_none tld_char ts eq_refl Hts).
    reflexivity.
  - exists (loc ++ [64%N] ++ dom), (c1 :: c2 :: ts).
    split; [|split; [simpl; lia | exact Hending]].
    cbn [app]. rewrite app_nil_r, <- !app_assoc. reflexivity.
Qed.

Lemma emails_shaped (text : pystr) :
  Forall email_shaped (findall email_pattern text).
Proof.
  apply findall_sound; [|reflexivity].
  split; [|exact I || (simpl; tauto)].
  intros w Hw. apply (@email_body_shaped _ w eq_refl Hw).
Qed.

Ltac split_seq H :=
  let u := fresh "u" in
  let v := fresh "v" in
  let Hu := fresh "Hu" in
  apply lang_seq_inv in H; destruct H as (u & v & -> & Hu & H).

(** The three phone patterns. *)
Lemma international_shaped (w : pystr) :
  lang (Seq WordBoundary
          (Seq (Alt (Exact (lit "+94")) (Alt (Exact (lit "0094")) (Exact (lit "0"))))
             (Seq (Star Space)
                (Seq (Repeat 2 2 Digit)
                   (Seq (Star Space) (Seq (Repeat 7 7 Digit) WordBoundary)))))) w ->
  phone_shaped w.
Proof.
  intros H.
  split_seq H. apply lang_boundary_inv in Hu. subst.
  split_seq H. rename Hu into Hprefix, u into prefix.
  split_seq H. apply lang_star_chr, digit_count_spaces in Hu. rename Hu into Hgap1.
  split_seq H. apply lang_repeat_chr in Hu. destruct Hu as [Hd2 Hl2].
  split_seq H. apply lang_star_chr, digit_count_spaces in Hu. rename Hu into Hgap2.
  split_seq H. apply lang_repeat_chr in Hu. destruct Hu as [Hd7 Hl7].
  apply lang_boundary_inv in H. subst.
  unfold phone_shaped. rewrite !digit_count_app.
  rewrite Hgap1, Hgap2, (digit_count_digits Hd2), (digit_count_digits Hd7).
  change (digit_count []) with 0%nat.
  apply lang_alt_inv in Hprefix. destruct Hprefix as [Hp | Hp];
    [|apply lang_alt_inv in Hp; destruct Hp as [Hp | Hp]];
    apply lang_exact in Hp; subst prefix;
    match goal with
    | |- context [digit_count (lit ?s)] =>
        let n := eval vm_compute in (digit_count (lit s)) in
        change (digit_count (lit s)) with n
    end; lia.
Qed.

Lemma dashed_shaped (w : pystr) :
  lang (Seq WordBoundary
          (Seq (Repeat 3 3 Digit)
             (Seq (Exact (lit "-")) (Seq (Repeat 7 7 Digit) WordBoundary)))) w ->
  phone_shaped w.
Proof.
  intros H.
  split_seq H. apply lang_boundary_inv in Hu. subst.
  split_seq H. apply lang_repeat_chr in Hu. destruct Hu as [Hd3 Hl3].
  split_seq H. apply lang_exact in Hu. subst.
  split_seq H. apply lang_repeat_chr in Hu. destruct Hu as [Hd7 Hl7].
  apply lang_boundary_inv in H. subst.
  unfold phone_shaped. rewrite !digit_count_app.
  rewrite (digit_count_digits Hd3), (digit_count_digits Hd7).
  change (digit_count []) with 0%nat.
  change (digit_count (lit "-")) with 0%nat. lia.
Qed.

Lemma plain_shaped (w : pystr) :
  lang (Seq WordBoundary (Seq (Repeat 10 10 Digit) WordBoundary)) w ->
  phone_shaped w.
Proof.
  intros H.
  split_seq H. apply lang_boundary_inv in Hu. subst.
  split_seq H. apply lang_repeat_chr in Hu. destruct Hu as [Hd Hl].
  apply lang_boundary_inv in H. subst.
  unfold phone_shaped. rewrite !digit_count_app, (digit_count_digits Hd).
  change (digit_count []) with 0%nat. lia.
Qed.

Lemma phones_shaped (text : pystr) (pattern : regex) :
  In pattern phone_patterns -> Forall phone_shaped (findall pattern text).
Proof.
  intros Hin. simpl in Hin.
  destruct Hin as [<- | [<- | [<- | []]]];
    (apply findall_sound; [|reflexivity]); (split; [|simpl; tauto]).
  - exact international_shaped.
  - exact dashed_shaped.
  - exact plain_shaped.
Qed.

End ContactFacts.

(** ** Speeds in Mbps *)

Module SpeedFacts.

Import Regex ContentConsistencyAnalyzer SpeedSpec.

(** The first two speed patterns are one pattern: under
    [re.IGNORECASE], [Mbps] and [mbps] match the same texts. *)
Lemma mbps_twice :
  exists mbps other1 other2,
    speed_patterns = [mbps; mbps; other1; other2]
    /\ mbps = Seq decimal_number (Seq (Star Space) (Lit (lit "Mbps"))).
Proof. eexists. eexists. eexists. split; reflexivity. Qed.

Lemma record_speeds_appends (text : pystr) (matches : list pystr) (acc : list speed) :
  record_speeds text acc matches
  = (new <- record_speeds text [] matches ;; Ok (acc ++ new)).
Proof.
  unfold record_speeds.
  apply (for_each_accumulate
           (fun m =>
              v <- float_of_str m ;;
              Ok [ {| speed_value := v; speed_context := get_price_context text m |} ])).
  intros acc' m. destruct (float_of_str m); reflexivity.
Qed.

Lemma record_speeds_each (text : pystr) (matches : list pystr) :
  forall acc out,
    record_speeds text acc matches = Ok out ->
    exists new,
      out = acc ++ new /\
      Forall2 (fun m s => float_of_str m = Ok (speed_value s)
                          /\ speed_context s = get_price_context text m)
              matches new.
Proof.
  unfold record_speeds.
  induction matches as [|m matches IH]; intros acc out H; simpl in H.
  - injection H as <-. exists []. rewrite app_nil_r. split; [reflexivity | constructor].
  - destruct (float_of_str m) as [v|] eqn:E; [|discriminate H]. simpl in H.
    destruct (IH _ _ H) as (new & -> & Hnew).
    eexists. split; [rewrite <- app_assoc; reflexivity|].
    constructor; [split; [exact E | reflexivity] | exact Hnew].
Qed.

End SpeedFacts.

(** ** The findings of the package analysis *)

(** A fold whose step relates the state to the items already seen. *)
Lemma fold_left_prefix {A S : Type} (P : list A -> S -> Prop) (f : S -> A -> S)
      (xs : list A) (s0 : S) :
  P [] s0 ->
  (forall seen x s, P seen s -> P (seen ++ [x]) (f s x)) ->
  P xs (fold_left f xs s0).
Proof.
  intros H0 Hstep.
  assert (H : forall seen s, P seen s -> P (seen ++ xs) (fold_left f xs s)).
  { induction xs as [|x xs IH]; intros seen s Hs; simpl.
    - rewrite app_nil_r. exact Hs.
    - specialize (IH (seen ++ [x]) (f s x) (Hstep _ _ _ Hs)).
      rewrite <- app_assoc in IH. exact IH. }
  apply (H [] s0 H0).
Qed.

Lemma fold_left_flat_map {A B : Type} (h : A -> list B) (xs : list A) :
  forall acc, fold_left (fun acc x => acc ++ h x) xs acc = acc ++ flat_map h xs.
Proof.
  induction xs as [|x xs IH]; intros acc; simpl.
  - rewrite app_nil_r. reflexivity.
  - rewrite IH, <- app_assoc. reflexivity.
Qed.

Module PackageFacts.

Import ContentConsistencyAnalyzer PartitionFacts ExtractFacts BucketFacts SetFacts
       PackageSpec.

Lemma dict_set_NoDup {V : Type} (key : pystr) (v : V) (d : list (pystr * V)) :
  NoDup (map fst d) -> NoDup (map fst (dict_set PyStr.eqb key v d)).
Proof.
  induction d as [|[k' v'] d IH]; simpl; intros Hd.
  - constructor; [intros [] | constructor].
  - apply NoDup_cons_iff in Hd. destruct Hd as [Hk Hd'].
    destruct (PyStr.eqb key k') eqn:E; simpl.
    + constructor; assumption.
    + constructor; [|auto].
      rewrite dict_set_keys. intros [Hkey | Hin]; [|contradiction].
      subst k'. assert (PyStr.eqb key key = true) by (apply pystr_eqb_eq; reflexivity).
      congruence.
Qed.

Lemma dict_append_str_In {V : Type} (key : pystr) (x : V)
      (d : list (pystr * list V)) (k : pystr) (xs : list V) :
  In (k, xs) (dict_append PyStr.eqb key x d) ->
  In (k, xs) d
  \/ (k = key /\ exists old, xs = old ++ [x] /\ (old = [] \/ In (k, old) d)).
Proof.
  induction d as [|[k' ys] d IH]; simpl.
  - intros [E | []]. injection E as <- <-. right. split; [reflexivity|].
    exists []. auto.
  - destruct (PyStr.eqb key k') eqn:E; simpl.
    + apply pystr_eqb_eq in E. subst k'. intros [E' | Hin]; [|auto].
      injection E' as <- <-. right. split; [reflexivity|].
      exists ys. auto.
    + intros [E' | Hin]; [auto|].
      destruct (IH Hin) as [H | (-> & old & -> & [-> | Hold])]; [auto | |].
      * right. split; [reflexivity|]. exists []. auto.
      * right. split; [reflexivity|]. exists old. auto.
Qed.

Lemma collect_package_details_spec (pages : list (pystr * page_data)) :
  exists collected,
    collect_package_details pages = Ok collected /\ collected_from pages collected.
Proof.
  unfold collect_package_details. apply (for_each_prefix collected_from).
  - split; [constructor | intros ? ? ? []].
  - intros seen [url page] collected [Hnd Hall]. cbn [fst snd].
    destruct (extract_package_details_total (all_text_of page)) as [details Hd].
    rewrite Hd. cbn [bind].
    assert (Hkeep : collected_from (seen ++ [(url, page)]) collected).
    { split; [exact Hnd|]. intros u d l Hin.
      destruct (Hall u d l Hin) as (p & Hp & Hrest).
      exists p. split; [apply in_or_app; auto | exact Hrest]. }
    assert (Hset : collected_from
                     (seen ++ [(url, page)])
                     (dict_set PyStr.eqb url
                               (details, detect_language (all_text_of page)) collected)).
    { split; [apply dict_set_NoDup, Hnd|]. intros u d l Hin.
      apply dict_set_In in Hin. destruct Hin as [[-> E] | Hin].
      - injection E as -> ->. exists page.
        split; [apply in_or_app; right; left; reflexivity | auto].
      - destruct (Hall u d l Hin) as (p & Hp & Hrest).
        exists p. split; [apply in_or_app; auto | exact Hrest]. }
    destruct (speeds details), (data_limits details), (features details);
      eexists; (split; [reflexivity|]); assumption.
Qed.

Lemma group_by_features_spec (collected : list (pystr * (package_details * language))) :
  NoDup (map fst collected) -> grouped_from collected (group_by_features collected).
Proof.
  unfold group_by_features.
  apply (fold_left_prefix
           (fun seen groups => NoDup (map fst seen) -> grouped_from seen groups)).
  - intros _ key packages [].
  - intros seen [url [details lang]] groups IH Hnd. cbn [fst snd].
    rewrite map_app in Hnd. cbn [map fst] in Hnd.
    pose proof (NoDup_remove_1 _ _ _ Hnd) as Hnd'. rewrite app_nil_r in Hnd'.
    pose proof (NoDup_remove_2 _ _ _ Hnd) as Hnew. rewrite app_nil_r in Hnew.
    specialize (IH Hnd').
    assert (Hold : forall key packages,
               In (key, packages) groups ->
               NoDup (map pkg_url packages)
               /\ Forall (fun pkg =>
                            exists details0 lang0,
                              In (pkg_url pkg, (details0, lang0))
                                 (seen ++ [(url, (details, lang))])
                              /\ feature_key details0 = key
                              /\ pkg_speeds pkg = speeds details0
                              /\ pkg_data_limits pkg = data_limits details0
                              /\ pkg_language pkg = lang0)
                         packages).
    { intros key packages Hin. destruct (IH key packages Hin) as [H1 H2].
      split; [exact H1|]. eapply Forall_impl; [|exact H2].
      intros pkg (d0 & l0 & Hd0 & Hrest). exists d0, l0.
      split; [apply in_or_app; auto | exact Hrest]. }
    fold (feature_key details).
    destruct (is_empty (feature_key details)); [exact Hold|].
    intros key packages Hin. apply dict_append_str_In in Hin.
    destruct Hin as [Hin | (-> & old & -> & Hcases)]; [apply Hold, Hin|].
    assert (Hthis : exists details0 lang0,
               In (url, (details0, lang0)) (seen ++ [(url, (details, lang))])
               /\ feature_key details0 = feature_key details
               /\ speeds details = speeds details0
               /\ data_limits details = data_limits details0
               /\ lang = lang0).
    { exists details, lang. split; [apply in_or_app; right; left; reflexivity | auto]. }
    destruct Hcases as [-> | Hin].
    + cbn [app map pkg_url]. split; [constructor; [intros [] | constructor]|].
      constructor; [exact Hthis | constructor].
    + destruct (Hold _ _ Hin) as [H1 H2]. rewrite map_app. cbn [map pkg_url].
      split.
      * apply NoDup_app; [exact H1 | constructor; [intros [] | constructor] |].
        intros u Hu [<- | []]. apply Hnew.
        apply in_map_iff in Hu. destruct Hu as (pkg & Eu & Hpkg).
        destruct (IH _ _ Hin) as [_ Hall]. rewrite Forall_forall in Hall.
        destruct (Hall pkg Hpkg) as (d0 & l0 & Hd0 & _).
        rewrite <- Eu. apply in_map_iff. exists (pkg_url pkg, (d0, l0)). auto.
      * apply Forall_app. split; [exact H2|]. constructor; [exact Hthis | constructor].
Qed.

(** More than one distinct float: two of them compare unequal. *)
Lemma make_float_set_from (xs : list float) :
  forall s,
    (1 < length (fold_left (fun s x => if existsb (fun y => x =? y)%float s
                                       then s else s ++ [x]) xs s))%nat ->
    (1 < length s)%nat
    \/ exists a b, In a (s ++ xs) /\ In b (s ++ xs) /\ (a =? b)%float = false.
Proof.
  induction xs as [|x xs IH]; intros s H; simpl in H.
  - auto.
  - destruct (existsb (fun y => (x =? y)%float) s) eqn:E.
    + destruct (IH s H) as [Hs | (a & b & Ha & Hb & Hab)]; [auto|].
      right. exists a, b. rewrite !in_app_iff in *. simpl. intuition.
    + destruct (IH _ H) as [Hs | (a & b & Ha & Hb & Hab)].
      * right. rewrite length_app in Hs. simpl in Hs.
        destruct s as [|y s]; [simpl in Hs; lia|].
        exists x, y. rewrite !in_app_iff. simpl.
        split; [auto|]. split; [auto|].
        simpl in E. apply orb_false_iff in E. apply E.
      * right. exists a, b. rewrite <- app_assoc in Ha, Hb. simpl in Ha, Hb. auto.
Qed.

Lemma make_float_set_varies (xs : list float) :
  (1 < length (make_float_set xs))%nat ->
  exists a b, In a xs /\ In b xs /\ (a =? b)%float = false.
Proof.
  intros H. destruct (make_float_set_from xs [] H) as [Hs | Hv]; [simpl in Hs; lia|].
  exact Hv.
Qed.

Lemma make_set_varies (xs : list pystr) :
  (1 < length (make_set xs))%nat -> exists a b, In a xs /\ In b xs /\ a <> b.
Proof.
  intros H. destruct (make_set_spec xs) as [Hnd Hin].
  destruct (make_set xs) as [|a [|b s]]; [simpl in H; lia | simpl in H; lia |].
  exists a, b. split; [apply Hin; simpl; auto|]. split; [apply Hin; simpl; auto|].
  intros ->. apply NoDup_cons_iff in Hnd. apply (proj1 Hnd). simpl. auto.
Qed.

Section Interpreter.

Variable repr_float : float -> pystr.
Variable list_of_float_set : list float -> list float.
Variable list_of_str_set : list pystr -> list pystr.

Lemma check_feature_group_spec (key : pystr) (packages : list package)
      (d : package_discrepancy) :
  In d (check_feature_group repr_float list_of_float_set list_of_str_set key packages) ->
  finding_key d = key
  /\ finding_packages d = packages
  /\ (2 <= length packages)%nat
  /\ varies repr_float d.
Proof.
  unfold check_feature_group.
  destruct (Nat.ltb_spec 1 (length packages)) as [Hlen | Hlen]; [|intros []].
  intros Hin. apply in_app_or in Hin. destruct Hin as [Hin | Hin].
  - destruct (Nat.ltb_spec 1 (length (make_float_set
        (flat_map (fun pkg => map speed_value (pkg_speeds pkg)) packages))))
      as [Hs | Hs]; [|destruct Hin].
    destruct Hin as [<- | []]. cbn [finding_key finding_packages varies].
    repeat split; [lia|]. apply make_float_set_varies, Hs.
  - destruct (Nat.ltb_spec 1 (length (make_set
        (flat_map (fun pkg => map (data_limit_type repr_float) (pkg_data_limits pkg))
                  packages))))
      as [Hs | Hs]; [|destruct Hin].
    destruct Hin as [<- | []]. cbn [finding_key finding_packages varies].
    repeat split; [lia|]. apply make_set_varies, Hs.
Qed.

Lemma package_findings (self : analyzer) :
  exists new,
    analyze_package_consistency repr_float list_of_float_set list_of_str_set self
    = Ok (package_details_discrepancies (found self) ++ new)
    /\ Forall (fun d => several_pages (data self) d /\ varies repr_float d) new.
Proof.
  unfold analyze_package_consistency.
  destruct (collect_package_details_spec (data self)) as (collected & -> & Hnd & Hall).
  cbn [bind].
  rewrite (fold_left_flat_map
             (fun group => check_feature_group repr_float list_of_float_set
                                               list_of_str_set (fst group) (snd group))).
  eexists. split; [reflexivity|].
  rewrite Forall_forall. intros d Hd.
  apply in_flat_map in Hd. destruct Hd as ([key packages] & Hgroup & Hd).
  cbn [fst snd] in Hd.
  apply check_feature_group_spec in Hd. destruct Hd as (Ek & Ep & Hlen & Hv).
  split; [|exact Hv]. unfold several_pages. rewrite Ek, Ep.
  destruct (@group_by_features_spec collected Hnd _ _ Hgroup) as [Hurls Hpkgs].
  split; [exact Hlen|]. split; [exact Hurls|].
  eapply Forall_impl; [|exact Hpkgs].
  intros pkg (details & lang & Hin & Hkey & Hs & Hl & Hlang).
  destruct (Hall _ _ _ Hin) as (page & Hpage & Hd & Elang).
  exists page, details. repeat split; try assumption. congruence.
Qed.

End Interpreter.

End PackageFacts.

(** ** The findings of the translation analysis *)

(** What a loop of appends ends with comes from one of its items. *)
Lemma for_each_accumulate_In {A B : Type} (g : A -> result (list B))
      (body : list B -> A -> result (list B)) :
  (forall acc x, body acc x = (r <- g x ;; Ok (acc ++ r))) ->
  forall xs acc out,
    for_each body xs acc = Ok out ->
    forall m, In m out <-> In m acc \/ exists x r, In x xs /\ g x = Ok r /\ In m r.
Proof.
  intros Hbody. induction xs as [|x xs IH]; intros acc out H m; cbn [for_each] in H.
  - injection H as <-. split; [auto | intros [H | (x & r & [] & _)]; exact H].
  - rewrite Hbody in H. destruct (g x) as [r|e] eqn:E; cbn [bind] in H; [|discriminate H].
    rewrite (IH _ _ H m), in_app_iff. split.
    + intros [[Hm | Hm] | (y & s & Hy & Es & Hm)].
      * auto.
      * right. exists x, r. simpl. auto.
      * right. exists y, s. simpl. auto.
    + intros [Hm | (y & s & [<- | Hy] & Es & Hm)].
      * auto.
      * left. right. congruence.
      * right. exists y, s. auto.
Qed.

Lemma for_each_all_ok {A B : Type} (g : A -> result (list B))
      (body : list B -> A -> result (list B)) :
  (forall acc x, body acc x = (r <- g x ;; Ok (acc ++ r))) ->
  forall xs acc out,
    for_each body xs acc = Ok out ->
    forall x, In x xs -> exists r, g x = Ok r.
Proof.
  intros Hbody. induction xs as [|x xs IH]; intros acc out H y Hy; [destruct Hy|].
  cbn [for_each] in H. rewrite Hbody in H.
  destruct (g x) as [r|e] eqn:E; cbn [bind] in H; [|discriminate H].
  destruct Hy as [<- | Hy]; [eauto | eapply IH; eassumption].
Qed.

Module MismatchFacts.

Import ContentConsistencyAnalyzer PartitionFacts BucketSpec BucketFacts SetFacts
       MismatchSpec.

Lemma forallb_false {A : Type} (f : A -> bool) (xs : list A) :
  forallb f xs = false -> exists x, In x xs /\ f x = false.
Proof.
  induction xs as [|x xs IH]; simpl; [discriminate|].
  destruct (f x) eqn:E; simpl.
  - intros H. destruct (IH H) as (y & Hy & Ey). eauto.
  - intros _. eauto.
Qed.

Lemma set_eqb_false (a b : list pystr) :
  set_eqb a b = false
  <-> exists f, (In f a /\ ~ In f b) \/ (In f b /\ ~ In f a).
Proof.
  unfold set_eqb. rewrite andb_false_iff. split.
  - intros [H | H]; apply forallb_false in H; destruct H as (f & Hf & E);
      exists f; [left | right]; (split; [exact Hf|]);
      intros Hin; apply in_set_In in Hin; congruence.
  - intros (f & [[Hf Hn] | [Hf Hn]]); [left | right];
      (destruct (forallb _ _) eqn:E; [|reflexivity]); exfalso; apply Hn;
      rewrite forallb_forall in E; apply in_set_In, E, Hf.
Qed.

Lemma feature_set_In (info : page_info) (f : pystr) :
  In f (feature_set info) <-> In f (feature_names info).
Proof. apply make_set_spec. Qed.

Lemma features_differ_sets (info1 info2 : page_info) :
  set_eqb (feature_set info1) (feature_set info2) = false <-> features_differ info1 info2.
Proof.
  rewrite set_eqb_false. unfold features_differ.
  split; intros (f & H); exists f; rewrite !feature_set_In in *; exact H.
Qed.

(** When the sets differ, one of the differences has an element: the
    test of line 456 holds. *)
Lemma differences_not_both_empty (info1 info2 : page_info) :
  features_differ info1 info2 ->
  set_difference (feature_set info2) (feature_set info1) <> []
  \/ set_difference (feature_set info1) (feature_set info2) <> [].
Proof.
  intros (f & [[H1 H2] | [H1 H2]]); [right | left]; intros E;
    assert (Hin : In f []) by (rewrite <- E; apply set_difference_In;
                               rewrite !feature_set_In; auto);
    destruct Hin.
Qed.

Section Interpreter.

Variable list_of_str_difference : list pystr -> list pystr -> list pystr.

Lemma compare_pages_spec (lang1 lang2 : language) (url1 url2 : pystr)
      (info1 info2 : page_info) (out : list translation_mismatch) :
  compare_pages list_of_str_difference lang1 lang2 (url1, info1) (url2, info2) = Ok out ->
  forall m,
    In m out <-> pair_finding list_of_str_difference lang1 lang2 url1 url2 info1 info2 m.
Proof.
  unfold compare_pages, pair_finding.
  fold (price_values info1) (price_values info2)
       (feature_names info1) (feature_names info2).
  destruct (might_be_translations url1 url2 info1 info2);
    [|intros [= <-] m; split; [intros [] | intros [E _]; discriminate E]].
  change (make_set (feature_names info1)) with (feature_set info1).
  change (make_set (feature_names info2)) with (feature_set info2).
  fold (price_finding lang1 lang2 url1 url2 info1 info2).
  fold (feature_finding list_of_str_difference lang1 lang2 url1 url2 info1 info2).
  match goal with
  | |- (_ <- ?pp ;; Ok (_ ++ ?fp)) = _ -> _ =>
      set (price_part := pp); set (feature_part := fp)
  end.
  assert (Hfp : forall m,
             In m feature_part
             <-> m = feature_finding list_of_str_difference lang1 lang2 url1 url2 info1 info2
                 /\ feature_names info1 <> [] /\ feature_names info2 <> []
                 /\ features_differ info1 info2).
  { intros m. subst feature_part.
    destruct (feature_names info1) as [|f1 fs1] eqn:E1;
      [split; [intros [] | intros (_ & H & _); contradiction]|].
    destruct (feature_names info2) as [|f2 fs2] eqn:E2;
      [split; [intros [] | intros (_ & _ & H & _); contradiction]|].
    destruct (set_eqb (feature_set info1) (feature_set info2)) eqn:Es.
    - split; [intros []|]. intros (_ & _ & _ & Hd).
      apply features_differ_sets in Hd. congruence.
    - apply features_differ_sets in Es.
      assert (Hone : forall found : list translation_mismatch,
                 found = [feature_finding list_of_str_difference lang1 lang2 url1 url2
                                          info1 info2] ->
                 In m found
                 <-> m = feature_finding list_of_str_difference lang1 lang2 url1 url2
                                         info1 info2
                     /\ f1 :: fs1 <> [] /\ f2 :: fs2 <> []
                     /\ features_differ info1 info2).
      { intros found ->. split.
        - intros [<- | []]. repeat split; (discriminate || assumption).
        - intros (-> & _). left. reflexivity. }
      destruct (differences_not_both_empty Es) as [Hne | Hne].
      + destruct (set_difference (feature_set info2) (feature_set info1));
          [contradiction | apply Hone; reflexivity].
      + destruct (set_difference (feature_set info2) (feature_set info1));
          [|apply Hone; reflexivity].
        destruct (set_difference (feature_set info1) (feature_set info2));
          [contradiction | apply Hone; reflexivity]. }
  assert (Hpp : forall found,
             price_part = Ok found ->
             forall m,
               In m found
               <-> m = price_finding lang1 lang2 url1 url2 info1 info2
                   /\ price_values info1 <> [] /\ price_values info2 <> []
                   /\ price_lists_match (price_values info1) (price_values info2)
                      = Ok false).
  { intros found Hfound m. subst price_part.
    destruct (price_values info1) as [|p1 ps1] eqn:E1;
      [injection Hfound as <-;
       split; [intros [] | intros (_ & H & _); contradiction]|].
    destruct (price_values info2) as [|p2 ps2] eqn:E2;
      [injection Hfound as <-;
       split; [intros [] | intros (_ & _ & H & _); contradiction]|].
    destruct (price_lists_match (p1 :: ps1) (p2 :: ps2)) as [[|]|e];
      cbn [bind] in Hfound; [| |discriminate Hfound]; injection Hfound as <-.
    - split; [intros [] | intros (_ & _ & _ & H); discriminate H].
    - split.
      + intros [<- | []]. repeat split; discriminate.
      + intros (-> & _). left. reflexivity. }
  destruct price_part as [found|e]; cbn [bind]; [|discriminate].
  intros [= <-] m. rewrite in_app_iff, Hfp, (Hpp found eq_refl m).
  intuition.
Qed.

Lemma compare_cross_spec (pages1 pages2 : list (pystr * page_info))
      (lang1 lang2 : language) (out : list translation_mismatch) :
  compare_cross_language_consistency list_of_str_difference pages1 pages2 lang1 lang2 []
  = Ok out ->
  forall m,
    In m out
    <-> exists url1 info1 url2 info2,
          In (url1, info1) pages1 /\ In (url2, info2) pages2
          /\ pair_finding list_of_str_difference lang1 lang2 url1 url2 info1 info2 m.
Proof.
  unfold compare_cross_language_consistency. intros H m.
  pose (inner := fun page1 : pystr * page_info =>
                   for_each
                     (fun acc page2 =>
                        new <- compare_pages list_of_str_difference lang1 lang2 page1 page2 ;;
                        Ok (acc ++ new))
                     pages2 []).
  assert (Hinner : forall acc page1,
             for_each
               (fun acc page2 =>
                  new <- compare_pages list_of_str_difference lang1 lang2 page1 page2 ;;
                  Ok (acc ++ new))
               pages2 acc
             = (r <- inner page1 ;; Ok (acc ++ r))).
  { intros acc page1. unfold inner.
    apply (for_each_accumulate
             (fun page2 => compare_pages list_of_str_difference lang1 lang2 page1 page2)).
    intros acc' page2. reflexivity. }
  pose proof (for_each_accumulate_In inner _ Hinner _ _ H m) as Hout.
  pose proof (for_each_all_ok inner _ Hinner _ _ H) as Hok.
  rewrite Hout. clear Hout. split.
  - intros [[] | ([url1 info1] & r & H1 & Er & Hm)].
    unfold inner in Er.
    pose proof (for_each_accumulate_In
                  (fun page2 => compare_pages list_of_str_difference lang1 lang2
                                              (url1, info1) page2)
                  _ (fun acc page2 => eq_refl) _ _ Er m) as Hr.
    apply Hr in Hm. destruct Hm as [[] | ([url2 info2] & r2 & H2 & E2 & Hm)].
    exists url1, info1, url2, info2. split; [exact H1|]. split; [exact H2|].
    apply (compare_pages_spec _ _ _ _ _ _ E2), Hm.
  - intros (url1 & info1 & url2 & info2 & H1 & H2 & Hm). right.
    destruct (Hok _ H1) as [r Er]. exists (url1, info1), r.
    split; [exact H1|]. split; [exact Er|]. unfold inner in Er.
    pose proof (for_each_accumulate_In
                  (fun page2 => compare_pages list_of_str_difference lang1 lang2
                                              (url1, info1) page2)
                  _ (fun acc page2 => eq_refl) _ _ Er m) as Hr.
    apply Hr. right.
    destruct (for_each_all_ok
                (fun page2 => compare_pages list_of_str_difference lang1 lang2
                                            (url1, info1) page2)
                _ (fun acc page2 => eq_refl) _ _ Er _ H2) as [r2 E2].
    exists (url2, info2), r2. split; [exact H2|]. split; [exact E2|].
    apply (compare_pages_spec _ _ _ _ _ _ E2), Hm.
Qed.

Lemma check_mixed_spec (url : pystr) (info : page_info)
      (out : list translation_mismatch) :
  check_mixed_language_consistency url info [] = Ok out ->
  forall m, In m out <-> internal_finding url info m.
Proof.
  unfold check_mixed_language_consistency, internal_finding, prices_in.
  fold (context_is English) (context_is Sinhala).
  destruct (filter (context_is English) (info_prices info)) as [|e es];
    [intros [= <-] m; split; [intros [] | intros (_ & H & _); contradiction]|].
  destruct (filter (context_is Sinhala) (info_prices info)) as [|s ss];
    [intros [= <-] m; split; [intros [] | intros (_ & _ & H & _); contradiction]|].
  destruct (price_lists_match _ _) as [[|]|err]; cbn [bind];
    [| |discriminate]; intros [= <-] m.
  - split; [intros [] | intros (_ & _ & _ & H); discriminate H].
  - split.
    + intros [<- | []]. repeat split; discriminate.
    + intros (-> & _). left. reflexivity.
Qed.

Lemma translation_findings (self : analyzer) (out : list translation_mismatch) :
  analyze_translation_consistency list_of_str_difference self = Ok out ->
  exists lp new,
    partition_pages (data self) = Ok lp
    /\ well_held (data self) lp
    /\ (NoDup (map fst (data self)) -> disjoint_buckets lp)
    /\ out = translation_mismatches (found self) ++ new
    /\ forall m, In m new <-> bucket_finding list_of_str_difference lp m.
Proof.
  rewrite AppendFacts.translation_appends.
  unfold analyze_translation_consistency, FindingsSpec.afresh, new_analyzer.
  cbn [data found translation_mismatches].
  destruct (partition_pages_held (data self)) as (lp & Hlp & Hheld & Hfe & Hfs & Hfm).
  rewrite Hlp. cbn [bind].
  destruct (compare_cross_language_consistency _ _ _ _ _ []) as [crossed|e] eqn:Ec;
    cbn [bind]; [|discriminate].
  set (body := fun acc (page : pystr * page_info) =>
                 check_mixed_language_consistency (fst page) (snd page) acc).
  assert (Hbody : forall acc page,
             body acc page
             = (r <- check_mixed_language_consistency (fst page) (snd page) [] ;;
                Ok (acc ++ r)))
    by (intros; apply AppendFacts.mixed_appends).
  destruct (for_each body (mixed_pages lp) crossed) as [new|e] eqn:En;
    cbn [bind]; [|discriminate].
  intros [= <-]. exists lp, new.
  split; [reflexivity|]. split; [exact Hheld|].
  split.
  { intros Hnd url. repeat split; intros [H1 H2];
      first [apply (proj1 (Hfe url)) in H1 | apply (proj1 (Hfs url)) in H1];
      first [apply (proj1 (Hfs url)) in H2 | apply (proj1 (Hfm url)) in H2];
      pose proof (@classified_once (data self) url _ _ Hnd H1 H2) as E;
      discriminate E. }
  split; [reflexivity|].
  intros m.
  rewrite (for_each_accumulate_In _ body Hbody _ _ En m).
  rewrite (compare_cross_spec _ _ _ _ Ec m).
  unfold bucket_finding.
  pose proof (for_each_all_ok _ body Hbody _ _ En) as Hok.
  split.
  - intros [H | ([url info] & r & Hin & Er & Hm)]; [left; exact H|].
    right. exists url, info. split; [exact Hin|].
    apply (check_mixed_spec _ _ Er), Hm.
  - intros [H | (url & info & Hin & Hm)]; [left; exact H|].
    right. destruct (Hok _ Hin) as [r Er]. exists (url, info), r.
    split; [exact Hin|]. split; [exact Er|].
    apply (check_mixed_spec _ _ Er), Hm.
Qed.

End Interpreter.

End MismatchFacts.

(** ** The findings of the contact analysis *)

Module ContactMore.

Import ContentConsistencyAnalyzer ContactSpec ContactFacts SetFacts ContactFindingSpec.

Lemma contact_items_shaped (text : pystr) :
  Forall (fun item => phone_shaped (item_value item)
                      /\ item_context item = get_price_context text (item_value item))
         (phone_numbers (extract_contact_info text))
  /\ Forall (fun item => email_shaped (item_value item)
                         /\ item_context item = get_price_context text (item_value item))
            (email_addresses (extract_contact_info text)).
Proof.
  unfold extract_contact_info. cbn [phone_numbers email_addresses].
  split.
  - rewrite Forall_forall. intros item Hitem.
    apply in_flat_map in Hitem. destruct Hitem as (pattern & Hp & Hitem).
    apply in_map_iff in Hitem. destruct Hitem as (m & <- & Hm).
    split; [|reflexivity]. cbn [item_value].
    pose proof (phones_shaped text Hp) as Hall.
    rewrite Forall_forall in Hall. apply Hall, Hm.
  - rewrite Forall_forall. intros item Hitem.
    apply in_map_iff in Hitem. destruct Hitem as (m & <- & Hm).
    split; [|reflexivity]. cbn [item_value].
    pose proof (emails_shaped text) as Hall.
    rewrite Forall_forall in Hall. apply Hall, Hm.
Qed.

Lemma found_on_more (pages more : list (pystr * page_data)) (shaped : pystr -> Prop)
      (d : contact_detail) :
  found_on pages shaped d -> found_on (pages ++ more) shaped d.
Proof.
  intros (Hs & page & Hin & Hc). split; [exact Hs|].
  exists page. split; [apply in_or_app; auto | exact Hc].
Qed.

Lemma collect_contacts_found (pages : list (pystr * page_data)) :
  Forall (found_on pages phone_shaped) (fst (collect_contacts pages))
  /\ Forall (found_on pages email_shaped) (snd (collect_contacts pages)).
Proof.
  unfold collect_contacts.
  apply (fold_left_prefix
           (fun seen (all_contacts : list contact_detail * list contact_detail) =>
              Forall (found_on seen phone_shaped) (fst all_contacts)
              /\ Forall (found_on seen email_shaped) (snd all_contacts))).
  - split; constructor.
  - intros seen [url page] [phones emails] [Hp He]. cbn [fst snd].
    destruct (contact_items_shaped (all_text_of page)) as [Hphones Hemails].
    split; apply Forall_app; split;
      try (eapply Forall_impl; [|eassumption]; intros d; apply found_on_more).
    + rewrite Forall_forall in *. intros d Hd.
      apply in_map_iff in Hd. destruct Hd as (item & <- & Hitem).
      destruct (Hphones item Hitem) as [Hs Hc].
      split; [exact Hs|]. exists page. cbn [cd_url cd_context cd_value].
      split; [apply in_or_app; right; left; reflexivity | exact Hc].
    + rewrite Forall_forall in *. intros d Hd.
      apply in_map_iff in Hd. destruct Hd as (item & <- & Hitem).
      destruct (Hemails item Hitem) as [Hs Hc].
      split; [exact Hs|]. exists page. cbn [cd_url cd_context cd_value].
      split; [apply in_or_app; right; left; reflexivity | exact Hc].
Qed.

Section Interpreter.

Variable list_of_str_set : list pystr -> list pystr.

Lemma too_many_set (details : list contact_detail) :
  (3 < length (make_set (map cd_value details)))%nat ->
  too_many list_of_str_set (length (make_set (map cd_value details)))
           (list_of_str_set (make_set (map cd_value details))) details.
Proof.
  intros H. exists (make_set (map cd_value details)).
  destruct (make_set_spec (map cd_value details)) as [Hnd Hin].
  repeat split; try assumption; apply Hin.
Qed.

Lemma contact_findings (self : analyzer) :
  exists new,
    analyze_contact_consistency list_of_str_set self
    = contact_info_discrepancies (found self) ++ new
    /\ Forall (contact_finding list_of_str_set (data self)) new
    /\ (length (filter about_phones new) <= 1)%nat
    /\ (length (filter (fun d => negb (about_phones d)) new) <= 1)%nat.
Proof.
  unfold analyze_contact_consistency.
  destruct (collect_contacts_found (data self)) as [Hp He].
  destruct (collect_contacts (data self)) as [phones emails]. cbn [fst snd] in Hp, He.
  eexists. split; [reflexivity|].
  destruct (Nat.ltb_spec 3 (length (make_set (map cd_value phones)))) as [H1 | H1];
    destruct (Nat.ltb_spec 3 (length (make_set (map cd_value emails)))) as [H2 | H2];
    cbn [app filter about_phones negb length];
    (split; [|split; lia]);
    repeat constructor; try assumption; apply too_many_set; assumption.
Qed.

End Interpreter.

End ContactMore.

(** ** The order in which sets are listed *)

(** Loops whose bodies agree give the same result. *)
Lemma for_each_pointwise {A S : Type} (body1 body2 : S -> A -> result S) :
  (forall s x, body1 s x = body2 s x) ->
  forall xs s, for_each body1 xs s = for_each body2 xs s.
Proof.
  intros Hbody. induction xs as [|x xs IH]; intros s; cbn [for_each]; [reflexivity|].
  rewrite Hbody. destruct (body2 s x) as [s'|e]; cbn [bind]; [apply IH | reflexivity].
Qed.

Lemma fold_left_pointwise {A S : Type} (f1 f2 : S -> A -> S) :
  (forall s x, f1 s x = f2 s x) ->
  forall xs s, fold_left f1 xs s = fold_left f2 xs s.
Proof.
  intros Hf. induction xs as [|x xs IH]; intros s; simpl; [reflexivity|].
  rewrite Hf. apply IH.
Qed.

(** Two runs that list every set of strings alike find the same. *)
Module OrderFacts.

Import ContentConsistencyAnalyzer.

Section Interpreter.

Variable repr_float : float -> pystr.
Variable repr_str : pystr -> pystr.
Variable list_of_float_set : list float -> list float.
Variables order1 order2 : list pystr -> list pystr.
Variables difference_order1 difference_order2 : list pystr -> list pystr -> list pystr.

Hypothesis same_order : forall s, order1 s = order2 s.
Hypothesis same_difference_order :
  forall a b, difference_order1 a b = difference_order2 a b.

Lemma check_feature_group_same (key : pystr) (packages : list package) :
  check_feature_group repr_float list_of_float_set order1 key packages
  = check_feature_group repr_float list_of_float_set order2 key packages.
Proof. unfold check_feature_group. rewrite same_order. reflexivity. Qed.

Lemma analyze_package_same (self : analyzer) :
  analyze_package_consistency repr_float list_of_float_set order1 self
  = analyze_package_consistency repr_float list_of_float_set order2 self.
Proof.
  unfold analyze_package_consistency.
  destruct (collect_package_details (data self)) as [collected|e]; cbn [bind];
    [|reflexivity].
  f_equal. apply fold_left_pointwise. intros acc group.
  rewrite check_feature_group_same. reflexivity.
Qed.

Lemma compare_pages_same (lang1 lang2 : language) (page1 page2 : pystr * page_info) :
  compare_pages difference_order1 lang1 lang2 page1 page2
  = compare_pages difference_order2 lang1 lang2 page1 page2.
Proof.
  unfold compare_pages. destruct page1 as [url1 info1], page2 as [url2 info2].
  rewrite !same_difference_order. reflexivity.
Qed.

Lemma compare_cross_same (pages1 pages2 : list (pystr * page_info))
      (lang1 lang2 : language) (acc : list translation_mismatch) :
  compare_cross_language_consistency difference_order1 pages1 pages2 lang1 lang2 acc
  = compare_cross_language_consistency difference_order2 pages1 pages2 lang1 lang2 acc.
Proof.
  unfold compare_cross_language_consistency. revert acc.
  apply for_each_pointwise. intros acc page1. revert acc.
  apply for_each_pointwise. intros acc page2.
  rewrite compare_pages_same. reflexivity.
Qed.

Lemma analyze_translation_same (self : analyzer) :
  analyze_translation_consistency difference_order1 self
  = analyze_translation_consistency difference_order2 self.
Proof.
  unfold analyze_translation_consistency.
  destruct (partition_pages (data self)) as [pages|e]; cbn [bind]; [|reflexivity].
  rewrite compare_cross_same. reflexivity.
Qed.

Lemma analyze_contact_same (self : analyzer) :
  analyze_contact_consistency order1 self = analyze_contact_consistency order2 self.
Proof.
  unfold analyze_contact_consistency.
  destruct (collect_contacts (data self)) as [phones emails].
  rewrite !same_order. reflexivity.
Qed.

Lemma analyze_all_same (self : analyzer) :
  analyze_all_inconsistencies repr_float list_of_float_set order1 difference_order1 self
  = analyze_all_inconsistencies repr_float list_of_float_set order2 difference_order2
                                self.
Proof.
  unfold analyze_all_inconsistencies.
  destruct (analyze_pricing_consistency _ _) as [pricing|e]; cbn [bind]; [|reflexivity].
  rewrite analyze_package_same.
  destruct (analyze_package_consistency _ _ order2 _) as [packages|e]; cbn [bind];
    [|reflexivity].
  rewrite analyze_translation_same.
  destruct (analyze_translation_consistency difference_order2 _) as [translations|e];
    cbn [bind]; [|reflexivity].
  rewrite analyze_contact_same. reflexivity.
Qed.

Lemma run_analysis_same (now : datetime) (path : pystr)
      (pages : list (pystr * page_data)) :
  run_analysis repr_float repr_str list_of_float_set order1 difference_order1
               now path pages
  = run_analysis repr_float repr_str list_of_float_set order2 difference_order2
                 now path pages.
Proof. unfold run_analysis. rewrite analyze_all_same. reflexivity. Qed.

End Interpreter.

End OrderFacts.

(** * The claims of the specification *)

Import ContentConsistencyAnalyzer.

Section PricingClaims.

Import ClusterSpec ClusterFacts TriggerFacts PricingExamples Examples.

Local Open Scope float_scope.

(** C1: for the facts of a category, none of them zero, clustering
    returns and a discrepancy is emitted exactly when there is more than
    one cluster and
    [(max_representative - min_representative) / min_representative > 0.2];
    the facts 1000 (three times) and 1500 (twice), in any order, give
    exactly one discrepancy with the range [Rs. 1000 - Rs. 1500] and the
    difference [50.0%]; and a single cluster gives none. *)
Theorem discrepancy_trigger :
  (forall (cat : category) (facts : list price_info),
      Forall nonzero_price facts ->
      exists clusters found,
        cluster_prices facts = Ok clusters /\
        analyze_category cat facts = Ok found /\
        (found <> None <->
         (1 < length clusters)%nat /\ significant_spread clusters))
  /\ (forall (cat : category) (facts : list price_info),
         Permutation (prices_of facts) triggering_prices ->
         exists d,
           find_inconsistencies [(cat, facts)] [] = Ok [d] /\
           pd_category d = cat /\
           pd_price_range d = lit "Rs. 1000 - Rs. 1500" /\
           pd_difference_percentage d = lit "50.0%")
  /\ (forall (cat : category) (clusters : list group),
         (length clusters <= 1)%nat -> report_clusters cat clusters = Ok None).
Proof.
  split; [|split].
  - intros cat facts Hf.
    destruct (analyze_category_spec cat Hf) as (clusters & found & Hc & _ & Ha & Hiff).
    exists clusters, found. auto.
  - exact triggering_example.
  - exact report_clusters_single.
Qed.

Lemma discrepancy_trigger_witness :
  Forall nonzero_price [fact "a" 1000; fact "b" 1500]
  /\ exists clusters found,
      cluster_prices [fact "a" 1000; fact "b" 1500] = Ok clusters /\
      analyze_category Fiber [fact "a" 1000; fact "b" 1500] = Ok found /\
      (found <> None <->
       (1 < length clusters)%nat /\ significant_spread clusters).
Proof.
  assert (H : Forall nonzero_price [fact "a" 1000; fact "b" 1500])
    by (repeat constructor).
  split; [exact H | exact (proj1 discrepancy_trigger Fiber _ H)].
Defined.

(** C2: the clusters of a category's facts, none of them zero, are those
    of the greedy policy: each fact in turn joins the first cluster, in
    insertion order, whose first member [rep] has
    [|v - rep| / rep < 0.1], that member staying the representative, and
    opens a new cluster when there is none; the facts 1000, 1030 and
    1050, in any order, form one cluster and give no discrepancy. *)
Theorem clustering_is_greedy :
  (forall facts : list price_info,
      Forall nonzero_price facts ->
      exists clusters,
        cluster_prices facts = Ok clusters /\ greedy_clusters [] facts clusters)
  /\ (forall (cat : category) (facts : list price_info),
         Permutation (prices_of facts) close_prices ->
         cluster_prices facts = Ok [facts] /\
         find_inconsistencies [(cat, facts)] [] = Ok []).
Proof.
  split.
  - intros facts Hf.
    destruct (cluster_prices_spec Hf) as (clusters & Hc & Hg & _).
    exists clusters. auto.
  - exact non_triggering_example.
Qed.

Lemma clustering_is_greedy_witness :
  Forall nonzero_price drifting_facts
  /\ exists clusters,
      cluster_prices drifting_facts = Ok clusters /\
      greedy_clusters [] drifting_facts clusters.
Proof.
  assert (H : Forall nonzero_price drifting_facts) by (repeat constructor).
  split; [exact H | exact (proj1 clustering_is_greedy _ H)].
Defined.

(** C3, as stated, fails: 1090 and 910 join the cluster of 1000, and
    their relative distance is not below 0.1, whichever of the two it is
    measured against. *)
Lemma drifting_members_apart :
  cluster_prices drifting_facts = Ok [drifting_facts]
  /\ near (float_of_N 1090) (float_of_N 910) = false
  /\ near (float_of_N 910) (float_of_N 1090) = false.
Proof. repeat split. Qed.

(** C3, amended: in every cluster of facts, none of them zero, each
    member after the first is within the tolerance of the first, the
    representative. *)
Theorem members_near_representative (facts : list price_info) :
  Forall nonzero_price facts ->
  exists clusters,
    cluster_prices facts = Ok clusters /\ Forall anchored clusters.
Proof.
  intros Hf.
  destruct (cluster_prices_spec Hf) as (clusters & Hc & Hg & _).
  exists clusters. split; [assumption|].
  apply (greedy_clusters_anchored Hg). constructor.
Qed.

Lemma members_near_representative_witness :
  Forall nonzero_price drifting_facts
  /\ exists clusters,
      cluster_prices drifting_facts = Ok clusters /\ Forall anchored clusters.
Proof.
  assert (H : Forall nonzero_price drifting_facts) by (repeat constructor).
  split; [exact H | exact (members_near_representative H)].
Defined.

(** C4: the code divides by a representative of zero.  The page text
    [Fiber Rs. 0 or fibre Rs. 500] yields the fiber facts 0 and 500, in
    this order, and the analysis raises [ZeroDivisionError]; so does
    the clustering of any two facts or more whose first is zero. *)
Theorem zero_representative_raises :
  (exists zero other,
      group_prices zero_price_pages = Ok [(Fiber, [zero; other])] /\
      pi_price zero = 0 /\ pi_price other = float_of_N 500 /\
      cluster_prices [zero; other] = Raise ZeroDivisionError)
  /\ analyze_pricing_consistency zero_price_pages [] = Raise ZeroDivisionError
  /\ (forall (first second : price_info) (rest : list price_info),
         (pi_price first =? 0) = true ->
         cluster_prices (first :: second :: rest) = Raise ZeroDivisionError).
Proof.
  split; [|split].
  - eexists. eexists. split; [vm_compute; reflexivity|]. repeat split.
  - vm_compute. reflexivity.
  - intros first second rest Hz.
    assert (Hscan : scan_groups second [[first]] = Raise ZeroDivisionError).
    { simpl. unfold within_tolerance, truediv. rewrite Hz. reflexivity. }
    unfold cluster_prices. cbn [for_each].
    change (add_price [] first) with (Ok [[first]]). cbn [bind].
    unfold add_price at 1. rewrite Hscan. reflexivity.
Qed.

End PricingClaims.

Section ReportClaims.

Import ReportSpec ReportFacts Examples.

(** C5, as stated, fails, in two ways.  Two runs over the same page,
    one second apart, give reports that differ, whatever renders floats
    and strings and orders sets.  And two runs over the same two pages
    at the same second give reports that differ when one lists the set
    [{'fiber', 'wifi'}] in one order and the other in the other order,
    as two interpreters with different hash seeds do. *)
Lemma reports_differ_between_runs :
  (exists text1 text2 : pystr,
      (forall (repr_float : float -> pystr) (repr_str : pystr -> pystr)
              (list_of_float_set : list float -> list float)
              (list_of_str_set : list pystr -> list pystr)
              (list_of_str_difference : list pystr -> list pystr -> list pystr),
          run_analysis repr_float repr_str list_of_float_set list_of_str_set
                       list_of_str_difference
                       morning (lit "data.json") quiet_pages = Ok text1
          /\ run_analysis repr_float repr_str list_of_float_set list_of_str_set
                          list_of_str_difference
                          a_second_later (lit "data.json") quiet_pages = Ok text2)
      /\ nth_error text1 235 = Some 53%N
      /\ nth_error text2 235 = Some 54%N)
  /\ (exists text1 text2 : pystr,
         (forall (repr_float : float -> pystr)
                 (list_of_float_set : list float -> list float)
                 (list_of_str_set : list pystr -> list pystr),
             run_analysis repr_float quoted list_of_float_set list_of_str_set
                          in_order
                          morning (lit "data.json") two_feature_pages = Ok text1
             /\ run_analysis repr_float quoted list_of_float_set list_of_str_set
                             in_reverse
                             morning (lit "data.json") two_feature_pages = Ok text2)
         /\ nth_error text1 610 = Some 102%N
         /\ nth_error text2 610 = Some 119%N).
Proof.
  split.
  - pose (run := fun now =>
                   match run_analysis (fun _ => []) (fun s => s) (fun l => l)
                                      (fun l => l) in_order
                                      now (lit "data.json") quiet_pages with
                   | Ok text => text
                   | Raise _ => []
                   end).
    exists (run morning), (run a_second_later).
    split; [intros; split; vm_compute; reflexivity|].
    split; vm_compute; reflexivity.
  - pose (run := fun difference_order =>
                   match run_analysis (fun _ => []) quoted (fun l => l) (fun l => l)
                                      difference_order
                                      morning (lit "data.json") two_feature_pages with
                   | Ok text => text
                   | Raise _ => []
                   end).
    exists (run in_order), (run in_reverse).
    split; [intros; split; vm_compute; reflexivity|].
    split; vm_compute; reflexivity.
Qed.

(** C5, amended: two runs over the same pages that list every set of
    strings in the same order raise the same exception, or give reports
    that differ in the clock's reading only: the same text before and
    after it, the same items except the fourth, and the same text
    exactly when the two readings print alike. *)
Theorem report_fixed_up_to_clock_and_set_order
        (repr_float : float -> pystr) (repr_str : pystr -> pystr)
        (list_of_float_set : list float -> list float)
        (order1 order2 : list pystr -> list pystr)
        (difference_order1 difference_order2 : list pystr -> list pystr -> list pystr)
        (path : pystr) (pages : list (pystr * page_data)) :
  (forall s, order1 s = order2 s) ->
  (forall a b, difference_order1 a b = difference_order2 a b) ->
  let run1 := run_analysis repr_float repr_str list_of_float_set
                           order1 difference_order1 in
  let run2 := run_analysis repr_float repr_str list_of_float_set
                           order2 difference_order2 in
  (exists e,
      forall now1 now2,
        run1 now1 path pages = Raise e /\ run2 now2 path pages = Raise e)
  \/ (exists self,
         (forall now,
             run1 now path pages
             = Ok (text_before ++ strftime now ++ text_after repr_float repr_str self)
             /\ run2 now path pages
                = Ok (text_before ++ strftime now
                                  ++ text_after repr_float repr_str self))
         /\ (forall now1 now2 i,
                i <> 3%nat ->
                nth_error (report_lines repr_float repr_str now1 self) i
                = nth_error (report_lines repr_float repr_str now2 self) i)
         /\ (forall now1 now2,
                run1 now1 path pages = run2 now2 path pages
                <-> strftime now1 = strftime now2)).
Proof.
  intros Hset Hdiff run1 run2.
  assert (Hsame : forall now, run1 now path pages = run2 now path pages)
    by (intros now; apply OrderFacts.run_analysis_same; assumption).
  unfold run1 in *. clear run1. unfold run2 in *. clear run2.
  unfold run_analysis in *.
  destruct (analyze_all_inconsistencies _ _ order2 _ _) as [self | e]; cbn [bind] in *.
  - right. exists self. split; [|split].
    + intros now. rewrite Hsame, generate_report_shape. split; reflexivity.
    + intros now1 now2 i Hi. apply nth_error_other. assumption.
    + intros now1 now2. rewrite Hsame. split.
      * intros H.
        assert (Hinj : forall a b : pystr, Ok a = Ok b -> a = b)
          by (intros a b E; congruence).
        apply Hinj in H.
        apply (proj1 (generate_report_same repr_float repr_str now1 now2 self) H).
      * intros H. f_equal.
        apply (proj2 (generate_report_same repr_float repr_str now1 now2 self) H).
  - left. exists e. intros now1 now2. rewrite Hsame. split; reflexivity.
Qed.

Lemma report_fixed_up_to_clock_and_set_order_witness :
  let repr_float := fun _ : float => @nil N in
  let order := fun s : list pystr => s in
  let reversed := fun a b : list pystr => rev (in_order a b) in
  let run1 := run_analysis repr_float quoted (fun l => l) order in_reverse in
  let run2 := run_analysis repr_float quoted (fun l => l) order reversed in
  (forall s, order s = order s)
  /\ (forall a b, in_reverse a b = reversed a b)
  /\ ((exists e,
          forall now1 now2,
            run1 now1 (lit "data.json") two_feature_pages = Raise e
            /\ run2 now2 (lit "data.json") two_feature_pages = Raise e)
      \/ (exists self,
             (forall now,
                 run1 now (lit "data.json") two_feature_pages
                 = Ok (text_before ++ strftime now ++ text_after repr_float quoted self)
                 /\ run2 now (lit "data.json") two_feature_pages
                    = Ok (text_before ++ strftime now
                                      ++ text_after repr_float quoted self))
             /\ (forall now1 now2 i,
                    i <> 3%nat ->
                    nth_error (report_lines repr_float quoted now1 self) i
                    = nth_error (report_lines repr_float quoted now2 self) i)
             /\ (forall now1 now2,
                    run1 now1 (lit "data.json") two_feature_pages
                    = run2 now2 (lit "data.json") two_feature_pages
                    <-> strftime now1 = strftime now2))).
Proof.
  intros repr_float order reversed run1 run2.
  assert (H1 : forall s, order s = order s) by reflexivity.
  assert (H2 : forall a b, in_reverse a b = reversed a b) by reflexivity.
  split; [exact H1|]. split; [exact H2|].
  exact (@report_fixed_up_to_clock_and_set_order
           repr_float quoted (fun l => l) order order in_reverse reversed
           (lit "data.json") two_feature_pages H1 H2).
Defined.

End ReportClaims.

Section LanguageClaims.

Import LanguageSpec LanguageFacts ExtractSpec PartitionFacts Examples.




End LanguageClaims.

Section TranslationClaims.

Import FloatOrder MatchFacts Examples.

Local Open Scope float_scope.

(** C8: the count rule pairs a page with prices and a page with none.
    The page [Plan Rs. 100] has one price and the Sinhala page has none;
    their addresses differ and they share no feature, yet
    [might_be_translations] answers [True] for them, and [False] with
    the pages exchanged.  The test of line 476 holds whenever the first
    page has one price and the second has none. *)
Theorem one_sided_count_pairs :
  (exists info1 info2,
      page_info_of english_page = Ok info1 /\
      page_info_of sinhala_page = Ok info2 /\
      length (info_prices info1) = 1%nat /\
      length (info_prices info2) = 0%nat /\
      PyStr.eqb (strip_locale english_url) (strip_locale sinhala_url) = false /\
      similar_features info1 info2 = false /\
      might_be_translations english_url sinhala_url info1 info2 = true /\
      might_be_translations sinhala_url english_url info2 info1 = false)
  /\ (forall info1 info2,
         length (info_prices info1) = 1%nat ->
         length (info_prices info2) = 0%nat ->
         similar_price_counts info1 info2 = true
         /\ similar_price_counts info2 info1 = false).
Proof.
  split.
  - eexists. eexists.
    split; [vm_compute; reflexivity|].
    split; [vm_compute; reflexivity|].
    repeat split.
  - intros info1 info2 H1 H2. unfold similar_price_counts.
    rewrite H1, H2. split; reflexivity.
Qed.

(** C10: on lists of numbers, [price_lists_match] gives the same answer,
    or raises the same exception, with its two lists exchanged,
    whatever the tolerance. *)
Theorem price_lists_match_symmetric (tolerance : float) (a b : list float) :
  Forall not_nan a -> Forall not_nan b ->
  price_lists_match_with tolerance a b = price_lists_match_with tolerance b a.
Proof.
  intros Ha Hb. unfold price_lists_match_with.
  rewrite (Nat.eqb_sym (length b) (length a)).
  destruct (Nat.eqb (length a) (length b)); [|reflexivity]. simpl.
  rewrite (combine_swap (sorted ltb a) (sorted ltb b)).
  symmetry. apply (all_close_swap tolerance).
  apply combine_Forall; apply sorted_Forall; assumption.
Qed.

Lemma price_lists_match_symmetric_witness :
  Forall not_nan [float_of_N 1500; float_of_N 1000]
  /\ Forall not_nan [float_of_N 990; float_of_N 1500]
  /\ price_lists_match_with lit_0_05 [float_of_N 1500; float_of_N 1000]
                            [float_of_N 990; float_of_N 1500]
     = price_lists_match_with lit_0_05 [float_of_N 990; float_of_N 1500]
                              [float_of_N 1500; float_of_N 1000].
Proof.
  assert (Ha : Forall not_nan [float_of_N 1500; float_of_N 1000])
    by (repeat constructor).
  assert (Hb : Forall not_nan [float_of_N 990; float_of_N 1500])
    by (repeat constructor).
  split; [exact Ha | split; [exact Hb | exact (price_lists_match_symmetric lit_0_05 Ha Hb)]].
Defined.

End TranslationClaims.

Section ExtractionClaims.

Import ExtractSpec NumeralSpec NumeralFacts ExtractFacts PriceGrammar CompleteFacts.
Import GreedyFacts.



End ExtractionClaims.

(** * Further properties of the analyses *)

Section PricingProperties.

Import ClusterSpec ClusterFacts ClusterShape ClusterMore Examples.

Local Open Scope float_scope.

(** X1: whenever clustering returns, its clusters hold exactly the
    facts given, each once; no cluster is empty, and there are no more
    clusters than facts. *)
Theorem clusters_partition_facts (facts : list price_info) (clusters : list group) :
  cluster_prices facts = Ok clusters ->
  Permutation (concat clusters) facts
  /\ Forall (fun g => g <> []) clusters
  /\ (length clusters <= length facts)%nat.
Proof.
  intros H. destruct (cluster_prices_perm _ H) as [Hp Hn].
  split; [exact Hp|]. split; [exact Hn|].
  rewrite <- (Permutation_length Hp). apply groups_not_longer, Hn.
Qed.

Lemma clusters_partition_facts_witness :
  cluster_prices drifting_facts = Ok [drifting_facts]
  /\ Permutation (concat [drifting_facts]) drifting_facts
  /\ Forall (fun g : group => g <> []) [drifting_facts]
  /\ (length [drifting_facts] <= length drifting_facts)%nat.
Proof.
  split; [reflexivity|].
  exact (@clusters_partition_facts drifting_facts [drifting_facts] eq_refl).
Defined.

(** X2: among the clusters of facts that are not zero, no
    representative is within the tolerance of the representative of an
    earlier cluster. *)
Theorem representatives_stay_apart (facts : list price_info) :
  Forall nonzero_price facts ->
  exists clusters,
    cluster_prices facts = Ok clusters /\ apart (representatives clusters).
Proof.
  intros Hf. destruct (cluster_prices_spec Hf) as (clusters & Hc & Hg & _).
  exists clusters. split; [exact Hc|].
  apply (greedy_clusters_apart Hg). constructor.
Qed.

Lemma representatives_stay_apart_witness :
  Forall nonzero_price [fact "a" 1000; fact "b" 1500; fact "c" 1010]
  /\ exists clusters,
      cluster_prices [fact "a" 1000; fact "b" 1500; fact "c" 1010] = Ok clusters
      /\ apart (representatives clusters).
Proof.
  assert (H : Forall nonzero_price [fact "a" 1000; fact "b" 1500; fact "c" 1010])
    by (repeat constructor).
  split; [exact H | exact (representatives_stay_apart H)].
Defined.

(** X3: a discrepancy reported for a category names that category and
    lists one occurrence per cluster, in the order of the clusters: the
    address, context and language of the cluster's first fact, its price
    written [Rs. n], and the size of the cluster; the counts add up to
    the number of facts of the category. *)
Theorem discrepancy_lists_every_cluster (cat : category) (facts : list price_info)
        (d : pricing_discrepancy) :
  analyze_category cat facts = Ok (Some d) ->
  exists clusters,
    cluster_prices facts = Ok clusters /\
    (1 < length clusters)%nat /\
    pd_category d = cat /\
    Forall2 occurrence_for clusters (pd_occurrences d) /\
    list_sum (map occ_count (pd_occurrences d)) = length facts.
Proof.
  intros H.
  destruct (analyze_category_lists _ _ H) as (clusters & Hc & Hlen & Hcat & Hocc).
  exists clusters. repeat split; try assumption.
  rewrite (occurrence_counts Hocc).
  apply Permutation_length. apply (cluster_prices_perm _ Hc).
Qed.

Lemma discrepancy_lists_every_cluster_witness :
  exists d,
    analyze_category Fiber [fact "a" 1000; fact "b" 1500; fact "c" 1010] = Ok (Some d)
    /\ exists clusters,
        cluster_prices [fact "a" 1000; fact "b" 1500; fact "c" 1010] = Ok clusters /\
        (1 < length clusters)%nat /\
        pd_category d = Fiber /\
        Forall2 occurrence_for clusters (pd_occurrences d) /\
        list_sum (map occ_count (pd_occurrences d)) = 3%nat.
Proof.
  eexists. split; [vm_compute; reflexivity|].
  apply (@discrepancy_lists_every_cluster
           Fiber [fact "a" 1000; fact "b" 1500; fact "c" 1010]).
  vm_compute. reflexivity.
Defined.

(** X4: the pricing analysis adds to the discrepancies it is given at
    most one for each category, so at most six. *)
Theorem one_discrepancy_per_category
        (pages : list (pystr * page_data)) (before after : list pricing_discrepancy) :
  analyze_pricing_consistency pages before = Ok after ->
  exists new,
    after = before ++ new /\
    NoDup (map pd_category new) /\
    (length new <= 6)%nat.
Proof.
  unfold analyze_pricing_consistency. intros H.
  destruct (group_prices pages) as [groups|] eqn:Eg; [|discriminate H]. simpl in H.
  destruct (find_inconsistencies_categories _ _ H) as (new & -> & _ & Hnd).
  specialize (Hnd (group_prices_NoDup _ Eg)).
  exists new. split; [reflexivity|]. split; [exact Hnd|].
  rewrite <- (length_map pd_category).
  apply (NoDup_incl_length (l' := all_categories) Hnd).
  intros c _. destruct c; simpl; auto 7.
Qed.

Lemma one_discrepancy_per_category_witness :
  exists after,
    analyze_pricing_consistency two_price_pages [] = Ok after
    /\ exists new,
        after = [] ++ new /\ NoDup (map pd_category new) /\ (length new <= 6)%nat.
Proof.
  eexists. split; [vm_compute; reflexivity|].
  apply (@one_discrepancy_per_category two_price_pages []).
  vm_compute. reflexivity.
Defined.

End PricingProperties.

Section LanguageProperties.

Import LanguageSpec LanguageFacts LanguageMore Examples.

Local Open Scope float_scope.


(** X6: the classifier of [DiscrepancyAnalyzer] answers [unknown]
    exactly on texts made of the character U+0020 only (the empty text
    among them), and otherwise [sinhala], [english] or [mixed]: [mixed]
    for a text without any Sinhala or ASCII letter, [sinhala] for
    Sinhala letters only, [english] for ASCII letters only. *)
Theorem page_classifier_verdicts (text : pystr) :
  (DiscrepancyAnalyzer.detect_language text = Unknown
   <-> Forall (fun c => c = 32%N) text)
  /\ In (DiscrepancyAnalyzer.detect_language text) [Unknown; Sinhala; English; Mixed]
  /\ (~ Forall (fun c => c = 32%N) text ->
      sinhala_count text = 0%N -> english_count text = 0%N ->
      DiscrepancyAnalyzer.detect_language text = Mixed)
  /\ (text <> [] -> Forall (fun c => is_sinhala c = true) text ->
      DiscrepancyAnalyzer.detect_language text = Sinhala)
  /\ (text <> [] -> Forall (fun c => is_english c = true) text ->
      DiscrepancyAnalyzer.detect_language text = English).
Proof.
  unfold DiscrepancyAnalyzer.detect_language, sinhala_count, english_count.
  destruct text as [|c text].
  { cbn [is_empty]. split; [split; [constructor | reflexivity]|].
    split; [simpl; auto|].
    split; [intros H; exfalso; apply H; constructor|].
    split; intros H; congruence. }
  cbn [is_empty].
  set (t := c :: text).
  destruct (DiscrepancyAnalyzer.count_non_blank t =? 0)%N eqn:E.
  - apply N.eqb_eq in E. pose proof (proj1 (count_non_blank_zero t) E) as Hall.
    split; [tauto|]. split; [simpl; auto|]. split; [contradiction|].
    split; intros _ Hs; exfalso; inversion Hall as [|? ? Hc _]; inversion Hs as [|? ? Hc' _];
      subst; discriminate Hc'.
  - apply N.eqb_neq in E.
    assert (Hnot : ~ Forall (fun c => c = 32%N) t)
      by (rewrite <- count_non_blank_zero; exact E).
    split; [|split; [|split; [|split]]].
    + split; [|contradiction].
      destruct (gtb _ lit_0_1); [destruct (gtb _ _)|destruct (gtb _ lit_0_5)]; discriminate.
    + destruct (gtb _ lit_0_1); [destruct (gtb _ _)|destruct (gtb _ lit_0_5)];
        simpl; auto.
    + intros _ -> ->. unfold int_truediv.
      destruct (DiscrepancyAnalyzer.count_non_blank t); [congruence | reflexivity].
    + intros _ Hs.
      rewrite (count_chars_all _ Hs).
      rewrite count_chars_none
        by (eapply Forall_impl; [|exact Hs]; apply sinhala_not_english).
      rewrite count_non_blank_all
        by (eapply Forall_impl; [|exact Hs]; apply sinhala_not_blank).
      unfold t. cbn [length N.of_nat]. unfold int_truediv.
      rewrite of_ratio_same. reflexivity.
    + intros _ He.
      rewrite (count_chars_all _ He).
      rewrite count_chars_none
        by (eapply Forall_impl; [|exact He]; apply english_not_sinhala).
      rewrite count_non_blank_all
        by (eapply Forall_impl; [|exact He]; apply english_not_blank).
      unfold t. cbn [length N.of_nat]. unfold int_truediv.
      rewrite of_ratio_same. reflexivity.
Qed.

End LanguageProperties.

Section ZeroProperties.

Import ClusterSpec ClusterMore ZeroSpec ZeroFacts Examples.

Local Open Scope float_scope.

(** X7: a category with two facts or more, none below zero and one of
    them zero, always ends in [ZeroDivisionError]: at line 267 when a
    later fact is measured against the zero, and otherwise at line 284,
    where the zero is the smallest representative. *)
Theorem zero_price_stops_category (cat : category) (facts : list price_info) :
  Forall nonnegative_price facts -> Exists zero_price facts ->
  (1 < length facts)%nat ->
  analyze_category cat facts = Raise ZeroDivisionError.
Proof.
  intros Hnn Hex Hlen. unfold analyze_category.
  destruct (Nat.ltb_spec 1 (length facts)) as [_ | Hshort]; [|lia].
  destruct (cluster_prices_zero Hnn Hex Hlen) as [-> | (n & clusters & Hc & Hz)];
    [reflexivity|].
  rewrite Hc. cbn [bind].
  destruct (cluster_prices_perm _ Hc) as [Hperm Hne].
  apply (report_clusters_zero cat Hz Hne).
  rewrite Forall_forall. intros g Hg. rewrite Forall_forall. intros p Hp.
  rewrite Forall_forall in Hnn. apply Hnn.
  apply (Permutation_in _ Hperm). apply in_concat. exists g. auto.
Qed.

Lemma zero_price_stops_category_witness :
  Forall nonnegative_price [fact "a" 500; fact "b" 0]
  /\ Exists zero_price [fact "a" 500; fact "b" 0]
  /\ (1 < length [fact "a" 500; fact "b" 0])%nat
  /\ analyze_category Fiber [fact "a" 500; fact "b" 0] = Raise ZeroDivisionError.
Proof.
  assert (Hnn : Forall nonnegative_price [fact "a" 500; fact "b" 0])
    by (repeat constructor).
  assert (Hex : Exists zero_price [fact "a" 500; fact "b" 0])
    by (right; left; reflexivity).
  assert (Hlen : (1 < length [fact "a" 500; fact "b" 0])%nat) by (simpl; lia).
  split; [exact Hnn | split; [exact Hex | split; [exact Hlen|]]].
  exact (zero_price_stops_category Fiber Hnn Hex Hlen).
Defined.

End ZeroProperties.

Section MatchingProperties.

Import FloatOrder MatchMore.

Local Open Scope float_scope.

(** X8: two price lists of one length, without a price below zero and
    each with a zero, cannot be compared: the zeros come first in both
    sorted lists, and line 500 divides by [max(0, 0)]. *)
Theorem zero_prices_stop_matching (tolerance : float) (prices1 prices2 : list float) :
  length prices1 = length prices2 ->
  Forall (fun x => (0 <=? x) = true) prices1 ->
  Forall (fun x => (0 <=? x) = true) prices2 ->
  Exists (fun x => (x =? 0) = true) prices1 ->
  Exists (fun x => (x =? 0) = true) prices2 ->
  price_lists_match_with tolerance prices1 prices2 = Raise ZeroDivisionError.
Proof.
  intros Hlen Hn1 Hn2 Hz1 Hz2. unfold price_lists_match_with.
  rewrite Hlen, Nat.eqb_refl. cbn [negb].
  destruct (sorted_head_zero Hn1 Hz1) as (x1 & rest1 & -> & Hx1).
  destruct (sorted_head_zero Hn2 Hz2) as (x2 & rest2 & -> & Hx2).
  cbn [combine all_close]. unfold truediv.
  rewrite (max_zero Hx1 Hx2). reflexivity.
Qed.

Lemma zero_prices_stop_matching_witness :
  length [float_of_N 100; float_of_N 0] = length [float_of_N 0; float_of_N 120]
  /\ Forall (fun x => (0 <=? x) = true) [float_of_N 100; float_of_N 0]
  /\ Forall (fun x => (0 <=? x) = true) [float_of_N 0; float_of_N 120]
  /\ Exists (fun x => (x =? 0) = true) [float_of_N 100; float_of_N 0]
  /\ Exists (fun x => (x =? 0) = true) [float_of_N 0; float_of_N 120]
  /\ price_lists_match_with lit_0_05 [float_of_N 100; float_of_N 0]
                            [float_of_N 0; float_of_N 120]
     = Raise ZeroDivisionError.
Proof.
  assert (Hn1 : Forall (fun x => (0 <=? x) = true) [float_of_N 100; float_of_N 0])
    by (repeat constructor).
  assert (Hn2 : Forall (fun x => (0 <=? x) = true) [float_of_N 0; float_of_N 120])
    by (repeat constructor).
  assert (Hz1 : Exists (fun x => (x =? 0) = true) [float_of_N 100; float_of_N 0])
    by (right; left; reflexivity).
  assert (Hz2 : Exists (fun x => (x =? 0) = true) [float_of_N 0; float_of_N 120])
    by (left; reflexivity).
  split; [reflexivity|]. split; [exact Hn1|]. split; [exact Hn2|].
  split; [exact Hz1|]. split; [exact Hz2|].
  exact (@zero_prices_stop_matching lit_0_05 [float_of_N 100; float_of_N 0]
           [float_of_N 0; float_of_N 120] eq_refl Hn1 Hn2 Hz1 Hz2).
Defined.

End MatchingProperties.

Section FindingsProperties.

Import FindingsSpec AppendFacts.

(** X9: the four analyses only add to the findings of the analyzer, and
    what they add does not depend on the findings already there: the
    result is that of an analyzer just built on the same pages, put
    after the earlier findings.  So a second call of
    [analyze_all_inconsistencies] on the same analyzer reports every
    finding once more. *)
Theorem analyses_only_add :
  (forall (repr_float : float -> pystr)
          (list_of_float_set : list float -> list float)
          (list_of_str_set : list pystr -> list pystr)
          (list_of_str_difference : list pystr -> list pystr -> list pystr)
          (self : analyzer),
      analyze_all_inconsistencies repr_float list_of_float_set list_of_str_set
                                  list_of_str_difference self
      = (fresh <- analyze_all_inconsistencies repr_float list_of_float_set
                                              list_of_str_set list_of_str_difference
                                              (afresh self) ;;
         Ok (with_findings self (found fresh))))
  /\ (forall (repr_float : float -> pystr)
             (list_of_float_set : list float -> list float)
             (list_of_str_set : list pystr -> list pystr)
             (list_of_str_difference : list pystr -> list pystr -> list pystr)
             (self once : analyzer),
         analyze_all_inconsistencies repr_float list_of_float_set list_of_str_set
                                     list_of_str_difference (afresh self) = Ok once ->
         analyze_all_inconsistencies repr_float list_of_float_set list_of_str_set
                                     list_of_str_difference once
         = Ok (with_findings once (found once))).
Proof.
  assert (Hadd : forall repr_float list_of_float_set list_of_str_set
                        list_of_str_difference self,
             analyze_all_inconsistencies repr_float list_of_float_set
                                         list_of_str_set list_of_str_difference self
             = (fresh <- analyze_all_inconsistencies repr_float list_of_float_set
                                                     list_of_str_set
                                                     list_of_str_difference
                                                     (afresh self) ;;
                Ok (with_findings self (found fresh)))).
  { intros rf fo so sd self. unfold analyze_all_inconsistencies.
    cbn [afresh new_analyzer data found json_file_path pricing_discrepancies
         package_details_discrepancies translation_mismatches
         contact_info_discrepancies].
    rewrite pricing_appends.
    destruct (analyze_pricing_consistency (data self) []) as [pricing|e]; cbn [bind];
      [|reflexivity].
    rewrite (package_appends rf fo so), (translation_appends sd), (contact_appends so).
    rewrite (package_appends rf fo so
               {| json_file_path := json_file_path self; data := data self;
                  found := {| pricing_discrepancies := pricing;
                              package_details_discrepancies := [];
                              translation_mismatches := [];
                              contact_info_discrepancies := [] |} |}).
    rewrite (translation_appends sd
               {| json_file_path := json_file_path self; data := data self;
                  found := {| pricing_discrepancies := pricing;
                              package_details_discrepancies := [];
                              translation_mismatches := [];
                              contact_info_discrepancies := [] |} |}).
    rewrite (contact_appends so
               {| json_file_path := json_file_path self; data := data self;
                  found := {| pricing_discrepancies := pricing;
                              package_details_discrepancies := [];
                              translation_mismatches := [];
                              contact_info_discrepancies := [] |} |}).
    unfold afresh, new_analyzer.
    cbn [data found json_file_path pricing_discrepancies
         package_details_discrepancies translation_mismatches
         contact_info_discrepancies].
    destruct (analyze_package_consistency rf fo so _) as [packages|e]; cbn [bind];
      [|reflexivity].
    destruct (analyze_translation_consistency sd _) as [translations|e]; cbn [bind];
      [|reflexivity].
    reflexivity. }
  split; [exact Hadd|].
  intros rf fo so sd self once Honce.
  rewrite Hadd.
  assert (Hsame : afresh once = afresh self).
  { unfold analyze_all_inconsistencies in Honce.
    destruct (analyze_pricing_consistency _ _); [|discriminate Honce].
    cbn [bind] in Honce.
    destruct (analyze_package_consistency _ _ _ _); [|discriminate Honce].
    cbn [bind] in Honce.
    destruct (analyze_translation_consistency _ _); [|discriminate Honce].
    cbn [bind] in Honce. injection Honce as <-. reflexivity. }
  rewrite Hsame, Honce. reflexivity.
Qed.

End FindingsProperties.

Section GroupingProperties.

Import ExtractFacts GroupSpec GroupFacts.

(** X10: the grouping of lines 214-251 never raises; it holds every
    category at most once and no empty group, and every fact of a group
    is a numeral found on one of the pages, with that page's address,
    the numeral's value, its context on the page, the language of the
    context, and the group's category as the category of the context. *)
Theorem price_groups_well_formed (pages : list (pystr * page_data)) :
  exists groups,
    group_prices pages = Ok groups /\
    NoDup (map fst groups) /\
    forall cat facts,
      In (cat, facts) groups ->
      facts <> [] /\ Forall (filed_fact pages cat) facts.
Proof.
  change (exists groups, group_prices pages = Ok groups /\ grouped pages groups).
  unfold group_prices. apply (for_each_prefix grouped).
  - split; [constructor | intros cat facts []].
  - intros seen entry groups Hg.
    destruct (extract_prices_sound (all_text_of (snd entry))) as (prices & -> & Hp).
    cbn [bind]. eexists. split; [reflexivity|].
    apply file_prices_grouped with (page := snd entry).
    + apply in_or_app. right. left. destruct entry; reflexivity.
    + exact Hp.
    + apply grouped_more, Hg.
Qed.

End GroupingProperties.

Section ContextProperties.

Import ContextFacts.

(** X11: the context of a price is never longer than the price and 106
    characters more (fifty on each side and two ellipses), it is a
    stripped text (stripping it again changes nothing), and it is empty
    when the price, lower-cased, does not occur in the lower-cased
    text. *)
Theorem price_context_shape (text price : pystr) :
  (length (get_price_context text price) <= length price + 106)%nat
  /\ strip (get_price_context text price) = get_price_context text price
  /\ (find (Unicode.lower price) (Unicode.lower text) = None ->
      get_price_context text price = []).
Proof.
  unfold get_price_context.
  destruct (find (Unicode.lower price) (Unicode.lower text)) as [price_index|];
    [|split; [simpl; lia | split; reflexivity]].
  split; [|split; [apply strip_idempotent | discriminate]].
  set (start := (price_index - 50)%nat).
  set (stop := Nat.min (length text) (price_index + length price + 50)).
  pose proof (slice_length text start stop) as Hslice.
  assert (Hwindow : (stop - start <= length price + 100)%nat) by (unfold start, stop; lia).
  eapply Nat.le_trans; [apply strip_length|].
  destruct (Nat.ltb 0 start), (Nat.ltb stop (length text));
    rewrite ?length_app; simpl; lia.
Qed.

End ContextProperties.

Section BucketProperties.

Import ExtractSpec PartitionFacts BucketSpec BucketFacts Examples.

(** X12: the partition of the translation analysis never raises; every
    entry of a bucket is the extraction ([text], [prices],
    [package_details]) of a page with that address whose text
    [detect_language] puts in the bucket's language; and when no address
    occurs twice among the pages, no address is in two buckets. *)
Theorem buckets_hold_their_pages (pages : list (pystr * page_data)) :
  exists lp,
    partition_pages pages = Ok lp
    /\ holds English pages (english_pages lp)
    /\ holds Sinhala pages (sinhala_pages lp)
    /\ holds Mixed pages (mixed_pages lp)
    /\ (NoDup (map fst pages) -> disjoint_buckets lp).
Proof.
  destruct (partition_pages_held pages) as (lp & Hlp & (He & Hs & Hm) & Hfe & Hfs & Hfm).
  exists lp. split; [exact Hlp|]. split; [exact He|]. split; [exact Hs|].
  split; [exact Hm|].
  intros Hnd url. repeat split; intros [H1 H2];
    first [apply (proj1 (Hfe url)) in H1 | apply (proj1 (Hfs url)) in H1];
    first [apply (proj1 (Hfs url)) in H2 | apply (proj1 (Hfm url)) in H2];
    pose proof (@classified_once pages url _ _ Hnd H1 H2) as E; discriminate E.
Qed.

End BucketProperties.

Section PairingProperties.

Import SetFacts Examples.

(** X13: of the three rules of [might_be_translations], the comparison
    of addresses and the overlap of features do not depend on the order
    of the two pages; the answer can change with the order only when
    exactly one of the pages has no price. *)
Theorem pairing_symmetric_given_prices (url1 url2 : pystr) (info1 info2 : page_info) :
  (info_prices info1 = [] <-> info_prices info2 = []) ->
  might_be_translations url1 url2 info1 info2
  = might_be_translations url2 url1 info2 info1.
Proof.
  intros Hprices. unfold might_be_translations.
  rewrite (pystr_eqb_sym (strip_locale url1) (strip_locale url2)).
  rewrite (similar_features_sym info1 info2).
  assert (Hcounts : similar_price_counts info1 info2 = similar_price_counts info2 info1).
  { unfold similar_price_counts, abs_diff.
    rewrite (Nat.add_comm (_ - _) (_ - _)). f_equal.
    destruct (info_prices info1) as [|p1 ps1], (info_prices info2) as [|p2 ps2];
      try reflexivity.
    - destruct Hprices as [H _]. specialize (H eq_refl). discriminate H.
    - destruct Hprices as [_ H]. specialize (H eq_refl). discriminate H. }
  rewrite Hcounts. reflexivity.
Qed.

Lemma pairing_symmetric_given_prices_witness :
  let one := offering [100%N] ["fiber"%string] in
  let two := offering [100%N; 200%N] ["adsl"%string] in
  (info_prices one = [] <-> info_prices two = [])
  /\ might_be_translations fiber_url adsl_url one two
     = might_be_translations adsl_url fiber_url two one
  /\ might_be_translations fiber_url adsl_url one two = true
  /\ similar_features one two = false.
Proof.
  intros one two.
  assert (H : info_prices one = [] <-> info_prices two = [])
    by (split; intros E; discriminate E).
  split; [exact H|].
  split; [exact (pairing_symmetric_given_prices fiber_url adsl_url one two H)|].
  split; vm_compute; reflexivity.
Defined.

End PairingProperties.

Section SettledProperties.

Import ClusterSpec ClusterFacts SettledSpec SettledFacts Examples.

Local Open Scope float_scope.

(** X14: among the clusters of facts with finite prices other than
    zero, every fact sits in the first cluster whose representative it
    is near: it is within the tolerance of the representative of its own
    cluster and out of the tolerance of the representative of every
    cluster before.  So two facts of the same price are never in two
    clusters. *)
Theorem facts_sit_in_first_near_cluster (facts : list price_info) :
  Forall plain_price facts ->
  exists clusters,
    cluster_prices facts = Ok clusters
    /\ Forall anchored clusters
    /\ settled clusters
    /\ forall before g after p g' q,
        clusters = before ++ g :: after ->
        In p g -> In g' after -> In q g' -> pi_price q <> pi_price p.
Proof.
  intros Hplain.
  assert (Hnz : Forall nonzero_price facts).
  { eapply Forall_impl; [|exact Hplain]. intros p [Hf Hz]. split; [|exact Hz].
    unfold is_finite in Hf. apply negb_true_iff, orb_false_iff in Hf. apply Hf. }
  destruct (cluster_prices_spec Hnz) as (clusters & Hc & Hg & _).
  assert (Ha : Forall anchored clusters)
    by (apply (greedy_clusters_anchored Hg); constructor).
  assert (Hs : settled clusters)
    by (apply (greedy_clusters_settled Hg); constructor).
  assert (Hm : Forall (Forall plain_price) clusters)
    by (apply (greedy_clusters_members Hplain Hg); constructor).
  exists clusters. split; [exact Hc|]. split; [exact Ha|]. split; [exact Hs|].
  intros before g after p g' q -> Hp Hg' Hq Hsame.
  apply ForallOrdPairs_app in Hs. destruct Hs as (_ & Hga & _).
  inversion Hga as [|? ? Hpassed _]; subst.
  rewrite Forall_forall in Hpassed.
  destruct (Hpassed g' Hg') as (rep & members & -> & Hfar).
  rewrite Forall_forall in Hfar. specialize (Hfar q Hq). rewrite Hsame in Hfar.
  apply Forall_app in Ha. destruct Ha as [_ Ha].
  inversion Ha as [|? ? (rep' & members' & E & Hnear) _]; subst.
  injection E as <- <-.
  destruct Hp as [<- | Hp].
  - apply Forall_app in Hm. destruct Hm as [_ Hm].
    inversion Hm as [|? ? Hrm _]; subst. inversion Hrm as [|? ? [Hf Hz] _]; subst.
    rewrite (near_self Hf Hz) in Hfar. discriminate Hfar.
  - rewrite Forall_forall in Hnear. rewrite (Hnear p Hp) in Hfar. discriminate Hfar.
Qed.

Lemma facts_sit_in_first_near_cluster_witness :
  Forall plain_price [fact "a" 1000; fact "b" 1500; fact "c" 1010]
  /\ exists clusters,
      cluster_prices [fact "a" 1000; fact "b" 1500; fact "c" 1010] = Ok clusters
      /\ Forall anchored clusters
      /\ settled clusters
      /\ forall before g after p g' q,
          clusters = before ++ g :: after ->
          In p g -> In g' after -> In q g' -> pi_price q <> pi_price p.
Proof.
  assert (H : Forall plain_price [fact "a" 1000; fact "b" 1500; fact "c" 1010])
    by (repeat constructor).
  split; [exact H | exact (facts_sit_in_first_near_cluster H)].
Defined.

End SettledProperties.

Section ContactProperties.

Import ContactSpec ContactFacts.

(** X15: every phone number [extract_contact_info] returns has ten to
    thirteen digits, and every email address has exactly one [@] and
    ends, after a point, with two characters or more that are ASCII
    letters or the bar [|], which the class [[A-Z|a-z]] admits: the text
    [mail a@b.c|d now] gives the address [a@b.c|d].  The context of
    each is that of [get_price_context]. *)
Theorem contacts_shaped (text : pystr) :
  Forall (fun item => phone_shaped (item_value item)
                      /\ item_context item = get_price_context text (item_value item))
         (phone_numbers (extract_contact_info text))
  /\ Forall (fun item => email_shaped (item_value item)
                         /\ item_context item = get_price_context text (item_value item))
            (email_addresses (extract_contact_info text))
  /\ map item_value (email_addresses (extract_contact_info (lit "mail a@b.c|d now")))
     = [lit "a@b.c|d"].
Proof.
  unfold extract_contact_info. cbn [phone_numbers email_addresses].
  split; [|split].
  - rewrite Forall_forall. intros item Hitem.
    apply in_flat_map in Hitem. destruct Hitem as (pattern & Hp & Hitem).
    apply in_map_iff in Hitem. destruct Hitem as (m & <- & Hm).
    split; [|reflexivity]. cbn [item_value].
    pose proof (phones_shaped text Hp) as Hall.
    rewrite Forall_forall in Hall. apply Hall, Hm.
  - rewrite Forall_forall. intros item Hitem.
    apply in_map_iff in Hitem. destruct Hitem as (m & <- & Hm).
    split; [|reflexivity]. cbn [item_value].
    pose proof (emails_shaped text) as Hall.
    rewrite Forall_forall in Hall. apply Hall, Hm.
  - vm_compute. reflexivity.
Qed.

End ContactProperties.

Section SpeedProperties.

Import Regex ExtractFacts SpeedSpec SpeedFacts.

(** X16: [extract_package_details] never raises, and it records every
    speed in Mbps twice: with [re.IGNORECASE] the patterns of lines 120
    and 121 are the same pattern, so the speeds start with the matches
    of [Mbps], each with its value and context, followed by the same
    entries once more.  The text [Speed 100 Mbps] gives the speeds 100
    and 100. *)
Theorem mbps_speeds_recorded_twice :
  (forall text : pystr,
      exists details mbps others,
        extract_package_details text = Ok details
        /\ speeds details = mbps ++ mbps ++ others
        /\ Forall2 (fun m s => float_of_str m = Ok (speed_value s)
                               /\ speed_context s = get_price_context text m)
                   (findall (Seq decimal_number (Seq (Star Space) (Lit (lit "Mbps"))))
                            text)
                   mbps)
  /\ (exists details,
         extract_package_details (lit "Speed 100 Mbps") = Ok details
         /\ map speed_value (speeds details) = [float_of_N 100; float_of_N 100]).
Proof.
  split; [|eexists; split; [vm_compute; reflexivity | reflexivity]].
  intros text.
  destruct (extract_package_details_total text) as [details Hd].
  exists details. pose proof Hd as Hd0. unfold extract_package_details in Hd.
  destruct mbps_twice as (mbps_pattern & other1 & other2 & Ep & Em).
  rewrite Ep in Hd. cbn [for_each] in Hd.
  fold (record_speeds text [] (findall mbps_pattern text)) in Hd.
  destruct (record_speeds text [] (findall mbps_pattern text)) as [mbps|] eqn:E1;
    [|discriminate Hd].
  cbn [bind] in Hd.
  fold (record_speeds text mbps (findall mbps_pattern text)) in Hd.
  rewrite record_speeds_appends, E1 in Hd. cbn [bind] in Hd.
  fold (record_speeds text (mbps ++ mbps) (findall other1 text)) in Hd.
  rewrite record_speeds_appends in Hd.
  destruct (record_speeds text [] (findall other1 text)) as [more1|];
    [|discriminate Hd].
  cbn [bind] in Hd.
  fold (record_speeds text ((mbps ++ mbps) ++ more1) (findall other2 text)) in Hd.
  rewrite record_speeds_appends in Hd.
  destruct (record_speeds text [] (findall other2 text)) as [more2|];
    [|discriminate Hd].
  cbn [bind] in Hd.
  destruct (for_each _ data_patterns []) as [limits|]; [|discriminate Hd].
  cbn [bind] in Hd. injection Hd as <-. cbn [speeds].
  exists mbps, (more1 ++ more2).
  split; [exact Hd0|]. split; [rewrite <- !app_assoc; reflexivity|].
  destruct (record_speeds_each _ _ _ E1) as (new & -> & Hnew).
  subst mbps_pattern. exact Hnew.
Qed.

End SpeedProperties.

Section PackageProperties.

Import PackageSpec PackageFacts.

Variable repr_float : float -> pystr.
Variable list_of_float_set : list float -> list float.
Variable list_of_str_set : list pystr -> list pystr.

(** X17: [analyze_package_consistency] never raises and only adds
    findings.  Every finding it adds is about two packages or more, of
    pages with different addresses, each the speeds, data limits and
    language of a page whose sorted feature names give the finding's
    key; and two of the speeds (or of the data limits) of these packages
    differ.  With one page or none it adds nothing. *)
Theorem package_findings_span_pages (self : analyzer) :
  exists new,
    analyze_package_consistency repr_float list_of_float_set list_of_str_set self
    = Ok (package_details_discrepancies (found self) ++ new)
    /\ Forall (fun d => several_pages (data self) d /\ varies repr_float d) new
    /\ ((length (data self) <= 1)%nat -> new = []).
Proof.
  destruct (package_findings repr_float list_of_float_set list_of_str_set self)
    as (new & E & Hall).
  exists new. split; [exact E|]. split; [exact Hall|].
  intros Hlen. destruct new as [|d new]; [reflexivity|]. exfalso.
  apply Forall_inv in Hall. destruct Hall as [(H2 & Hnd & Hfrom) _].
  assert (Hincl : incl (map pkg_url (finding_packages d)) (map fst (data self))).
  { intros u Hu. apply in_map_iff in Hu. destruct Hu as (pkg & <- & Hpkg).
    rewrite Forall_forall in Hfrom.
    destruct (Hfrom pkg Hpkg) as (page & details & Hin & _).
    apply in_map_iff. exists (pkg_url pkg, page). auto. }
  pose proof (NoDup_incl_length Hnd Hincl) as Hle.
  rewrite !length_map in Hle. lia.
Qed.

End PackageProperties.

Section TranslationProperties.

Import BucketSpec BucketFacts MismatchSpec MismatchFacts Examples.

Variable list_of_str_difference : list pystr -> list pystr -> list pystr.

(** X18: when the comparison of two pages returns, its findings are
    exactly these.  If [might_be_translations] rejects the pair there
    is none.  Otherwise there is the price finding exactly when both
    pages have prices and [price_lists_match] answers [False], and the
    feature finding exactly when both pages name features and some
    feature is named on one page only: the test of line 456 never
    drops a pair whose feature sets differ. *)
Theorem pair_findings_characterised
        (lang1 lang2 : language) (url1 url2 : pystr) (info1 info2 : page_info)
        (out : list translation_mismatch) :
  compare_pages list_of_str_difference lang1 lang2 (url1, info1) (url2, info2) = Ok out ->
  forall m,
    In m out <-> pair_finding list_of_str_difference lang1 lang2 url1 url2 info1 info2 m.
Proof. apply compare_pages_spec. Qed.

(** X19: when the translation analysis returns, the findings it adds
    are exactly those of the comparisons of an English bucket entry
    with a Sinhala bucket entry, and those about a mixed page whose
    prices in English contexts do not match its prices in Sinhala
    contexts.  When no address occurs twice among the pages, no finding
    compares a page with itself. *)
Theorem translation_findings_characterised
        (self : analyzer) (out : list translation_mismatch) :
  analyze_translation_consistency list_of_str_difference self = Ok out ->
  exists lp new,
    partition_pages (data self) = Ok lp
    /\ well_held (data self) lp
    /\ out = translation_mismatches (found self) ++ new
    /\ (forall m, In m new <-> bucket_finding list_of_str_difference lp m)
    /\ (NoDup (map fst (data self)) ->
        forall m, In m new -> second_url m <> Some (first_url m)).
Proof.
  intros H.
  destruct (translation_findings list_of_str_difference self H)
    as (lp & new & Hlp & Hheld & Hdisjoint & Eout & Hnew).
  exists lp, new. split; [exact Hlp|]. split; [exact Hheld|].
  split; [exact Eout|]. split; [exact Hnew|].
  intros Hnd m Hm. apply Hnew in Hm.
  destruct Hm as [(url1 & info1 & url2 & info2 & H1 & H2 & _ & Hm)
                 | (url & info & _ & -> & _)]; [|discriminate].
  assert (Hurls : url2 <> url1).
  { intros ->. destruct (Hdisjoint Hnd url1) as [Hes _]. apply Hes. split.
    - apply in_map_iff. exists (url1, info1). auto.
    - apply in_map_iff. exists (url1, info2). auto. }
  destruct Hm as [(-> & _) | (-> & _)]; cbn [second_url first_url price_finding
                                              feature_finding]; congruence.
Qed.

End TranslationProperties.

Section TranslationWitnesses.

Import BucketSpec MismatchSpec Examples.

Lemma pair_findings_characterised_witness :
  let finding := feature_finding set_difference English Sinhala
                                 english_plan_url sinhala_plan_url
                                 (naming ["fiber"%string]) (naming ["adsl"%string]) in
  compare_pages set_difference English Sinhala
                (english_plan_url, naming ["fiber"%string])
                (sinhala_plan_url, naming ["adsl"%string])
  = Ok [finding]
  /\ (In finding [finding]
      <-> pair_finding set_difference English Sinhala english_plan_url sinhala_plan_url
                       (naming ["fiber"%string]) (naming ["adsl"%string]) finding).
Proof.
  intros finding.
  assert (H : compare_pages set_difference English Sinhala
                            (english_plan_url, naming ["fiber"%string])
                            (sinhala_plan_url, naming ["adsl"%string])
              = Ok [finding]) by (vm_compute; reflexivity).
  split; [exact H|].
  exact (@pair_findings_characterised set_difference English Sinhala
           english_plan_url sinhala_plan_url
           (naming ["fiber"%string]) (naming ["adsl"%string]) [finding] H finding).
Defined.

Lemma translation_findings_characterised_witness :
  exists out,
    analyze_translation_consistency set_difference (new_analyzer [] translated_pages)
    = Ok out
    /\ exists lp new,
        partition_pages translated_pages = Ok lp
        /\ well_held translated_pages lp
        /\ out = [] ++ new
        /\ (forall m, In m new <-> bucket_finding set_difference lp m)
        /\ (NoDup (map fst translated_pages) ->
            forall m, In m new -> second_url m <> Some (first_url m)).
Proof.
  eexists. split; [vm_compute; reflexivity|].
  apply (@translation_findings_characterised
           set_difference (new_analyzer [] translated_pages)).
  vm_compute. reflexivity.
Defined.

End TranslationWitnesses.

Section ContactFindingProperties.

Import ContactSpec ContactFindingSpec ContactMore.

Variable list_of_str_set : list pystr -> list pystr.

(** X20: the contact analysis adds at most one finding about phone
    numbers and at most one about email addresses.  A finding counts
    the different values among its details, more than three; each
    detail is a phone number of ten to thirteen digits (or an address
    with exactly one [@]) that [extract_contact_info] found on a page
    of the data, with the context [get_price_context] gives it there. *)
Theorem contact_findings_shaped (self : analyzer) :
  exists new,
    analyze_contact_consistency list_of_str_set self
    = contact_info_discrepancies (found self) ++ new
    /\ Forall (contact_finding list_of_str_set (data self)) new
    /\ (length (filter about_phones new) <= 1)%nat
    /\ (length (filter (fun d => negb (about_phones d)) new) <= 1)%nat.
Proof. apply contact_findings. Qed.

End ContactFindingProperties.
